(** * Ultrasonic multipath flow meter: a shallow embedding of the core

    The development follows [flowmeter.c] / [flowmeter.h]:

    - a C [double] is an IEEE 754 binary64 number, modelled by Rocq's
      primitive [float] (round to nearest, ties to even, one NaN);
      expressions are evaluated operation by operation in the order
      the C source writes them, without fused multiply-add;
    - [sin] comes from libm and is a parameter of the development;
    - a pointer to constant input data ([config], [measurements],
      [config->paths]) is an [option] of the data it points to, [None]
      being the null pointer;
    - storage that the code allocates, writes and frees lives in an explicit
      [memory], threaded through a small state-and-fault monad; a fault is
      C undefined behaviour (access out of bounds, invalid free, use of an
      indeterminate value); [malloc] returns the null pointer when the
      requested bytes exceed what the allocator has left;
    - [uint32_t num_paths] is an [N]; the code only compares it and
      multiplies it by [sizeof(double)] in [size_t] (64 bits), so no
      wrap-around occurs. *)

From Stdlib Require Import ZArith NArith List Bool Lia.
From Stdlib Require Import Floats String.
From stdpp Require Import gmap.

Set Warnings "-inexact-float".

(** ** Data model ([flowmeter.h]) *)

Record AcousticPath := {
  position : float;
  angle : float;
  length : float;
  weight : float
}.

Record FlowMeterConfig := {
  pipe_diameter : float;
  num_paths : N;
  paths : option (list AcousticPath)
}.

Record PathMeasurement := {
  t_upstream : float;
  t_downstream : float
}.

Definition addr := positive.

(** A field of freshly allocated storage is indeterminate ([None]) until
    it is written. *)
Record FlowResult := {
  path_velocities : option (option addr);
  volumetric_flow : option float
}.

(** [M_PI] of <math.h>, 3.14159265358979323846, as a binary64 value. *)
Definition M_PI : float := 0x1.921fb54442d18p+1%float.

(** ** Memory *)

Inductive object :=
  | Obj_FlowResult (r : FlowResult)
  | Obj_doubles (cells : list (option float)).

Definition sizeof_double : N := 8.
Definition sizeof_FlowResult : N := 16.

Definition size_of (o : object) : N :=
  match o with
  | Obj_FlowResult _ => sizeof_FlowResult
  | Obj_doubles cells => sizeof_double * N.of_nat (List.length cells)
  end.

(** [objs]: the live allocations; [avail]: the bytes the allocator can
    still hand out. *)
Record memory := {
  objs : gmap addr object;
  avail : N
}.

Definition M (A : Type) : Type := memory -> option (A * memory).

Definition ret {A} (a : A) : M A := fun m => Some (a, m).

Definition bind {A B} (c : M A) (k : A -> M B) : M B :=
  fun m => match c m with
           | Some (a, m') => k a m'
           | None => None
           end.

Definition fault {A} : M A := fun _ => None.

Notation "'let*' x ':=' c 'in' k" := (bind c (fun x => k))
  (at level 10, x name, c at level 100, k at level 200).

(** [malloc sz init]: a null pointer when [sz] bytes are not available,
    otherwise a fresh address holding [init]. *)
Definition malloc (sz : N) (init : object) : M (option addr) :=
  fun m =>
    if (sz <=? avail m)%N then
      let a := fresh (dom (objs m)) in
      Some (Some a, {| objs := <[a := init]> (objs m); avail := avail m - sz |})
    else Some (None, m).

Definition free (a : addr) : M unit :=
  fun m =>
    match objs m !! a with
    | Some o => Some (tt, {| objs := delete a (objs m); avail := avail m + size_of o |})
    | None => None
    end.

Definition load_result (r : addr) : M FlowResult :=
  fun m =>
    match objs m !! r with
    | Some (Obj_FlowResult fr) => Some (fr, m)
    | _ => None
    end.

Definition store_result (r : addr) (fr : FlowResult) : M unit :=
  fun m =>
    match objs m !! r with
    | Some (Obj_FlowResult _) =>
        Some (tt, {| objs := <[r := Obj_FlowResult fr]> (objs m); avail := avail m |})
    | _ => None
    end.

(** [result->path_velocities = p] and [result->volumetric_flow = v]. *)
Definition store_path_velocities (r : addr) (p : option addr) : M unit :=
  let* fr := load_result r in
  store_result r {| path_velocities := Some p;
                    volumetric_flow := volumetric_flow fr |}.

Definition store_volumetric_flow (r : addr) (v : float) : M unit :=
  let* fr := load_result r in
  store_result r {| path_velocities := path_velocities fr;
                    volumetric_flow := Some v |}.

(** [result->path_velocities] as an rvalue. *)
Definition load_path_velocities (r : addr) : M (option addr) :=
  let* fr := load_result r in
  match path_velocities fr with
  | Some p => ret p
  | None => fault
  end.

(** [p[i]] as an rvalue. *)
Definition load_double (p : option addr) (i : nat) : M float :=
  fun m =>
    match p with
    | Some a =>
        match objs m !! a with
        | Some (Obj_doubles cells) =>
            match cells !! i with
            | Some (Some v) => Some (v, m)
            | _ => None
            end
        | _ => None
        end
    | None => None
    end.

(** [p[i] = v]. *)
Definition store_double (p : option addr) (i : nat) (v : float) : M unit :=
  fun m =>
    match p with
    | Some a =>
        match objs m !! a with
        | Some (Obj_doubles cells) =>
            if decide (i < List.length cells) then
              Some (tt, {| objs := <[a := Obj_doubles (<[i := Some v]> cells)]> (objs m);
                           avail := avail m |})
            else None
        | _ => None
        end
    | None => None
    end.

Definition is_null {A} (p : option A) : bool :=
  match p with
  | None => true
  | Some _ => false
  end.

(** [*p] for a pointer to constant data. *)
Definition deref {A} (p : option A) : M A :=
  match p with
  | Some x => ret x
  | None => fault
  end.

(** [&a[i]] followed by a read through it. *)
Definition index {A} (a : list A) (i : nat) : M A :=
  match a !! i with
  | Some x => ret x
  | None => fault
  end.

(** ** The program ([flowmeter.c]) *)

Section Flowmeter.

(** libm's [sin]. *)
Variable sin : float -> float.

Definition calculate_path_velocity (path : option AcousticPath)
    (measurement : option PathMeasurement) : float :=
  match path, measurement with
  | Some p, Some ms =>
      let t_up := t_upstream ms in
      let t_down := t_downstream ms in
      if (t_up <=? 0)%float || (t_down <=? 0)%float then 0%float
      else
        let delta_t := (t_up - t_down)%float in
        let sin_theta := sin (angle p) in
        if (sin_theta =? 0)%float then 0%float
        else ((length p / (2 * sin_theta)) * (delta_t / (t_up * t_down)))%float
  | _, _ => 0%float
  end.

(** The body of the [for] loop, from index [i] with [remaining]
    iterations to go. *)
Fixpoint velocity_loop (remaining i : nat) (ps : list AcousticPath)
    (measurements : list PathMeasurement) (result : addr)
    (weighted_velocity_sum : float) : M float :=
  match remaining with
  | O => ret weighted_velocity_sum
  | S k =>
      let* p := index ps i in
      let* ms := index measurements i in
      let* pv := load_path_velocities result in
      let* _ := store_double pv i (calculate_path_velocity (Some p) (Some ms)) in
      let* pv' := load_path_velocities result in
      let* v := load_double pv' i in
      velocity_loop k (S i) ps measurements result
        (weighted_velocity_sum + weight p * v)%float
  end.

Definition area_of (c : FlowMeterConfig) : float :=
  let radius := (pipe_diameter c / 2)%float in
  (M_PI * radius * radius)%float.

Definition calculate_flow_rate (config : option FlowMeterConfig)
    (measurements : option (list PathMeasurement)) (result : option addr) : M Z :=
  match config, measurements, result with
  | Some c, Some ms, Some r =>
      if (num_paths c =? 0)%N || is_null (paths c) then ret (-1)%Z
      else
        let n := N.to_nat (num_paths c) in
        let* pv := malloc (num_paths c * sizeof_double)
                          (Obj_doubles (replicate n None)) in
        let* _ := store_path_velocities r pv in
        if is_null pv then ret (-1)%Z
        else
          let* ps := deref (paths c) in
          let* weighted_velocity_sum := velocity_loop n 0 ps ms r 0%float in
          let area := area_of c in
          let* _ := store_volumetric_flow r (area * weighted_velocity_sum)%float in
          ret 0%Z
  | _, _, _ => ret (-1)%Z
  end.

Definition flowmeter_process (config : option FlowMeterConfig)
    (measurements : option (list PathMeasurement)) : M (option addr) :=
  match config, measurements with
  | Some _, Some _ =>
      let* result := malloc sizeof_FlowResult
                       (Obj_FlowResult {| path_velocities := None;
                                          volumetric_flow := None |}) in
      match result with
      | None => ret None
      | Some r =>
          let* rc := calculate_flow_rate config measurements (Some r) in
          if (rc =? 0)%Z then ret (Some r)
          else let* _ := free r in ret None
      end
  | _, _ => ret None
  end.

Definition flowmeter_result_free (result : option addr) : M unit :=
  match result with
  | Some r =>
      let* pv := load_path_velocities r in
      let* _ := match pv with
                | Some a => free a
                | None => ret tt
                end in
      free r
  | None => ret tt
  end.

End Flowmeter.

(** ** The integration as a function of lists

    What the loop of [calculate_flow_rate] computes, stated on lists: the
    velocities index by index, and the weighted sum accumulated from the
    left in configuration order. *)

Definition velocities_of (sin : float -> float) (ps : list AcousticPath)
    (ms : list PathMeasurement) : list float :=
  zip_with (fun p m => calculate_path_velocity sin (Some p) (Some m)) ps ms.

Definition accumulate (acc : float) (pv : AcousticPath * float) : float :=
  (acc + weight pv.1 * pv.2)%float.

Definition weighted_sum (ps : list AcousticPath) (vs : list float) : float :=
  fold_left accumulate (zip ps vs) 0%float.

Definition flow_of (c : FlowMeterConfig) (ps : list AcousticPath)
    (vs : list float) : float :=
  (area_of c * weighted_sum ps vs)%float.

(** ** Observing a result *)

(** What a caller reads through [result]: the velocity array and the flow. *)
Definition read_result (m : memory) (r : addr) :
    option (list (option float) * option float) :=
  match objs m !! r with
  | Some (Obj_FlowResult fr) =>
      match path_velocities fr with
      | Some (Some a) =>
          match objs m !! a with
          | Some (Obj_doubles cells) => Some (cells, volumetric_flow fr)
          | _ => None
          end
      | _ => None
      end
  | _ => None
  end.

(** [holds_result m r vs q]: in [m], the aggregate at [r] is fully
    populated, its velocity array holds exactly [vs] and its flow is [q]. *)
Definition holds_result (m : memory) (r : addr) (vs : list float) (q : float) : Prop :=
  read_result m r = Some (Some <$> vs, Some q).

(** The memory a successful [calculate_flow_rate] leaves behind. *)
Definition result_memory (m : memory) (r a : addr) (vs : list float) (q : float)
    (sz : N) : memory :=
  {| objs := <[r := Obj_FlowResult {| path_velocities := Some (Some a);
                                      volumetric_flow := Some q |}]>
               (<[a := Obj_doubles (Some <$> vs)]> (objs m));
     avail := avail m - sz |}.

(** The memory [calculate_flow_rate] leaves behind when the velocity
    array cannot be allocated. *)
Definition null_velocities (m : memory) (r : addr) (fr : FlowResult) : memory :=
  {| objs := <[r := Obj_FlowResult {| path_velocities := Some None;
                                      volumetric_flow := volumetric_flow fr |}]> (objs m);
     avail := avail m |}.

(** ** Preconditions and error conditions, in the words of the spec *)

(** Absent configuration or measurements reference, zero path count, or
    absent paths sequence. *)
Definition configuration_error (config : option FlowMeterConfig)
    (measurements : option (list PathMeasurement)) : Prop :=
  config = None \/ measurements = None \/
  exists c, config = Some c /\ (num_paths c = 0%N \/ paths c = None).

(** The sequences that are present have at least [num_paths] elements. *)
Definition well_formed (config : option FlowMeterConfig)
    (measurements : option (list PathMeasurement)) : Prop :=
  forall c ms ps,
    config = Some c -> measurements = Some ms -> paths c = Some ps ->
    N.to_nat (num_paths c) <= List.length ps /\
    N.to_nat (num_paths c) <= List.length ms.

(** A present [result] reference designates a [FlowResult] object. *)
Definition valid_result (m : memory) (result : option addr) : Prop :=
  forall r, result = Some r -> exists fr, objs m !! r = Some (Obj_FlowResult fr).

(** The bytes [flowmeter_process] asks of the allocator. *)
Definition bytes_needed (c : FlowMeterConfig) : N :=
  sizeof_FlowResult + num_paths c * sizeof_double.

(** ** Comparing doubles *)

(** Equal as IEEE 754 numbers ([+0] and [-0] compare equal), a NaN
    matching a NaN. *)
Definition feq (x y : float) : bool :=
  (x =? y)%float || (is_nan x && is_nan y).

(** [x] is within 1 % of [ref]. *)
Definition within_1pct (x ref : float) : bool :=
  (abs (x - ref) <=? 0.01 * abs ref)%float.

Definition SFzero (x : spec_float) : bool :=
  match x with
  | S754_zero _ => true
  | _ => false
  end.

(** [mirrored a b]: [a] is the negation of [b], up to the sign of a zero. *)
Definition mirrored (a b : spec_float) : Prop :=
  a = SFopp b \/ (SFzero a = true /\ SFzero b = true).

Definition fmirrored (x y : float) : Prop := mirrored (Prim2SF x) (Prim2SF y).

Definition swap_times (ms : PathMeasurement) : PathMeasurement :=
  {| t_upstream := t_downstream ms; t_downstream := t_upstream ms |}.

(** ** Concrete inputs *)

(** libm's sine at the two angles the examples below use: [sin(M_PI/2)]
    is 1 and [sin(M_PI/4)] is 0x1.6a09e667f3bccp-1, the binary64 values
    nearest to the exact sines.  The examples evaluate it at no other
    argument; elsewhere it is the small-angle value [x]. *)
Definition sin_sample (x : float) : float :=
  if (x =? M_PI / 2)%float then 1%float
  else if (x =? M_PI / 4)%float then 0x1.6a09e667f3bccp-1%float
  else x.

(** The two binary64 neighbours of the exact [sin(M_PI/4)]. *)
Definition sin_quarter_pi_lo : float := 0x1.6a09e667f3bccp-1%float.
Definition sin_quarter_pi_hi : float := 0x1.6a09e667f3bcdp-1%float.

(** The end-to-end scenario of the specification: one 45 degree path
    across a 0.1 m pipe. *)
Definition scenario_path (sin : float -> float) : AcousticPath :=
  {| position := 0%float;
     angle := (M_PI / 4)%float;
     length := (0.1 / sin (M_PI / 4))%float;
     weight := 1%float |}.

Definition scenario_config (sin : float -> float) : FlowMeterConfig :=
  {| pipe_diameter := 0.1%float;
     num_paths := 1;
     paths := Some [scenario_path sin] |}.

Definition scenario_measurements : list PathMeasurement :=
  [ {| t_upstream := 9.4925e-5%float; t_downstream := 9.5948e-5%float |} ].

(** A caller-provided [FlowResult] at address 1, fields indeterminate,
    and [bytes] bytes left in the allocator. *)
Definition caller_memory (bytes : N) : memory :=
  {| objs := {[ 1%positive := Obj_FlowResult {| path_velocities := None;
                                                volumetric_flow := None |} ]};
     avail := bytes |}.

Definition empty_memory (bytes : N) : memory :=
  {| objs := ∅; avail := bytes |}.

(** A path perpendicular to the axis whose velocity is [len / 4] for the
    transit times 2 s and 1 s. *)
Definition square_path (len : float) : AcousticPath :=
  {| position := 0%float;
     angle := (M_PI / 2)%float;
     length := len;
     weight := 1%float |}.

Definition square_config (len : float) : FlowMeterConfig :=
  {| pipe_diameter := 0.1%float;
     num_paths := 1;
     paths := Some [square_path len] |}.

Definition square_measurements : list PathMeasurement :=
  [ {| t_upstream := 2%float; t_downstream := 1%float |} ].

Definition no_paths_config : FlowMeterConfig :=
  {| pipe_diameter := 0.1%float; num_paths := 0; paths := Some [] |}.

(** A populated one-path result at address 1 with its velocity array at
    address 2. *)
Definition populated_memory : memory :=
  {| objs := <[ 1%positive := Obj_FlowResult {| path_velocities := Some (Some 2%positive);
                                                volumetric_flow := Some 0.5%float |} ]>
               {[ 2%positive := Obj_doubles [Some 10%float] ]};
     avail := 0 |}.

(** The return code of a run together with what the caller then reads
    through [r]. *)
Definition observe (run : option (Z * memory)) (r : addr) :
    option (Z * option (list (option float) * option float)) :=
  match run with
  | Some (rc, m) => Some (rc, read_result m r)
  | None => None
  end.

(** The memory a run ends in. *)
Definition final_memory {A} (run : option (A * memory)) (m0 : memory) : memory :=
  match run with
  | Some (_, m) => m
  | None => m0
  end.

(** The scenario's path velocity as a function of the value [s] that
    libm returns for [sin(M_PI/4)]. *)
Definition scenario_velocity (s : float) : float :=
  calculate_path_velocity (fun _ => s) (Some (scenario_path (fun _ => s)))
    (Some {| t_upstream := 9.4925e-5%float; t_downstream := 9.5948e-5%float |}).

(** A second path and measurement, beyond the first [num_paths]. *)
Definition spare_path : AcousticPath :=
  {| position := 0.25%float; angle := (M_PI / 4)%float;
     length := 1%float; weight := 0.5%float |}.

Definition spare_measurement : PathMeasurement :=
  {| t_upstream := 3%float; t_downstream := 4%float |}.

(** ** Further predicates on doubles *)

(** [x] is [+0], [-0] or NaN. *)
Definition zero_or_nan (x : float) : bool :=
  (x =? 0)%float || is_nan x.

Definition SFzero_or_nan (x : spec_float) : bool :=
  match x with
  | S754_zero _ | S754_nan => true
  | _ => false
  end.

(** ** Further concrete inputs *)


(** Two paths agree on everything the integration reads. *)
Definition same_geometry (p p' : AcousticPath) : Prop :=
  angle p = angle p' /\ length p = length p' /\ weight p = weight p'.

(** The velocity array that the aggregate at [r] points to. *)
Definition velocities_pointer (m : memory) (r : addr) : option addr :=
  match objs m !! r with
  | Some (Obj_FlowResult fr) =>
      match path_velocities fr with
      | Some (Some a) => Some a
      | _ => None
      end
  | _ => None
  end.

(** The memory after one, and after two, runs of the one-path
    configuration on the caller's result object. *)
Definition after_one_run : memory :=
  final_memory (calculate_flow_rate sin_sample (Some (square_config 40))
                  (Some square_measurements) (Some 1%positive) (caller_memory 16))
    (caller_memory 16).

Definition after_two_runs : memory :=
  final_memory (calculate_flow_rate sin_sample (Some (square_config 40))
                  (Some square_measurements) (Some 1%positive) after_one_run)
    after_one_run.

(** * The demonstration program ([main.c])

    The program keeps its own objects on the heap: configurations, arrays
    of paths and arrays of measurements.  They live in a second map, [own],
    next to the memory of the flow-meter functions; the two maps are
    separate address spaces (an address names an object by its type), and
    they share the allocator's budget, [avail (meter s)].  Every field of
    freshly allocated storage is indeterminate ([None]) until it is
    written.  A call of [printf] is recorded in [console] with its format
    string, kept as the source writes it (escape sequences unexpanded), and
    its arguments.

    Where the source passes one of its objects to a [const] pointer
    parameter, the model passes the object's value ([view_config],
    [view_measurements]); taking the value reads every field, so a field
    still indeterminate is a fault there. *)

Record path_cell := {
  cell_position : option float;
  cell_angle : option float;
  cell_length : option float;
  cell_weight : option float
}.

Record measurement_cell := {
  cell_t_upstream : option float;
  cell_t_downstream : option float
}.

Record config_cell := {
  cell_pipe_diameter : option float;
  cell_num_paths : option N;
  cell_paths : option (option addr)
}.

Inductive demo_object :=
  | Obj_config (c : config_cell)
  | Obj_paths (cells : list path_cell)
  | Obj_measurements (cells : list measurement_cell).

Definition sizeof_FlowMeterConfig : N := 24.
Definition sizeof_AcousticPath : N := 32.
Definition sizeof_PathMeasurement : N := 16.

Definition demo_size_of (o : demo_object) : N :=
  match o with
  | Obj_config _ => sizeof_FlowMeterConfig
  | Obj_paths cells => sizeof_AcousticPath * N.of_nat (List.length cells)
  | Obj_measurements cells => sizeof_PathMeasurement * N.of_nat (List.length cells)
  end.

Inductive printf_arg :=
  | Arg_double (x : float)
  | Arg_unsigned (n : N).

Inductive output :=
  | Stdout (format : string) (args : list printf_arg)
  | Stderr (format : string).

Record program_state := {
  meter : memory;
  own : gmap addr demo_object;
  console : list output
}.

Definition P (A : Type) : Type := program_state -> option (A * program_state).

Definition pret {A} (a : A) : P A := fun s => Some (a, s).

Definition pbind {A B} (c : P A) (k : A -> P B) : P B :=
  fun s => match c s with
           | Some (a, s') => k a s'
           | None => None
           end.

Definition pfault {A} : P A := fun _ => None.

Notation "'let+' x ':=' c 'in' k" := (pbind c (fun x => k))
  (at level 10, x name, c at level 100, k at level 200).

(** A call into the flow-meter functions. *)
Definition lift {A} (c : M A) : P A :=
  fun s => match c (meter s) with
           | Some (a, m') => Some (a, {| meter := m'; own := own s; console := console s |})
           | None => None
           end.

Definition pmalloc (sz : N) (init : demo_object) : P (option addr) :=
  fun s =>
    if (sz <=? avail (meter s))%N then
      let a := fresh (dom (own s)) in
      Some (Some a, {| meter := {| objs := objs (meter s); avail := avail (meter s) - sz |};
                       own := <[a := init]> (own s);
                       console := console s |})
    else Some (None, s).

Definition pfree (a : addr) : P unit :=
  fun s =>
    match own s !! a with
    | Some o => Some (tt, {| meter := {| objs := objs (meter s);
                                         avail := avail (meter s) + demo_size_of o |};
                             own := delete a (own s);
                             console := console s |})
    | None => None
    end.

(** [free(p)]: nothing to do for the null pointer. *)
Definition free_ptr (p : option addr) : P unit :=
  match p with
  | Some a => pfree a
  | None => pret tt
  end.

Definition printf (format : string) (args : list printf_arg) : P unit :=
  fun s => Some (tt, {| meter := meter s; own := own s;
                        console := console s ++ [Stdout format args] |}).

Definition fprintf_stderr (format : string) : P unit :=
  fun s => Some (tt, {| meter := meter s; own := own s;
                        console := console s ++ [Stderr format] |}).

(** An rvalue read of a field. *)
Definition determinate {A} (field : option A) : P A :=
  match field with
  | Some x => pret x
  | None => pfault
  end.

Definition load_config (cfg : addr) : P config_cell :=
  fun s =>
    match own s !! cfg with
    | Some (Obj_config c) => Some (c, s)
    | _ => None
    end.

Definition store_config (cfg : addr) (c : config_cell) : P unit :=
  fun s =>
    match own s !! cfg with
    | Some (Obj_config _) =>
        Some (tt, {| meter := meter s; own := <[cfg := Obj_config c]> (own s);
                     console := console s |})
    | _ => None
    end.

Definition load_path_cell (p : option addr) (i : nat) : P path_cell :=
  fun s =>
    match p with
    | Some a =>
        match own s !! a with
        | Some (Obj_paths cells) =>
            match cells !! i with
            | Some c => Some (c, s)
            | None => None
            end
        | _ => None
        end
    | None => None
    end.

Definition store_path_cell (p : option addr) (i : nat) (c : path_cell) : P unit :=
  fun s =>
    match p with
    | Some a =>
        match own s !! a with
        | Some (Obj_paths cells) =>
            if decide (i < List.length cells) then
              Some (tt, {| meter := meter s;
                           own := <[a := Obj_paths (<[i := c]> cells)]> (own s);
                           console := console s |})
            else None
        | _ => None
        end
    | None => None
    end.

Definition load_measurement_cell (p : option addr) (i : nat) : P measurement_cell :=
  fun s =>
    match p with
    | Some a =>
        match own s !! a with
        | Some (Obj_measurements cells) =>
            match cells !! i with
            | Some c => Some (c, s)
            | None => None
            end
        | _ => None
        end
    | None => None
    end.

Definition store_measurement_cell (p : option addr) (i : nat) (c : measurement_cell) :
    P unit :=
  fun s =>
    match p with
    | Some a =>
        match own s !! a with
        | Some (Obj_measurements cells) =>
            if decide (i < List.length cells) then
              Some (tt, {| meter := meter s;
                           own := <[a := Obj_measurements (<[i := c]> cells)]> (own s);
                           console := console s |})
            else None
        | _ => None
        end
    | None => None
    end.

(** [config->pipe_diameter = d], [config->num_paths = n],
    [config->paths = p], and [config->paths] as an rvalue. *)
Definition set_pipe_diameter (cfg : addr) (d : float) : P unit :=
  let+ c := load_config cfg in
  store_config cfg {| cell_pipe_diameter := Some d;
                      cell_num_paths := cell_num_paths c;
                      cell_paths := cell_paths c |}.

Definition set_num_paths (cfg : addr) (n : N) : P unit :=
  let+ c := load_config cfg in
  store_config cfg {| cell_pipe_diameter := cell_pipe_diameter c;
                      cell_num_paths := Some n;
                      cell_paths := cell_paths c |}.

Definition set_paths (cfg : addr) (p : option addr) : P unit :=
  let+ c := load_config cfg in
  store_config cfg {| cell_pipe_diameter := cell_pipe_diameter c;
                      cell_num_paths := cell_num_paths c;
                      cell_paths := Some p |}.

Definition get_paths (cfg : addr) : P (option addr) :=
  let+ c := load_config cfg in
  determinate (cell_paths c).

(** [config->paths[i].position = v] and its three siblings. *)
Definition set_position (cfg : addr) (i : nat) (v : float) : P unit :=
  let+ p := get_paths cfg in
  let+ c := load_path_cell p i in
  store_path_cell p i {| cell_position := Some v; cell_angle := cell_angle c;
                         cell_length := cell_length c; cell_weight := cell_weight c |}.

Definition set_angle (cfg : addr) (i : nat) (v : float) : P unit :=
  let+ p := get_paths cfg in
  let+ c := load_path_cell p i in
  store_path_cell p i {| cell_position := cell_position c; cell_angle := Some v;
                         cell_length := cell_length c; cell_weight := cell_weight c |}.

Definition set_length (cfg : addr) (i : nat) (v : float) : P unit :=
  let+ p := get_paths cfg in
  let+ c := load_path_cell p i in
  store_path_cell p i {| cell_position := cell_position c; cell_angle := cell_angle c;
                         cell_length := Some v; cell_weight := cell_weight c |}.

Definition set_weight (cfg : addr) (i : nat) (v : float) : P unit :=
  let+ p := get_paths cfg in
  let+ c := load_path_cell p i in
  store_path_cell p i {| cell_position := cell_position c; cell_angle := cell_angle c;
                         cell_length := cell_length c; cell_weight := Some v |}.

(** [measurements[i].t_upstream = v] and [measurements[i].t_downstream = v]. *)
Definition set_t_upstream (p : option addr) (i : nat) (v : float) : P unit :=
  let+ c := load_measurement_cell p i in
  store_measurement_cell p i {| cell_t_upstream := Some v;
                                cell_t_downstream := cell_t_downstream c |}.

Definition set_t_downstream (p : option addr) (i : nat) (v : float) : P unit :=
  let+ c := load_measurement_cell p i in
  store_measurement_cell p i {| cell_t_upstream := cell_t_upstream c;
                                cell_t_downstream := Some v |}.

Definition indeterminate_config : config_cell :=
  {| cell_pipe_diameter := None; cell_num_paths := None; cell_paths := None |}.

Definition indeterminate_path : path_cell :=
  {| cell_position := None; cell_angle := None;
     cell_length := None; cell_weight := None |}.

Definition indeterminate_measurement : measurement_cell :=
  {| cell_t_upstream := None; cell_t_downstream := None |}.

(** The value of an object, for a [const] pointer parameter. *)
Definition path_value (c : path_cell) : option AcousticPath :=
  match cell_position c, cell_angle c, cell_length c, cell_weight c with
  | Some po, Some an, Some le, Some we =>
      Some {| position := po; angle := an; length := le; weight := we |}
  | _, _, _, _ => None
  end.

Definition measurement_value (c : measurement_cell) : option PathMeasurement :=
  match cell_t_upstream c, cell_t_downstream c with
  | Some u, Some d => Some {| t_upstream := u; t_downstream := d |}
  | _, _ => None
  end.

Definition view_paths (p : option addr) : P (option (list AcousticPath)) :=
  fun s =>
    match p with
    | None => Some (None, s)
    | Some a =>
        match own s !! a with
        | Some (Obj_paths cells) =>
            match mapM path_value cells with
            | Some ps => Some (Some ps, s)
            | None => None
            end
        | _ => None
        end
    end.

Definition view_config (config : option addr) : P (option FlowMeterConfig) :=
  match config with
  | None => pret None
  | Some cfg =>
      let+ c := load_config cfg in
      let+ d := determinate (cell_pipe_diameter c) in
      let+ n := determinate (cell_num_paths c) in
      let+ p := determinate (cell_paths c) in
      let+ ps := view_paths p in
      pret (Some {| pipe_diameter := d; num_paths := n; paths := ps |})
  end.

Definition view_measurements (measurements : option addr) :
    P (option (list PathMeasurement)) :=
  fun s =>
    match measurements with
    | None => Some (None, s)
    | Some a =>
        match own s !! a with
        | Some (Obj_measurements cells) =>
            match mapM measurement_value cells with
            | Some ms => Some (Some ms, s)
            | None => None
            end
        | _ => None
        end
    end.

Section Demo.

(** libm's [sin]. *)
Variable sin : float -> float.

Definition create_2path_config (pipe_diameter : float) : P (option addr) :=
  let+ config := pmalloc sizeof_FlowMeterConfig (Obj_config indeterminate_config) in
  match config with
  | None => pret None
  | Some cfg =>
      let+ _ := set_pipe_diameter cfg pipe_diameter in
      let+ _ := set_num_paths cfg 2 in
      let+ ps := pmalloc (2 * sizeof_AcousticPath)
                         (Obj_paths (replicate 2 indeterminate_path)) in
      let+ _ := set_paths cfg ps in
      let+ ps' := get_paths cfg in
      if is_null ps' then
        let+ _ := free_ptr config in
        pret None
      else
        let+ _ := set_position cfg 0 0.25%float in
        let+ _ := set_angle cfg 0 (M_PI / 4)%float in
        let+ _ := set_length cfg 0 (pipe_diameter / sin (M_PI / 4))%float in
        let+ _ := set_weight cfg 0 0.5%float in
        let+ _ := set_position cfg 1 (-0.25)%float in
        let+ _ := set_angle cfg 1 (M_PI / 4)%float in
        let+ _ := set_length cfg 1 (pipe_diameter / sin (M_PI / 4))%float in
        let+ _ := set_weight cfg 1 0.5%float in
        pret (Some cfg)
  end.

Definition create_4path_config (pipe_diameter : float) : P (option addr) :=
  let+ config := pmalloc sizeof_FlowMeterConfig (Obj_config indeterminate_config) in
  match config with
  | None => pret None
  | Some cfg =>
      let+ _ := set_pipe_diameter cfg pipe_diameter in
      let+ _ := set_num_paths cfg 4 in
      let+ ps := pmalloc (4 * sizeof_AcousticPath)
                         (Obj_paths (replicate 4 indeterminate_path)) in
      let+ _ := set_paths cfg ps in
      let+ ps' := get_paths cfg in
      if is_null ps' then
        let+ _ := free_ptr config in
        pret None
      else
        let+ _ := set_position cfg 0 0.35%float in
        let+ _ := set_angle cfg 0 (M_PI / 3)%float in
        let+ _ := set_length cfg 0 (pipe_diameter / sin (M_PI / 3))%float in
        let+ _ := set_weight cfg 0 0.25%float in
        let+ _ := set_position cfg 1 (-0.35)%float in
        let+ _ := set_angle cfg 1 (M_PI / 3)%float in
        let+ _ := set_length cfg 1 (pipe_diameter / sin (M_PI / 3))%float in
        let+ _ := set_weight cfg 1 0.25%float in
        let+ _ := set_position cfg 2 0.15%float in
        let+ _ := set_angle cfg 2 (M_PI / 4)%float in
        let+ _ := set_length cfg 2 (pipe_diameter / sin (M_PI / 4))%float in
        let+ _ := set_weight cfg 2 0.25%float in
        let+ _ := set_position cfg 3 (-0.15)%float in
        let+ _ := set_angle cfg 3 (M_PI / 4)%float in
        let+ _ := set_length cfg 3 (pipe_diameter / sin (M_PI / 4))%float in
        let+ _ := set_weight cfg 3 0.25%float in
        pret (Some cfg)
  end.

Definition free_config (config : option addr) : P unit :=
  match config with
  | Some cfg =>
      let+ ps := get_paths cfg in
      let+ _ := if is_null ps then pret tt else free_ptr ps in
      pfree cfg
  | None => pret tt
  end.

(** The body of the loop of [simulate_measurements]. *)
Fixpoint simulate_loop (remaining i : nat) (measurements : option addr)
    (c : FlowMeterConfig) (true_flow_velocity : float) : P unit :=
  match remaining with
  | O => pret tt
  | S k =>
      let+ ps := determinate (paths c) in
      let+ path := determinate (ps !! i) in
      let sound_speed := 1480%float in
      let path_component := (length path * sin (angle path))%float in
      let v_acoustic_up := (sound_speed - true_flow_velocity)%float in
      let v_acoustic_down := (sound_speed + true_flow_velocity)%float in
      let+ _ := set_t_upstream measurements i (path_component / v_acoustic_up)%float in
      let+ _ := set_t_downstream measurements i (path_component / v_acoustic_down)%float in
      simulate_loop k (S i) measurements c true_flow_velocity
  end.

Definition simulate_measurements (measurements : option addr)
    (config : option FlowMeterConfig) (true_flow_velocity : float) : P unit :=
  let+ c := determinate config in
  simulate_loop (N.to_nat (num_paths c)) 0 measurements c true_flow_velocity.

(** The body of the loop of [print_config]. *)
Fixpoint print_paths_loop (remaining i : nat) (c : FlowMeterConfig) : P unit :=
  match remaining with
  | O => pret tt
  | S k =>
      let+ _ := printf "  Path %u:\n" [Arg_unsigned (N.of_nat i + 1)] in
      let+ ps := determinate (paths c) in
      let+ path := determinate (ps !! i) in
      let+ _ := printf "    Position: %.2f D\n" [Arg_double (position path)] in
      let+ _ := printf "    Angle: %.2f° (%.4f rad)\n"
                  [Arg_double (angle path * 180 / M_PI)%float; Arg_double (angle path)] in
      let+ _ := printf "    Path length: %.4f m\n" [Arg_double (length path)] in
      let+ _ := printf "    Weight: %.3f\n" [Arg_double (weight path)] in
      print_paths_loop k (S i) c
  end.

Definition print_config (config : option FlowMeterConfig) : P unit :=
  let+ _ := printf "Flow Meter Configuration:\n" [] in
  let+ c := determinate config in
  let+ _ := printf "  Pipe diameter: %.3f m\n" [Arg_double (pipe_diameter c)] in
  let+ _ := printf "  Number of paths: %u\n" [Arg_unsigned (num_paths c)] in
  let+ _ := printf "  Pipe area: %.6f m²\n"
              [Arg_double (M_PI * (pipe_diameter c / 2) * (pipe_diameter c / 2))%float] in
  let+ _ := printf "\nAcoustic Paths:\n" [] in
  print_paths_loop (N.to_nat (num_paths c)) 0 c.

(** The body of the loop of [print_results]. *)
Fixpoint print_velocities_loop (remaining i : nat) (result : option addr) : P unit :=
  match remaining with
  | O => pret tt
  | S k =>
      let+ r := determinate result in
      let+ pv := lift (load_path_velocities r) in
      let+ v := lift (load_double pv i) in
      let+ _ := printf "  Path %u velocity: %.4f m/s\n"
                  [Arg_unsigned (N.of_nat i + 1); Arg_double v] in
      print_velocities_loop k (S i) result
  end.

(** [result->volumetric_flow] as an rvalue. *)
Definition load_volumetric_flow (r : addr) : M float :=
  let* fr := load_result r in
  match volumetric_flow fr with
  | Some q => ret q
  | None => fault
  end.

Definition print_results (result : option addr) (config : option FlowMeterConfig) :
    P unit :=
  let+ _ := printf "\nFlow Calculation Results:\n" [] in
  let+ c := determinate config in
  let+ _ := print_velocities_loop (N.to_nat (num_paths c)) 0 result in
  let+ _ := printf "\nVolumetric Flow Rate:\n" [] in
  let+ r := determinate result in
  let+ q := lift (load_volumetric_flow r) in
  let+ _ := printf "  %.6f m³/s\n" [Arg_double q] in
  let+ q' := lift (load_volumetric_flow r) in
  let+ _ := printf "  %.4f L/min\n" [Arg_double (q' * 60000)%float] in
  let+ q'' := lift (load_volumetric_flow r) in
  printf "  %.2f L/s\n" [Arg_double (q'' * 1000)%float].

(** The loop of [main] that prints the simulated measurements. *)
Fixpoint print_measurements_loop (remaining i : nat) (measurements : option addr) :
    P unit :=
  match remaining with
  | O => pret tt
  | S k =>
      let+ c := load_measurement_cell measurements i in
      let+ u := determinate (cell_t_upstream c) in
      let+ c' := load_measurement_cell measurements i in
      let+ d := determinate (cell_t_downstream c') in
      let delta_t := (u - d)%float in
      let+ c1 := load_measurement_cell measurements i in
      let+ u1 := determinate (cell_t_upstream c1) in
      let+ c2 := load_measurement_cell measurements i in
      let+ d1 := determinate (cell_t_downstream c2) in
      let+ _ := printf
                  "  Path %u: t_upstream = %.8f s, t_downstream = %.8f s, Δt = %.2e s\n"
                  [Arg_unsigned (N.of_nat i + 1); Arg_double u1; Arg_double d1;
                   Arg_double delta_t] in
      print_measurements_loop k (S i) measurements
  end.

Definition main : P Z :=
  let+ _ := printf "=== Ultrasonic Multipath Flow Meter ===\n\n" [] in
  let pipe_diameter := 0.1%float in
  let true_flow_velocity := 2%float in
  let+ _ := printf "### 2-PATH CONFIGURATION ###\n\n" [] in
  let+ config_2path := create_2path_config pipe_diameter in
  if is_null config_2path then
    let+ _ := fprintf_stderr "Error: Failed to create 2-path configuration\n" in
    pret 1%Z
  else
  let+ cv := view_config config_2path in
  let+ _ := print_config cv in
  let+ measurements_2path :=
    pmalloc (2 * sizeof_PathMeasurement)
            (Obj_measurements (replicate 2 indeterminate_measurement)) in
  if is_null measurements_2path then
    let+ _ := fprintf_stderr "Error: Failed to allocate measurements\n" in
    let+ _ := free_config config_2path in
    pret 1%Z
  else
  let+ cv := view_config config_2path in
  let+ _ := simulate_measurements measurements_2path cv true_flow_velocity in
  let+ _ := printf "\nSimulated Measurements (True flow velocity: %.2f m/s):\n"
              [Arg_double true_flow_velocity] in
  let+ _ := print_measurements_loop 2 0 measurements_2path in
  let+ cv := view_config config_2path in
  let+ mv := view_measurements measurements_2path in
  let+ result_2path := lift (flowmeter_process sin cv mv) in
  if is_null result_2path then
    let+ _ := fprintf_stderr "Error: Failed to process flow measurements\n" in
    let+ _ := free_ptr measurements_2path in
    let+ _ := free_config config_2path in
    pret 1%Z
  else
  let+ cv := view_config config_2path in
  let+ _ := print_results result_2path cv in
  let+ _ := lift (flowmeter_result_free result_2path) in
  let+ _ := free_ptr measurements_2path in
  let+ _ := free_config config_2path in
  let+ _ := printf "\n\n### 4-PATH CONFIGURATION ###\n\n" [] in
  let+ config_4path := create_4path_config pipe_diameter in
  if is_null config_4path then
    let+ _ := fprintf_stderr "Error: Failed to create 4-path configuration\n" in
    pret 1%Z
  else
  let+ cv := view_config config_4path in
  let+ _ := print_config cv in
  let+ measurements_4path :=
    pmalloc (4 * sizeof_PathMeasurement)
            (Obj_measurements (replicate 4 indeterminate_measurement)) in
  if is_null measurements_4path then
    let+ _ := fprintf_stderr "Error: Failed to allocate measurements\n" in
    let+ _ := free_config config_4path in
    pret 1%Z
  else
  let+ cv := view_config config_4path in
  let+ _ := simulate_measurements measurements_4path cv true_flow_velocity in
  let+ _ := printf "\nSimulated Measurements (True flow velocity: %.2f m/s):\n"
              [Arg_double true_flow_velocity] in
  let+ _ := print_measurements_loop 4 0 measurements_4path in
  let+ cv := view_config config_4path in
  let+ mv := view_measurements measurements_4path in
  let+ result_4path := lift (flowmeter_process sin cv mv) in
  if is_null result_4path then
    let+ _ := fprintf_stderr "Error: Failed to process flow measurements\n" in
    let+ _ := free_ptr measurements_4path in
    let+ _ := free_config config_4path in
    pret 1%Z
  else
  let+ cv := view_config config_4path in
  let+ _ := print_results result_4path cv in
  let+ _ := lift (flowmeter_result_free result_4path) in
  let+ _ := free_ptr measurements_4path in
  let+ _ := free_config config_4path in
  let+ _ := printf "\n=== End of Demonstration ===\n" [] in
  pret 0%Z.

End Demo.

(** ** What the demonstration program builds, as values *)

Definition preset_2path (sin : float -> float) (d : float) : FlowMeterConfig :=
  {| pipe_diameter := d;
     num_paths := 2;
     paths := Some
       [ {| position := 0.25; angle := M_PI / 4;
            length := d / sin (M_PI / 4)%float; weight := 0.5 |};
         {| position := -0.25; angle := M_PI / 4;
            length := d / sin (M_PI / 4)%float; weight := 0.5 |} ] |}.

Definition preset_4path (sin : float -> float) (d : float) : FlowMeterConfig :=
  {| pipe_diameter := d;
     num_paths := 4;
     paths := Some
       [ {| position := 0.35; angle := M_PI / 3;
            length := d / sin (M_PI / 3)%float; weight := 0.25 |};
         {| position := -0.35; angle := M_PI / 3;
            length := d / sin (M_PI / 3)%float; weight := 0.25 |};
         {| position := 0.15; angle := M_PI / 4;
            length := d / sin (M_PI / 4)%float; weight := 0.25 |};
         {| position := -0.15; angle := M_PI / 4;
            length := d / sin (M_PI / 4)%float; weight := 0.25 |} ] |}.

Definition cell_of_path (p : AcousticPath) : path_cell :=
  {| cell_position := Some (position p); cell_angle := Some (angle p);
     cell_length := Some (length p); cell_weight := Some (weight p) |}.

Definition cell_of_measurement (ms : PathMeasurement) : measurement_cell :=
  {| cell_t_upstream := Some (t_upstream ms);
     cell_t_downstream := Some (t_downstream ms) |}.

(** The state after a configuration with value [c] and paths [ps] has
    been built at [cfg], its paths at [b], out of [sz] bytes. *)
Definition with_config (s : program_state) (cfg b : addr) (c : FlowMeterConfig)
    (ps : list AcousticPath) (sz : N) : program_state :=
  {| meter := {| objs := objs (meter s); avail := avail (meter s) - sz |};
     own := <[b := Obj_paths (cell_of_path <$> ps)]>
              (<[cfg := Obj_config {| cell_pipe_diameter := Some (pipe_diameter c);
                                      cell_num_paths := Some (num_paths c);
                                      cell_paths := Some (Some b) |}]> (own s));
     console := console s |}.

(** The bytes of a configuration with [n] paths. *)
Definition config_bytes (n : N) : N :=
  sizeof_FlowMeterConfig + n * sizeof_AcousticPath.

(** What [simulate_measurements] writes for one path. *)
Definition simulated (sin : float -> float) (v : float) (p : AcousticPath) :
    PathMeasurement :=
  {| t_upstream := (length p * sin (angle p) / (1480 - v))%float;
     t_downstream := (length p * sin (angle p) / (1480 + v))%float |}.

Definition initial_state (bytes : N) : program_state :=
  {| meter := empty_memory bytes; own := ∅; console := [] |}.

(** The state once the array at [b] holds [cells]. *)
Definition with_paths_array (s : program_state) (b : addr) (cells : list path_cell) :
    program_state :=
  {| meter := meter s; own := <[b := Obj_paths cells]> (own s); console := console s |}.

Definition with_measurements_array (s : program_state) (a : addr)
    (cells : list measurement_cell) : program_state :=
  {| meter := meter s; own := <[a := Obj_measurements cells]> (own s);
     console := console s |}.

Definition with_console (s : program_state) (out : list output) : program_state :=
  {| meter := meter s; own := own s; console := out |}.


(** ** The shape of [main]

    The two halves of [main] are the same code up to the constructor, the
    number of paths and the text of the first error message; [demonstrate]
    is that code, with what follows it as [rest]. *)
Definition demonstrate (sin : float -> float) (create : float -> P (option addr))
    (n : N) (create_error : string) (pipe_diameter true_flow_velocity : float)
    (rest : P Z) : P Z :=
  let+ config := create pipe_diameter in
  if is_null config then
    let+ _ := fprintf_stderr create_error in
    pret 1%Z
  else
  let+ cv := view_config config in
  let+ _ := print_config cv in
  let+ measurements :=
    pmalloc (n * sizeof_PathMeasurement)
            (Obj_measurements (replicate (N.to_nat n) indeterminate_measurement)) in
  if is_null measurements then
    let+ _ := fprintf_stderr "Error: Failed to allocate measurements\n" in
    let+ _ := free_config config in
    pret 1%Z
  else
  let+ cv := view_config config in
  let+ _ := simulate_measurements sin measurements cv true_flow_velocity in
  let+ _ := printf "\nSimulated Measurements (True flow velocity: %.2f m/s):\n"
              [Arg_double true_flow_velocity] in
  let+ _ := print_measurements_loop (N.to_nat n) 0 measurements in
  let+ cv := view_config config in
  let+ mv := view_measurements measurements in
  let+ result := lift (flowmeter_process sin cv mv) in
  if is_null result then
    let+ _ := fprintf_stderr "Error: Failed to process flow measurements\n" in
    let+ _ := free_ptr measurements in
    let+ _ := free_config config in
    pret 1%Z
  else
  let+ cv := view_config config in
  let+ _ := print_results result cv in
  let+ _ := lift (flowmeter_result_free result) in
  let+ _ := free_ptr measurements in
  let+ _ := free_config config in
  rest.

(** The bytes one half of [main] asks of the allocator at its peak: the
    configuration, [n] paths, [n] measurements, the result and [n]
    velocities. *)
Definition demonstration_bytes (n : N) : N :=
  config_bytes n + n * sizeof_PathMeasurement + sizeof_FlowResult + n * sizeof_double.

Definition is_stderr (e : output) : bool :=
  match e with
  | Stderr _ => true
  | Stdout _ _ => false
  end.

(** Nothing in [out] went to [stderr]. *)
Definition quiet (out : list output) : Prop := existsb is_stderr out = false.

(** [c] returns [a] and changes nothing but the console, to which it
    adds lines of [stdout] only. *)
Definition prints {A} (c : P A) (a : A) (s : program_state) : Prop :=
  exists out, quiet out /\ c s = Some (a, with_console s (console s ++ out)).
(** * Proofs *)

(** ** Running the monad *)

Lemma memory_eta (m : memory) : {| objs := objs m; avail := avail m |} = m.
Proof. now destruct m. Qed.

Lemma bind_Some {A B} (c : M A) (k : A -> M B) m b m' :
  bind c k m = Some (b, m') <->
  exists a m1, c m = Some (a, m1) /\ k a m1 = Some (b, m').
Proof.
  unfold bind. split.
  - destruct (c m) as [[a m1]|]; [eauto | discriminate].
  - intros (a & m1 & -> & H). exact H.
Qed.

Lemma load_result_Some r m fr m' :
  load_result r m = Some (fr, m') <->
  objs m !! r = Some (Obj_FlowResult fr) /\ m' = m.
Proof.
  unfold load_result. split.
  - destruct (objs m !! r) as [[fr0|]|]; try discriminate.
    intros [= -> ->]. auto.
  - intros [-> ->]. reflexivity.
Qed.

Lemma load_path_velocities_at r m fr p :
  objs m !! r = Some (Obj_FlowResult fr) ->
  path_velocities fr = Some p ->
  load_path_velocities r m = Some (p, m).
Proof.
  intros Hr Hp. unfold load_path_velocities, bind, load_result.
  rewrite Hr, Hp. reflexivity.
Qed.

Lemma index_Some {A} (l : list A) i x m m' :
  index l i m = Some (x, m') <-> l !! i = Some x /\ m' = m.
Proof.
  unfold index. destruct (l !! i) as [y|]; unfold ret, fault; split.
  - intros [= -> ->]. auto.
  - intros [[= ->] ->]. reflexivity.
  - discriminate.
  - intros [[=] _].
Qed.

(** ** The loop and the integration, run on a memory *)

Section LoopFacts.
Variable sin : float -> float.

Lemma velocity_loop_ok remaining :
  forall i ps ms r a fr cells acc m,
    objs m !! r = Some (Obj_FlowResult fr) ->
    path_velocities fr = Some (Some a) ->
    objs m !! a = Some (Obj_doubles cells) ->
    i + remaining <= List.length ps ->
    i + remaining <= List.length ms ->
    i + remaining <= List.length cells ->
    let ps' := take remaining (drop i ps) in
    let vs := velocities_of sin ps' (take remaining (drop i ms)) in
    velocity_loop sin remaining i ps ms r acc m =
      Some (fold_left accumulate (zip ps' vs) acc,
            {| objs := <[a := Obj_doubles (take i cells ++ (Some <$> vs)
                                             ++ drop (i + remaining) cells)]> (objs m);
               avail := avail m |}).
Proof.
  induction remaining as [|k IH]; intros i ps ms r a fr cells acc m Hr Hpv Ha Hps Hms Hcs.
  - simpl. rewrite Nat.add_0_r, take_drop, insert_id by exact Ha.
    unfold ret. now rewrite memory_eta.
  - assert (Hne : a <> r) by (intros ->; rewrite Hr in Ha; discriminate).
    destruct (lookup_lt_is_Some_2 ps i) as [p Hp]; [lia|].
    destruct (lookup_lt_is_Some_2 ms i) as [mi Hmi]; [lia|].
    cbn [velocity_loop]. unfold bind at 1. unfold index at 1. rewrite Hp. unfold ret at 1.
    unfold bind at 1. unfold index at 1. rewrite Hmi. unfold ret at 1.
    unfold bind at 1. rewrite (load_path_velocities_at r m fr (Some a) Hr Hpv).
    set (v := calculate_path_velocity sin (Some p) (Some mi)).
    unfold bind at 1. unfold store_double at 1. rewrite Ha.
    destruct (decide (i < List.length cells)) as [_|Hn]; [|lia].
    set (m1 := {| objs := <[a := Obj_doubles (<[i := Some v]> cells)]> (objs m);
                  avail := avail m |}).
    assert (Hr1 : objs m1 !! r = Some (Obj_FlowResult fr))
      by (unfold m1; cbn; now rewrite lookup_insert_ne).
    assert (Ha1 : objs m1 !! a = Some (Obj_doubles (<[i := Some v]> cells)))
      by (unfold m1; cbn; now rewrite lookup_insert_eq).
    unfold bind at 1. rewrite (load_path_velocities_at r m1 fr (Some a) Hr1 Hpv).
    unfold bind at 1. unfold load_double at 1. rewrite Ha1.
    rewrite list_lookup_insert_eq by lia.
    rewrite (IH (S i) ps ms r a fr (<[i := Some v]> cells) _ m1 Hr1 Hpv Ha1)
      by (rewrite ?length_insert; lia).
    rewrite (drop_S ps p i Hp), (drop_S ms mi i Hmi).
    cbn [take velocities_of zip_with fold_left fmap list_fmap].
    unfold velocities_of at 1. cbn [zip_with fold_left].
    fold v. f_equal. f_equal.
    unfold m1; cbn [objs avail]. rewrite insert_insert_eq.
    f_equal. f_equal. f_equal.
    rewrite (take_S_r _ i (Some v)) by (apply list_lookup_insert_eq; lia).
    rewrite take_insert_ge by lia.
    rewrite drop_insert_lt by lia.
    rewrite <- app_assoc. replace (i + S k) with (S i + k) by lia. reflexivity.
Qed.

Lemma velocity_loop_bounds remaining :
  forall i ps ms r acc m res,
    velocity_loop sin remaining i ps ms r acc m = Some res ->
    remaining = 0 \/
    (i + remaining <= List.length ps /\ i + remaining <= List.length ms).
Proof.
  induction remaining as [|k IH]; intros i ps ms r acc m [acc' m'] H; [now left|right].
  cbn [velocity_loop] in H.
  apply bind_Some in H as (p & m1 & Hp & H). apply index_Some in Hp as [Hp ->].
  apply bind_Some in H as (mi & m1 & Hmi & H). apply index_Some in Hmi as [Hmi ->].
  apply bind_Some in H as (pv & m1 & _ & H).
  apply bind_Some in H as (u & m2 & _ & H).
  apply bind_Some in H as (pv' & m3 & _ & H).
  apply bind_Some in H as (v & m4 & _ & H).
  apply lookup_lt_Some in Hp. apply lookup_lt_Some in Hmi.
  apply IH in H as [-> | [H1 H2]]; lia.
Qed.

Lemma calculate_flow_rate_run c ms r m fr :
  objs m !! r = Some (Obj_FlowResult fr) ->
  calculate_flow_rate sin (Some c) (Some ms) (Some r) m =
    if (num_paths c =? 0)%N || is_null (paths c) then Some ((-1)%Z, m)
    else if (num_paths c * sizeof_double <=? avail m)%N then
      match paths c with
      | Some ps =>
          let n := N.to_nat (num_paths c) in
          if decide (n <= List.length ps /\ n <= List.length ms) then
            let vs := velocities_of sin (take n ps) (take n ms) in
            Some (0%Z, result_memory m r (fresh (dom (objs m))) vs
                         (flow_of c (take n ps) vs) (num_paths c * sizeof_double))
          else None
      | None => None
      end
    else Some ((-1)%Z, null_velocities m r fr).
Proof.
  intros Hr. unfold calculate_flow_rate.
  destruct (N.eqb_spec (num_paths c) 0) as [Hz|Hz]; [reflexivity|].
  destruct (paths c) as [ps|] eqn:Hps; [|reflexivity].
  cbn [orb is_null deref].
  unfold bind at 1. unfold malloc.
  destruct (N.leb_spec (num_paths c * sizeof_double) (avail m)) as [Hav|Hav].
  - set (a := fresh (dom (objs m))).
    set (n := N.to_nat (num_paths c)).
    assert (Hfresh : objs m !! a = None)
      by (apply not_elem_of_dom; apply is_fresh).
    assert (Hne : a <> r) by (intros ->; rewrite Hr in Hfresh; discriminate).
    unfold bind at 1. unfold store_path_velocities, bind at 1, load_result at 1.
    cbn [objs avail]. rewrite lookup_insert_ne, Hr by exact Hne.
    unfold store_result. cbn [objs avail].
    rewrite lookup_insert_ne, Hr by exact Hne.
    cbn [is_null].
    set (fr1 := {| path_velocities := Some (Some a); volumetric_flow := volumetric_flow fr |}).
    set (m1 := {| objs := <[r := Obj_FlowResult fr1]>
                             (<[a := Obj_doubles (replicate n None)]> (objs m));
                  avail := avail m - num_paths c * sizeof_double |}).
    assert (Hr1 : objs m1 !! r = Some (Obj_FlowResult fr1))
      by (unfold m1; cbn; now rewrite lookup_insert_eq).
    assert (Ha1 : objs m1 !! a = Some (Obj_doubles (replicate n None)))
      by (unfold m1; cbn; now rewrite lookup_insert_ne, lookup_insert_eq).
    unfold bind at 1, ret at 1. unfold bind at 1.
    destruct (decide (n <= List.length ps /\ n <= List.length ms)) as [[H1 H2]|Hb].
    + rewrite (velocity_loop_ok n 0 ps ms r a fr1 (replicate n None) 0%float m1
                 Hr1 eq_refl Ha1)
        by (rewrite ?length_replicate; lia).
      rewrite !drop_0, take_0, Nat.add_0_l. cbn [app].
      rewrite (drop_ge (replicate n None) n), app_nil_r by (rewrite length_replicate; lia).
      unfold bind at 1, store_volumetric_flow, bind at 1, load_result at 1.
      cbn [objs avail]. rewrite lookup_insert_ne, Hr1 by exact Hne.
      unfold store_result, ret. cbn [objs avail].
      rewrite lookup_insert_ne, Hr1 by exact Hne.
      cbn [path_velocities fr1]. unfold result_memory, flow_of, weighted_sum.
      do 3 f_equal. unfold m1. cbn [objs].
      rewrite (insert_insert_ne _ a r) by exact Hne.
      now rewrite !insert_insert_eq.
    + destruct (velocity_loop sin n 0 ps ms r 0%float m1) as [res|] eqn:Hloop;
        [|reflexivity].
      apply velocity_loop_bounds in Hloop as [Hn|Hn]; [|now destruct Hb].
      exfalso. apply Hz. unfold n in Hn. lia.
  - unfold bind at 1. unfold store_path_velocities, bind at 1, load_result at 1.
    rewrite Hr. unfold store_result. rewrite Hr. reflexivity.
Qed.

End LoopFacts.

(** ** Consequences for the callers of [calculate_flow_rate] *)

Section RunFacts.
Variable sin : float -> float.

Lemma read_result_result_memory m r a vs q sz :
  a <> r -> read_result (result_memory m r a vs q sz) r = Some (Some <$> vs, Some q).
Proof.
  intros Hne. unfold read_result, result_memory. cbn [objs].
  rewrite lookup_insert_eq. cbn [path_velocities volumetric_flow].
  now rewrite lookup_insert_ne, lookup_insert_eq.
Qed.

Lemma fresh_not_live (m : memory) r o :
  objs m !! r = Some o -> fresh (dom (objs m)) <> r.
Proof.
  intros Hr E.
  assert (Hf : objs m !! fresh (dom (objs m)) = None)
    by (apply not_elem_of_dom, is_fresh).
  rewrite E, Hr in Hf. discriminate.
Qed.

Lemma holds_result_unique m r vs q vs' q' :
  holds_result m r vs q -> holds_result m r vs' q' -> vs = vs' /\ q = q'.
Proof.
  unfold holds_result. intros -> [= Hvs Hq]. split; [|exact Hq].
  revert Hvs. apply (inj (fmap Some)).
Qed.

Lemma calculate_flow_rate_valid_result c ms r m rc m' :
  calculate_flow_rate sin (Some c) (Some ms) (Some r) m = Some (rc, m') ->
  (num_paths c =? 0)%N || is_null (paths c) = false ->
  exists fr, objs m !! r = Some (Obj_FlowResult fr).
Proof.
  unfold calculate_flow_rate. intros H Hg. rewrite Hg in H.
  apply bind_Some in H as (pv & m1 & Hm & H).
  apply bind_Some in H as (u & m2 & Hs & _).
  unfold store_path_velocities in Hs.
  apply bind_Some in Hs as (fr & m3 & Hl & _).
  apply load_result_Some in Hl as [Hl _].
  unfold malloc in Hm.
  destruct (num_paths c * sizeof_double <=? avail m)%N; injection Hm as <- <-.
  - cbn [objs] in Hl. rewrite lookup_insert in Hl.
    case_decide; [discriminate|eauto].
  - eauto.
Qed.

Lemma calculate_flow_rate_success c ms r m m' :
  calculate_flow_rate sin (Some c) (Some ms) (Some r) m = Some (0%Z, m') ->
  exists ps,
    let n := N.to_nat (num_paths c) in
    let vs := velocities_of sin (take n ps) (take n ms) in
    paths c = Some ps /\ num_paths c <> 0%N /\
    n <= List.length ps /\ n <= List.length ms /\
    (num_paths c * sizeof_double <= avail m)%N /\
    m' = result_memory m r (fresh (dom (objs m))) vs (flow_of c (take n ps) vs)
           (num_paths c * sizeof_double) /\
    holds_result m' r vs (flow_of c (take n ps) vs).
Proof.
  intros H.
  destruct ((num_paths c =? 0)%N || is_null (paths c)) eqn:Hg.
  { unfold calculate_flow_rate in H. rewrite Hg in H. discriminate. }
  destruct (calculate_flow_rate_valid_result _ _ _ _ _ _ H Hg) as [fr Hr].
  rewrite (calculate_flow_rate_run sin c ms r m fr Hr), Hg in H.
  apply orb_false_elim in Hg as [Hz Hp]. apply N.eqb_neq in Hz.
  destruct (N.leb_spec (num_paths c * sizeof_double) (avail m)) as [Hav|Hav];
    [|discriminate].
  destruct (paths c) as [ps|]; [|discriminate].
  exists ps. cbn zeta in *.
  destruct (decide _) as [[H1 H2]|]; [|discriminate].
  injection H as <-. repeat split; try assumption.
  apply read_result_result_memory. eapply fresh_not_live, Hr.
Qed.

Lemma calculate_flow_rate_failure c ms r m rc m' fr :
  objs m !! r = Some (Obj_FlowResult fr) ->
  calculate_flow_rate sin (Some c) (Some ms) (Some r) m = Some (rc, m') ->
  rc <> 0%Z ->
  exists fr', objs m' = <[r := Obj_FlowResult fr']> (objs m) /\ avail m' = avail m.
Proof.
  intros Hr H Hrc. rewrite (calculate_flow_rate_run sin c ms r m fr Hr) in H.
  destruct ((num_paths c =? 0)%N || is_null (paths c)).
  { injection H as <- <-. exists fr. now rewrite insert_id. }
  destruct (num_paths c * sizeof_double <=? avail m)%N.
  - destruct (paths c) as [ps|]; [|discriminate]. cbn zeta in H.
    destruct (decide _); [|discriminate]. injection H as <- _. now destruct Hrc.
  - injection H as <- <-. eexists. split; reflexivity.
Qed.

End RunFacts.

(** ** Allocation and release *)

Lemma malloc_Some sz init m r m1 :
  malloc sz init m = Some (Some r, m1) ->
  (sz <= avail m)%N /\ objs m !! r = None /\
  m1 = {| objs := <[r := init]> (objs m); avail := avail m - sz |}.
Proof.
  unfold malloc. destruct (N.leb_spec sz (avail m)) as [Hle|Hlt]; [|discriminate].
  intros [= <- <-]. repeat split; [exact Hle|].
  apply not_elem_of_dom, is_fresh.
Qed.

(** Freeing the aggregate that [flowmeter_process] has just allocated,
    after an integration that only rewrote that aggregate, gives back the
    memory [flowmeter_process] started from. *)
Lemma free_restores m r fr0 m2 fr' :
  (sizeof_FlowResult <= avail m)%N ->
  objs m !! r = None ->
  objs m2 = <[r := Obj_FlowResult fr']> (<[r := Obj_FlowResult fr0]> (objs m)) ->
  avail m2 = (avail m - sizeof_FlowResult)%N ->
  free r m2 = Some (tt, m).
Proof.
  intros Hle Hfresh Hobjs Hav. unfold free.
  rewrite Hobjs, lookup_insert_eq, delete_insert_eq, delete_insert_eq,
    delete_id by exact Hfresh.
  rewrite Hav. cbn [size_of]. rewrite N.sub_add by exact Hle.
  now rewrite memory_eta.
Qed.

(** ** The configuration guard *)

Lemma guard_true_configuration_error c ms :
  (num_paths c =? 0)%N || is_null (paths c) = true ->
  configuration_error (Some c) (Some ms).
Proof.
  intros H. right; right. exists c. split; [reflexivity|].
  apply orb_true_iff in H as [H|H].
  - left. now apply N.eqb_eq.
  - right. now destruct (paths c).
Qed.

Lemma guard_false_no_configuration_error c ms :
  (num_paths c =? 0)%N || is_null (paths c) = false ->
  ~ configuration_error (Some c) (Some ms).
Proof.
  intros H [E|[E|(c' & [= <-] & [E|E])]]; try discriminate;
    apply orb_false_elim in H as [Hz Hp].
  - apply N.eqb_neq in Hz. contradiction.
  - rewrite E in Hp. discriminate.
Qed.

Lemma guard_false_paths c :
  (num_paths c =? 0)%N || is_null (paths c) = false ->
  exists ps, paths c = Some ps.
Proof.
  intros H. apply orb_false_elim in H as [_ H].
  destruct (paths c) as [ps|]; [eauto|discriminate].
Qed.

(** [failed_with m]: the run signalled failure (-1, or the null pointer)
    and ended in memory [m]; what is left to show is that one of the
    failure conditions holds. *)
Ltac failed_with m :=
  first [ exists (-1)%Z, m; split; [reflexivity | split; [now right|]]
        | exists None, m;
          split; [reflexivity | split; [|split; [reflexivity | discriminate]]] ];
  split; [intros _ | reflexivity].

(** ** The velocity list *)

Lemma velocities_of_length sin ps ms n :
  n <= List.length ps -> n <= List.length ms ->
  List.length (velocities_of sin (take n ps) (take n ms)) = n.
Proof.
  intros Hp Hm. unfold velocities_of.
  rewrite length_zip_with, !length_take. lia.
Qed.

Lemma velocities_of_lookup sin ps ms n i p mi :
  i < n -> ps !! i = Some p -> ms !! i = Some mi ->
  velocities_of sin (take n ps) (take n ms) !! i =
    Some (calculate_path_velocity sin (Some p) (Some mi)).
Proof.
  intros Hi Hp Hm. unfold velocities_of.
  rewrite lookup_zip_with, !lookup_take_lt, Hp, Hm by exact Hi. reflexivity.
Qed.

(** ** Negation and the binary64 operations *)

Lemma binary_round_aux_negb s m e l :
  binary_round_aux prec emax (negb s) m e l = SFopp (binary_round_aux prec emax s m e l).
Proof.
  unfold binary_round_aux.
  destruct (shr_fexp prec emax m e l) as [mrs' e'].
  destruct (shr_fexp prec emax _ e' loc_Exact) as [mrs'' e''].
  destruct (shr_m mrs''); [reflexivity| |reflexivity].
  now destruct (Z.leb e'' (Z.sub emax prec)).
Qed.

Lemma binary_round_negb s m e :
  binary_round prec emax (negb s) m e = SFopp (binary_round prec emax s m e).
Proof.
  unfold binary_round.
  destruct (shl_align m e _) as [mz ez]. apply binary_round_aux_negb.
Qed.

Lemma binary_normalize_opp z e :
  mirrored (binary_normalize prec emax (- z) e false) (binary_normalize prec emax z e false).
Proof.
  destruct z as [|p|p]; cbn [Z.opp binary_normalize].
  - right. now split.
  - left. apply (binary_round_negb false).
  - left. apply (binary_round_negb true).
Qed.

Lemma SFopp_involutive x : SFopp (SFopp x) = x.
Proof. destruct x as [[]|[]| |[] ? ?]; reflexivity. Qed.

Lemma mirrored_opp x : mirrored (SFopp x) x.
Proof. now left. Qed.

Lemma mirrored_zero s s' : mirrored (S754_zero s) (S754_zero s').
Proof. right. now split. Qed.

Lemma cond_Zopp_negb s z : SpecFloat.cond_Zopp (negb s) z = (- SpecFloat.cond_Zopp s z)%Z.
Proof. destruct s; cbn; lia. Qed.

Lemma SFsub_swap x y : mirrored (SF64sub y x) (SF64sub x y).
Proof.
  destruct x as [sx|sx| |sx mx ex], y as [sy|sy| |sy my ey];
    try (left; reflexivity);
    try (destruct sx, sy; (left; reflexivity) || (right; split; reflexivity)).
  unfold SF64sub, SFsub. rewrite (Z.min_comm ey ex).
    match goal with |- mirrored (binary_normalize _ _ ?a _ _) (binary_normalize _ _ ?b _ _) =>
      replace a with (- b)%Z by lia end.
    apply binary_normalize_opp.
Qed.

Lemma SFmul_comm x y : SF64mul x y = SF64mul y x.
Proof.
  destruct x as [sx|sx| |sx mx ex], y as [sy|sy| |sy my ey]; cbn;
    rewrite ?(xorb_comm sx sy); try reflexivity.
  now rewrite Pos.mul_comm, Z.add_comm.
Qed.

Lemma xorb_negb_right a b : xorb a (negb b) = negb (xorb a b).
Proof. now destruct a, b. Qed.

Lemma xorb_negb_left a b : xorb (negb a) b = negb (xorb a b).
Proof. now destruct a, b. Qed.

Lemma SFmul_opp_r x y : SF64mul x (SFopp y) = SFopp (SF64mul x y).
Proof.
  destruct x as [sx|sx| |sx mx ex], y as [sy|sy| |sy my ey];
    unfold SF64mul; cbn [SFmul SFopp];
    rewrite ?xorb_negb_right; try reflexivity.
  apply binary_round_aux_negb.
Qed.

Lemma SFdiv_opp_l x y : SF64div (SFopp x) y = SFopp (SF64div x y).
Proof.
  destruct x as [sx|sx| |sx mx ex], y as [sy|sy| |sy my ey];
    unfold SF64div; cbn [SFdiv SFopp];
    rewrite ?xorb_negb_left; try reflexivity.
  destruct (SFdiv_core_binary prec emax (Z.pos mx) ex (Z.pos my) ey) as [[mz ez] lz].
  apply binary_round_aux_negb.
Qed.

Lemma mirrored_mul_l c a b : mirrored a b -> mirrored (SF64mul c a) (SF64mul c b).
Proof.
  intros [-> | [Ha Hb]].
  - left. apply SFmul_opp_r.
  - destruct a as [sa| | |]; try discriminate. destruct b as [sb| | |]; try discriminate.
    destruct c as [sc|sc| |sc mc ec]; cbn; (left; reflexivity) || apply mirrored_zero.
Qed.

Lemma mirrored_div_l c a b : mirrored a b -> mirrored (SF64div a c) (SF64div b c).
Proof.
  intros [-> | [Ha Hb]].
  - left. apply SFdiv_opp_l.
  - destruct a as [sa| | |]; try discriminate. destruct b as [sb| | |]; try discriminate.
    destruct c as [sc|sc| |sc mc ec]; cbn; (left; reflexivity) || apply mirrored_zero.
Qed.

Lemma SFadd_opp x y : mirrored (SF64add (SFopp x) (SFopp y)) (SF64add x y).
Proof.
  destruct x as [sx|sx| |sx mx ex], y as [sy|sy| |sy my ey];
    try (left; reflexivity);
    try (destruct sx, sy; (left; reflexivity) || (right; split; reflexivity)).
  unfold SF64add, SFopp, SFadd. rewrite !cond_Zopp_negb.
  match goal with |- mirrored (binary_normalize _ _ ?a _ _) (binary_normalize _ _ ?b _ _) =>
    replace a with (- b)%Z by lia end.
  apply binary_normalize_opp.
Qed.

Lemma mirrored_add a b c d :
  mirrored a b -> mirrored c d -> mirrored (SF64add a c) (SF64add b d).
Proof.
  intros [-> | [Ha Hb]] [-> | [Hc Hd]].
  - apply SFadd_opp.
  - destruct c as [sc| | |]; try discriminate. destruct d as [sd| | |]; try discriminate.
    destruct b as [sb|sb| |sb mb eb]; cbn;
      try (left; reflexivity); destruct sb, sc, sd; cbn; apply mirrored_zero.
  - destruct a as [sa| | |]; try discriminate. destruct b as [sb| | |]; try discriminate.
    destruct d as [sd|sd| |sd md ed]; cbn;
      try (left; reflexivity); destruct sa, sb, sd; cbn; apply mirrored_zero.
  - destruct a as [sa| | |]; try discriminate. destruct b as [sb| | |]; try discriminate.
    destruct c as [sc| | |]; try discriminate. destruct d as [sd| | |]; try discriminate.
    destruct sa, sb, sc, sd; cbn; apply mirrored_zero.
Qed.

Lemma SFeqb_refl x : x <> S754_nan -> SFeqb x x = true.
Proof.
  destruct x as [s|s| |s m e]; intros H; try reflexivity; try (now destruct s).
  - now destruct H.
  - unfold SFeqb, SFcompare.
    rewrite Z.compare_refl, Pos.compare_cont_refl. now destruct s.
Qed.

Lemma is_nan_spec x : is_nan x = true <-> Prim2SF x = S754_nan.
Proof.
  unfold is_nan. rewrite FloatAxioms.eqb_spec. split.
  - intros H. destruct (Prim2SF x) as [s|s| |s m e] eqn:E; try reflexivity;
      rewrite SFeqb_refl in H by discriminate; discriminate.
  - intros ->. reflexivity.
Qed.

Lemma fmirrored_feq x y : fmirrored x y -> feq x (- y) = true.
Proof.
  unfold fmirrored, feq. intros [H | [Hx Hy]].
  - rewrite FloatAxioms.eqb_spec, FloatAxioms.opp_spec, <- H.
    destruct (Prim2SF x) as [s|s| |s m e] eqn:E.
    1,2,4: rewrite SFeqb_refl by discriminate; reflexivity.
    assert (Hn : is_nan x = true) by now apply is_nan_spec.
    assert (Hn' : is_nan (- y) = true)
      by (apply is_nan_spec; now rewrite FloatAxioms.opp_spec, <- H).
    rewrite Hn, Hn'. apply orb_true_r.
  - rewrite FloatAxioms.eqb_spec, FloatAxioms.opp_spec.
    destruct (Prim2SF x); try discriminate. destruct (Prim2SF y); try discriminate.
    reflexivity.
Qed.

Lemma fmirrored_opp x : fmirrored (- x) x.
Proof. unfold fmirrored. rewrite FloatAxioms.opp_spec. apply mirrored_opp. Qed.

Lemma fmirrored_sub_swap a b : fmirrored (b - a) (a - b).
Proof. unfold fmirrored. rewrite !FloatAxioms.sub_spec. apply SFsub_swap. Qed.

Lemma fmirrored_div x y c : fmirrored x y -> fmirrored (x / c) (y / c).
Proof. unfold fmirrored. rewrite !FloatAxioms.div_spec. apply mirrored_div_l. Qed.

Lemma fmirrored_mul_l c x y : fmirrored x y -> fmirrored (c * x) (c * y).
Proof. unfold fmirrored. rewrite !FloatAxioms.mul_spec. apply mirrored_mul_l. Qed.

Lemma fmirrored_add a b c d :
  fmirrored a b -> fmirrored c d -> fmirrored (a + c) (b + d).
Proof. unfold fmirrored. rewrite !FloatAxioms.add_spec. apply mirrored_add. Qed.

Lemma fmirrored_zero : fmirrored 0 0.
Proof. right. split; reflexivity. Qed.

Lemma float_mul_comm (a b : float) : (a * b = b * a)%float.
Proof. apply Prim2SF_inj. rewrite !FloatAxioms.mul_spec. apply SFmul_comm. Qed.

(** Multiplying by 1 and by -1 is exact: the mantissa product is shifted
    back by the 52 places it gained. *)
Lemma digits2_shift52 m :
  Z.pos (digits2_pos (4503599627370496 * m)) = (Z.pos (digits2_pos m) + 52)%Z.
Proof.
  cbv beta iota fix delta [Pos.mul]. cbn [digits2_pos].
  rewrite !Pos2Z.inj_succ. lia.
Qed.

Lemma shr_shift52 m :
  SpecFloat.iter_pos shr_1 52 {| shr_m := Z.pos (4503599627370496 * m); shr_r := false; shr_s := false |}
  = {| shr_m := Z.pos m; shr_r := false; shr_s := false |}.
Proof. reflexivity. Qed.

Lemma SFmul_unit_l s x :
  valid_binary x = true ->
  SF64mul (S754_finite s 4503599627370496 (-52)) x = if s then SFopp x else x.
Proof.
  destruct x as [sx|sx| |sx m e]; intros Hv;
    try (destruct s, sx; reflexivity); try (now destruct s).
  cbn [valid_binary] in Hv. unfold bounded, canonical_mantissa in Hv.
  apply andb_prop in Hv as [Hc Hb]. apply Z.eqb_eq in Hc.
  unfold SF64mul, SFmul, binary_round_aux, shr_fexp.
  cbn [Zdigits2 shr_record_of_loc]. rewrite digits2_shift52.
  replace (Z.pos (digits2_pos m) + 52 + (-52 + e))%Z with (Z.pos (digits2_pos m) + e)%Z by lia.
  rewrite Hc. replace (e - (-52 + e))%Z with 52%Z by lia.
  cbn [shr]. rewrite shr_shift52.
  cbn [shr_m loc_of_shr_record round_nearest_even Zdigits2 shr_record_of_loc].
  replace (-52 + e + 52)%Z with e by lia.
  rewrite Hc, Z.sub_diag. cbn [shr shr_m]. rewrite Hb.
  now destruct s, sx.
Qed.

Lemma float_mul_one_l (x : float) : (1 * x)%float = x.
Proof.
  apply Prim2SF_inj. rewrite FloatAxioms.mul_spec.
  change (Prim2SF 1) with (S754_finite false 4503599627370496 (-52)).
  apply (SFmul_unit_l false), Prim2SF_valid.
Qed.

Lemma float_mul_minus_one_l (x : float) : ((-1) * x)%float = (- x)%float.
Proof.
  apply Prim2SF_inj. rewrite FloatAxioms.mul_spec, FloatAxioms.opp_spec.
  change (Prim2SF (-1)) with (S754_finite true 4503599627370496 (-52)).
  apply (SFmul_unit_l true), Prim2SF_valid.
Qed.

Lemma fmirrored_cases x y :
  fmirrored x y ->
  x = (- y)%float \/ ((x =? 0)%float = true /\ (y =? 0)%float = true).
Proof.
  intros [H | [Hx Hy]].
  - left. apply Prim2SF_inj. now rewrite FloatAxioms.opp_spec.
  - right. rewrite !FloatAxioms.eqb_spec.
    destruct (Prim2SF x); try discriminate. destruct (Prim2SF y); try discriminate.
    split; reflexivity.
Qed.

Lemma feq_refl x : feq x x = true.
Proof. unfold feq, is_nan. now destruct (x =? x)%float. Qed.

(** * Properties of the specification, C1 to C10 *)

Lemma positive_not_le_zero (t : float) :
  (0 <? t)%float = true -> (t <=? 0)%float = false.
Proof.
  rewrite FloatAxioms.ltb_spec, FloatAxioms.leb_spec.
  change (Prim2SF 0) with (S754_zero false).
  destruct (Prim2SF t) as [s|s| |s m e]; cbn; try discriminate; now destruct s.
Qed.

(** C1.  With both references present, positive transit times and a
    non-zero sine, [calculate_path_velocity] returns
    (length / (2 sin(angle))) * ((t_up - t_down) / (t_up * t_down));
    an absent reference gives 0.0 whatever the other argument is, a
    non-positive transit time gives 0.0 whatever the angle is, and a zero
    sine gives 0.0 whatever the transit times are. *)
Theorem calculate_path_velocity_formula_and_guards
    (sin : float -> float) (path : option AcousticPath)
    (measurement : option PathMeasurement) :
  (forall p ms, path = Some p -> measurement = Some ms ->
     (0 <? t_upstream ms)%float = true ->
     (0 <? t_downstream ms)%float = true ->
     (sin (angle p) =? 0)%float = false ->
     calculate_path_velocity sin path measurement =
       ((length p / (2 * sin (angle p))) *
        ((t_upstream ms - t_downstream ms) / (t_upstream ms * t_downstream ms)))%float)
  /\ (path = None \/ measurement = None ->
      calculate_path_velocity sin path measurement = 0%float)
  /\ (forall ms, measurement = Some ms ->
      (t_upstream ms <=? 0)%float = true \/ (t_downstream ms <=? 0)%float = true ->
      calculate_path_velocity sin path measurement = 0%float)
  /\ (forall p, path = Some p ->
      (sin (angle p) =? 0)%float = true ->
      calculate_path_velocity sin path measurement = 0%float).
Proof.
  repeat split.
  - intros p ms -> -> Hu Hd Hs. cbn.
    now rewrite (positive_not_le_zero _ Hu), (positive_not_le_zero _ Hd), Hs.
  - intros [-> | ->]; [reflexivity | now destruct path].
  - intros ms -> Ht. destruct path as [p|]; [|reflexivity]. cbn.
    destruct Ht as [-> | ->]; [reflexivity | now rewrite orb_true_r].
  - intros p -> Hs. destruct measurement as [ms|]; [|reflexivity]. cbn.
    rewrite Hs. now destruct (_ || _).
Qed.

(** The theorem above at a perpendicular path of length 40 with transit times 2 s and 1 s
    (velocity 10), at a zero transit time, at a zero angle and at an absent
    measurement. *)
Lemma calculate_path_velocity_formula_and_guards_witness :
  let p := square_path 40 in
  let p0 := {| position := 0; angle := 0; length := 40; weight := 1 |} in
  let ms := {| t_upstream := 2; t_downstream := 1 |} in
  let ms0 := {| t_upstream := 0; t_downstream := 1 |} in
  calculate_path_velocity sin_sample (Some p) (Some ms) = 10%float
  /\ calculate_path_velocity sin_sample (Some p) (Some ms0) = 0%float
  /\ calculate_path_velocity sin_sample (Some p0) (Some ms) = 0%float
  /\ calculate_path_velocity sin_sample (Some p) None = 0%float.
Proof.
  intros p p0 ms ms0.
  pose proof (calculate_path_velocity_formula_and_guards sin_sample (Some p) (Some ms))
    as (Hformula & _ & _ & _).
  pose proof (calculate_path_velocity_formula_and_guards sin_sample (Some p) (Some ms0))
    as (_ & _ & Htime & _).
  pose proof (calculate_path_velocity_formula_and_guards sin_sample (Some p0) (Some ms))
    as (_ & _ & _ & Hsine).
  pose proof (calculate_path_velocity_formula_and_guards sin_sample (Some p) None)
    as (_ & Habsent & _ & _).
  split; [|split; [|split]].
  - exact (Hformula p ms eq_refl eq_refl eq_refl eq_refl eq_refl).
  - exact (Htime ms0 eq_refl (or_introl eq_refl)).
  - exact (Hsine p0 eq_refl eq_refl).
  - exact (Habsent (or_intror eq_refl)).
Defined.

(** C2.  With the configuration, its paths, the measurements and a result
    object present, [num_paths > 0], at least [num_paths] paths and
    measurements, and storage for the velocity array available,
    [calculate_flow_rate] returns 0 and leaves a result whose velocity
    array has exactly [num_paths] entries, entry [i] being
    [calculate_path_velocity(paths[i], measurements[i])], and whose flow is
    (M_PI * (d/2) * (d/2)) times the sum of weight_i * velocity_i accumulated
    from 0.0 in index order. *)
Theorem calculate_flow_rate_computes (sin : float -> float)
    (c : FlowMeterConfig) (ms : list PathMeasurement) (ps : list AcousticPath)
    (r : addr) (fr : FlowResult) (m : memory) :
  paths c = Some ps ->
  num_paths c <> 0%N ->
  N.to_nat (num_paths c) <= List.length ps ->
  N.to_nat (num_paths c) <= List.length ms ->
  objs m !! r = Some (Obj_FlowResult fr) ->
  (num_paths c * sizeof_double <= avail m)%N ->
  exists m' vs,
    calculate_flow_rate sin (Some c) (Some ms) (Some r) m = Some (0%Z, m') /\
    List.length vs = N.to_nat (num_paths c) /\
    (forall i p mi, i < N.to_nat (num_paths c) ->
       ps !! i = Some p -> ms !! i = Some mi ->
       vs !! i = Some (calculate_path_velocity sin (Some p) (Some mi))) /\
    holds_result m' r vs
      ((M_PI * (pipe_diameter c / 2) * (pipe_diameter c / 2)) *
       fold_left (fun acc pv => acc + weight pv.1 * pv.2)
         (zip (take (N.to_nat (num_paths c)) ps) vs) 0)%float.
Proof.
  intros Hps Hz Hlp Hlm Hr Hav.
  set (n := N.to_nat (num_paths c)) in *.
  exists (result_memory m r (fresh (dom (objs m)))
            (velocities_of sin (take n ps) (take n ms))
            (flow_of c (take n ps) (velocities_of sin (take n ps) (take n ms)))
            (num_paths c * sizeof_double)).
  exists (velocities_of sin (take n ps) (take n ms)).
  split; [|split; [|split]].
  - rewrite (calculate_flow_rate_run sin c ms r m fr Hr), Hps.
    apply N.eqb_neq in Hz. rewrite Hz. cbn [orb is_null].
    apply N.leb_le in Hav. rewrite Hav. cbn zeta. fold n.
    now rewrite decide_True by (split; assumption).
  - now apply velocities_of_length.
  - intros i p mi. apply velocities_of_lookup.
  - apply read_result_result_memory. eapply fresh_not_live, Hr.
Qed.

(** The theorem above at the one-path configuration of length 40, with a caller-provided
    result object and 8 bytes available. *)
Lemma calculate_flow_rate_computes_witness :
  exists m' vs,
    calculate_flow_rate sin_sample (Some (square_config 40)) (Some square_measurements)
      (Some 1%positive) (caller_memory 8) = Some (0%Z, m') /\
    List.length vs = 1 /\
    (forall i p mi, i < 1 ->
       [square_path 40] !! i = Some p -> square_measurements !! i = Some mi ->
       vs !! i = Some (calculate_path_velocity sin_sample (Some p) (Some mi))) /\
    holds_result m' 1%positive vs
      ((M_PI * (0.1 / 2) * (0.1 / 2)) *
       fold_left (fun acc pv => acc + weight pv.1 * pv.2)
         (zip [square_path 40] vs) 0)%float.
Proof.
  apply (calculate_flow_rate_computes sin_sample (square_config 40) square_measurements
           [square_path 40] 1%positive
           {| path_velocities := None; volumetric_flow := None |} (caller_memory 8)).
  - reflexivity.
  - discriminate.
  - vm_compute. lia.
  - vm_compute. lia.
  - reflexivity.
  - now vm_compute.
Defined.

(** C3, as the code has it.  For inputs whose present sequences have at
    least [num_paths] elements: [calculate_flow_rate], given a null or
    valid result reference, returns 0 or -1, and -1 exactly when a
    configuration error holds, the result reference is absent, or the
    velocity array cannot be allocated; [flowmeter_process] returns the null
    pointer exactly when a configuration error holds or the aggregate and
    the velocity array cannot both be allocated, leaves the memory
    unchanged in that case, and otherwise returns a populated result. *)
Theorem failure_exactly_on_error_or_exhaustion (sin : float -> float)
    (config : option FlowMeterConfig)
    (measurements : option (list PathMeasurement)) (m : memory) :
  well_formed config measurements ->
  (forall result, valid_result m result ->
     exists rc m',
       calculate_flow_rate sin config measurements result m = Some (rc, m') /\
       (rc = 0%Z \/ rc = (-1)%Z) /\
       (rc = (-1)%Z <->
          configuration_error config measurements \/ result = None \/
          exists c, config = Some c /\ (avail m < num_paths c * sizeof_double)%N))
  /\ (exists res m',
        flowmeter_process sin config measurements m = Some (res, m') /\
        (res = None <->
           configuration_error config measurements \/
           exists c, config = Some c /\ (avail m < bytes_needed c)%N) /\
        (res = None -> m' = m) /\
        (forall r, res = Some r -> exists vs q, holds_result m' r vs q)).
Proof.
  intros Hwf. split.
  - intros result Hvalid.
    destruct config as [c|], measurements as [ms|], result as [r|];
      try (failed_with m; unfold configuration_error; tauto).
    destruct (Hvalid r eq_refl) as [fr Hr].
    rewrite (calculate_flow_rate_run sin c ms r m fr Hr).
    destruct ((num_paths c =? 0)%N || is_null (paths c)) eqn:Hg.
    { failed_with m. left. now apply guard_true_configuration_error. }
    pose proof (guard_false_no_configuration_error c ms Hg) as Hno.
    destruct (N.leb_spec (num_paths c * sizeof_double) (avail m)) as [Hav|Hav].
    + destruct (guard_false_paths c Hg) as [ps Hps]. rewrite Hps.
      destruct (Hwf c ms ps eq_refl eq_refl Hps) as [H1 H2]. cbn zeta.
      rewrite decide_True by (split; assumption).
      eexists 0%Z, _. split; [reflexivity|split; [now left|]].
      split; [discriminate|].
      intros [E|[E|(c' & [= <-] & E)]]; [contradiction|discriminate|lia].
    + failed_with (null_velocities m r fr). right; right. now exists c.
  - destruct config as [c|], measurements as [ms|];
      try (failed_with m; unfold configuration_error; tauto).
    unfold flowmeter_process, bind.
    destruct (malloc sizeof_FlowResult _ m) as [[[r|] m1]|] eqn:Hmalloc.
    3: { unfold malloc in Hmalloc. now destruct (_ <=? _)%N. }
    2: { unfold malloc in Hmalloc.
         destruct (N.leb_spec sizeof_FlowResult (avail m)) as [Hle|Hlt]; [discriminate|].
         injection Hmalloc as <-.
         failed_with m. right. exists c. split; [reflexivity|].
         unfold bytes_needed. lia. }
    apply malloc_Some in Hmalloc as (Hle & Hfresh & ->).
    set (fr0 := {| path_velocities := None; volumetric_flow := None |}).
    set (m1 := {| objs := <[r := Obj_FlowResult fr0]> (objs m);
                  avail := avail m - sizeof_FlowResult |}).
    assert (Hr : objs m1 !! r = Some (Obj_FlowResult fr0))
      by (unfold m1; cbn [objs]; apply lookup_insert_eq).
    rewrite (calculate_flow_rate_run sin c ms r m1 fr0 Hr).
    destruct ((num_paths c =? 0)%N || is_null (paths c)) eqn:Hg.
    { cbn [Z.eqb]. unfold bind.
      rewrite (free_restores m r fr0 m1 fr0 Hle Hfresh)
        by (unfold m1; cbn [objs avail]; now rewrite ?insert_insert_eq).
      failed_with m. left. now apply guard_true_configuration_error. }
    pose proof (guard_false_no_configuration_error c ms Hg) as Hno.
    destruct (N.leb_spec (num_paths c * sizeof_double) (avail m1)) as [Hav|Hav];
      unfold m1 in Hav; cbn [avail] in Hav.
    + destruct (guard_false_paths c Hg) as [ps Hps]. rewrite Hps.
      destruct (Hwf c ms ps eq_refl eq_refl Hps) as [H1 H2]. cbn zeta.
      rewrite decide_True by (split; assumption). cbn [Z.eqb]. unfold ret.
      eexists (Some r), _. split; [reflexivity|split; [|split; [discriminate|]]].
      * split; [discriminate|].
        intros [E|(c' & [= <-] & E)]; [contradiction|].
        unfold bytes_needed in E. lia.
      * intros r' [= <-]. eexists _, _.
        apply read_result_result_memory. eapply fresh_not_live, Hr.
    + cbn [Z.eqb]. unfold bind.
      rewrite (free_restores m r fr0 (null_velocities m1 r fr0)
                 {| path_velocities := Some None; volumetric_flow := volumetric_flow fr0 |}
                 Hle Hfresh)
        by reflexivity.
      failed_with m. right. exists c. split; [reflexivity|].
      unfold bytes_needed. lia.
Qed.

(** The theorem above, for [flowmeter_process], at the one-path
    configuration with 24 bytes available. *)
Lemma failure_exactly_on_error_or_exhaustion_witness :
  exists res m',
    flowmeter_process sin_sample (Some (square_config 40)) (Some square_measurements)
      (empty_memory 24) = Some (res, m') /\
    (res = None <->
       configuration_error (Some (square_config 40)) (Some square_measurements) \/
       exists c, Some (square_config 40) = Some c /\
                 (avail (empty_memory 24) < bytes_needed c)%N) /\
    (res = None -> m' = empty_memory 24) /\
    (forall r, res = Some r -> exists vs q, holds_result m' r vs q).
Proof.
  apply (failure_exactly_on_error_or_exhaustion sin_sample (Some (square_config 40))
           (Some square_measurements) (empty_memory 24)).
  intros c ms ps [= <-] [= <-] [= <-]. vm_compute. lia.
Defined.

(** Counterexample to C3 as stated: a configuration and measurements satisfying every
    listed precondition, yet both operations signal failure, because no
    storage is available. *)
Lemma failure_without_configuration_error :
  well_formed (Some (square_config 40)) (Some square_measurements)
  /\ ~ configuration_error (Some (square_config 40)) (Some square_measurements)
  /\ flowmeter_process sin_sample (Some (square_config 40)) (Some square_measurements)
       (empty_memory 0) = Some (None, empty_memory 0)
  /\ observe (calculate_flow_rate sin_sample (Some (square_config 40))
                (Some square_measurements) (Some 1%positive) (caller_memory 0)) 1%positive
       = Some ((-1)%Z, None).
Proof.
  split; [|split; [|split]].
  - intros c ms ps [= <-] [= <-] [= <-]. vm_compute. lia.
  - apply guard_false_no_configuration_error. reflexivity.
  - reflexivity.
  - vm_compute. reflexivity.
Qed.

(** C4.  With positive transit times and a non-zero sine, exchanging
    [t_upstream] and [t_downstream] negates the result of
    [calculate_path_velocity]: the two results are opposite as IEEE 754
    numbers (a NaN result stays NaN), and bit for bit opposite unless both
    are zero. *)
Theorem calculate_path_velocity_antisymmetric (sin : float -> float)
    (p : AcousticPath) (ms : PathMeasurement) :
  (0 <? t_upstream ms)%float = true ->
  (0 <? t_downstream ms)%float = true ->
  (sin (angle p) =? 0)%float = false ->
  let v := calculate_path_velocity sin (Some p) (Some ms) in
  let v' := calculate_path_velocity sin (Some p) (Some (swap_times ms)) in
  feq v' (- v) = true /\
  (v' = (- v)%float \/ ((v' =? 0)%float = true /\ (v =? 0)%float = true)).
Proof.
  intros Hu Hd Hs v v'.
  assert (H : fmirrored v' v).
  { unfold v, v', calculate_path_velocity, swap_times.
    cbn [t_upstream t_downstream].
    rewrite (positive_not_le_zero _ Hu), (positive_not_le_zero _ Hd), Hs.
    cbn [orb]. rewrite (float_mul_comm (t_downstream ms) (t_upstream ms)).
    apply fmirrored_mul_l, fmirrored_div, fmirrored_sub_swap. }
  split; [now apply fmirrored_feq | now apply fmirrored_cases].
Qed.

(** The theorem above at the perpendicular path of length 40: times 2 s and 1 s give 10,
    times 1 s and 2 s give -10. *)
Lemma calculate_path_velocity_antisymmetric_witness :
  feq (calculate_path_velocity sin_sample (Some (square_path 40))
         (Some {| t_upstream := 1; t_downstream := 2 |})) (- 10) = true.
Proof.
  exact (proj1 (calculate_path_velocity_antisymmetric sin_sample (square_path 40)
                  {| t_upstream := 2; t_downstream := 1 |} eq_refl eq_refl eq_refl)).
Defined.

(** Counterexample to C5 as stated: with libm's value of [sin(M_PI/4)] the scenario
    gives a velocity of about -11.23 m/s and a flow of about
    -0.0882 m^3/s, neither within 1 % of 2.0 and 0.015708. *)
Lemma scenario_is_not_two_metres_per_second :
  observe (calculate_flow_rate sin_sample (Some (scenario_config sin_sample))
             (Some scenario_measurements) (Some 1%positive) (caller_memory 8)) 1%positive
    = Some (0%Z, Some ([Some (-11.232051897481622)%float],
                       Some (-0.088216329314668898)%float))
  /\ within_1pct (-11.232051897481622) 2 = false
  /\ within_1pct (-0.088216329314668898) 0.015708 = false.
Proof. split; [|split]; vm_compute; reflexivity. Qed.

Lemma scenario_velocity_value s :
  s = sin_quarter_pi_lo \/ s = sin_quarter_pi_hi ->
  within_1pct (scenario_velocity s) (-11.232) = true /\
  within_1pct (area_of (scenario_config (fun _ => s))
               * (0 + 1 * scenario_velocity s)) (-0.088216) = true.
Proof. intros [-> | ->]; split; vm_compute; reflexivity. Qed.

(** C5, as the code has it.  For the scenario's input, with libm
    returning either binary64 neighbour of the exact [sin(M_PI/4)], a
    result object present and 8 bytes available, [calculate_flow_rate]
    succeeds with one path velocity within 1 % of -11.232 m/s and a flow
    within 1 % of -0.088216 m^3/s. *)
Theorem scenario_velocity_and_flow (sin : float -> float) (m : memory)
    (r : addr) (fr : FlowResult) :
  sin (M_PI / 4)%float = sin_quarter_pi_lo \/
    sin (M_PI / 4)%float = sin_quarter_pi_hi ->
  objs m !! r = Some (Obj_FlowResult fr) ->
  (8 <= avail m)%N ->
  exists m' v q,
    calculate_flow_rate sin (Some (scenario_config sin)) (Some scenario_measurements)
      (Some r) m = Some (0%Z, m') /\
    holds_result m' r [v] q /\
    within_1pct v (-11.232) = true /\
    within_1pct q (-0.088216) = true.
Proof.
  intros Hsin Hr Hav.
  rewrite (calculate_flow_rate_run sin (scenario_config sin) scenario_measurements r m fr Hr).
  cbn [scenario_config num_paths paths N.eqb is_null orb].
  apply N.leb_le in Hav. change (1 * sizeof_double)%N with 8%N. rewrite Hav.
  cbn zeta. rewrite decide_True by (vm_compute; lia).
  destruct (scenario_velocity_value (sin (M_PI / 4)%float) Hsin) as [Hv Hq].
  eexists _, (scenario_velocity (sin (M_PI / 4)%float)), _.
  split; [reflexivity|split; [|split; [exact Hv|exact Hq]]].
  apply (read_result_result_memory m r (fresh (dom (objs m)))
           [scenario_velocity (sin (M_PI / 4)%float)]).
  eapply fresh_not_live, Hr.
Qed.

(** The theorem above with [sin_sample] for libm's sine. *)
Lemma scenario_velocity_and_flow_witness :
  exists m' v q,
    calculate_flow_rate sin_sample (Some (scenario_config sin_sample))
      (Some scenario_measurements) (Some 1%positive) (caller_memory 8) = Some (0%Z, m') /\
    holds_result m' 1%positive [v] q /\
    within_1pct v (-11.232) = true /\
    within_1pct q (-0.088216) = true.
Proof.
  apply (scenario_velocity_and_flow sin_sample (caller_memory 8) 1%positive
           {| path_velocities := None; volumetric_flow := None |}).
  - left. reflexivity.
  - reflexivity.
  - now vm_compute.
Defined.

Lemma weighted_fold_mirrored ps1 :
  forall ps2 vs acc1 acc2,
    weight <$> ps1 = weight <$> ps2 ->
    fmirrored acc2 acc1 ->
    fmirrored (fold_left accumulate (zip ps2 (opp <$> vs)) acc2)
              (fold_left accumulate (zip ps1 vs) acc1).
Proof.
  induction ps1 as [|p1 ps1 IH]; intros [|p2 ps2] vs acc1 acc2 Hw Hacc;
    try discriminate; [exact Hacc|].
  injection Hw as Hw1 Hw.
  destruct vs as [|v vs]; [exact Hacc|].
  cbn [fmap list_fmap zip zip_with fold_left]. apply IH; [exact Hw|].
  unfold accumulate. cbn [fst snd]. rewrite <- Hw1.
  apply fmirrored_add; [exact Hacc|]. apply fmirrored_mul_l, fmirrored_opp.
Qed.

Lemma weighted_fold_same_weights ps1 :
  forall ps2 vs acc,
    weight <$> ps1 = weight <$> ps2 ->
    fold_left accumulate (zip ps2 vs) acc = fold_left accumulate (zip ps1 vs) acc.
Proof.
  induction ps1 as [|p1 ps1 IH]; intros [|p2 ps2] vs acc Hw;
    try discriminate; [reflexivity|].
  injection Hw as Hw1 Hw.
  destruct vs as [|v vs]; [reflexivity|].
  cbn [zip zip_with fold_left]. unfold accumulate at 2 4. cbn [fst snd].
  rewrite <- Hw1. now apply IH.
Qed.

Lemma fmap_mul_one (vs : list float) : mul 1 <$> vs = vs.
Proof.
  induction vs as [|v vs IH]; [reflexivity|].
  cbn [fmap list_fmap]. f_equal; [apply float_mul_one_l | exact IH].
Qed.

Lemma fmap_mul_minus_one (vs : list float) : mul (-1) <$> vs = opp <$> vs.
Proof.
  induction vs as [|v vs IH]; [reflexivity|].
  cbn [fmap list_fmap]. f_equal; [apply float_mul_minus_one_l | exact IH].
Qed.

(** Counterexample to C6 as stated: tripling the one path velocity (10 to 30 m/s) with
    weight and diameter fixed does not triple the flow; the two doubles
    differ in the last place. *)
Lemma tripled_velocity_does_not_triple_flow :
  observe (calculate_flow_rate sin_sample (Some (square_config 40))
             (Some square_measurements) (Some 1%positive) (caller_memory 8)) 1%positive
    = Some (0%Z, Some ([Some 10%float], Some 0.078539816339744828%float))
  /\ observe (calculate_flow_rate sin_sample (Some (square_config 120))
                (Some square_measurements) (Some 1%positive) (caller_memory 8)) 1%positive
       = Some (0%Z, Some ([Some (3 * 10)%float], Some 0.23561944901923451%float))
  /\ (3 * 0.078539816339744828)%float = 0.23561944901923448%float
  /\ (0.23561944901923451 =? 3 * 0.078539816339744828)%float = false.
Proof. split; [|split; [|split]]; vm_compute; reflexivity. Qed.

(** C6, as the code has it.  Of two successful runs with the same
    diameter, path count and weights, if every velocity of the second is
    [k] times the corresponding velocity of the first, with [k] equal to 1
    or to -1, then the second flow is [k] times the first: equal as
    IEEE 754 numbers (a NaN flow stays NaN), and bit for bit equal unless
    both are zero. *)
Theorem unit_scaling_scales_flow (sin : float -> float) (k : float)
    (c1 c2 : FlowMeterConfig) (ms1 ms2 : list PathMeasurement)
    (r1 r2 : addr) (m1 m2 m1' m2' : memory)
    (vs1 vs2 : list float) (q1 q2 : float) :
  k = 1%float \/ k = (-1)%float ->
  pipe_diameter c1 = pipe_diameter c2 ->
  num_paths c1 = num_paths c2 ->
  (fun ps => weight <$> take (N.to_nat (num_paths c1)) ps) <$> paths c1 =
    (fun ps => weight <$> take (N.to_nat (num_paths c1)) ps) <$> paths c2 ->
  calculate_flow_rate sin (Some c1) (Some ms1) (Some r1) m1 = Some (0%Z, m1') ->
  calculate_flow_rate sin (Some c2) (Some ms2) (Some r2) m2 = Some (0%Z, m2') ->
  holds_result m1' r1 vs1 q1 ->
  holds_result m2' r2 vs2 q2 ->
  vs2 = mul k <$> vs1 ->
  feq q2 (k * q1) = true /\
  (q2 = (k * q1)%float \/ ((q2 =? 0)%float = true /\ (q1 =? 0)%float = true)).
Proof.
  intros Hk Hd Hn Hw H1 H2 Hv1 Hv2 Hscaled.
  apply calculate_flow_rate_success in H1 as (ps1 & Hp1 & _ & _ & _ & _ & _ & Hr1).
  apply calculate_flow_rate_success in H2 as (ps2 & Hp2 & _ & _ & _ & _ & _ & Hr2).
  rewrite Hp1, Hp2 in Hw. cbn in Hw. injection Hw as Hw.
  rewrite <- Hn in Hr2.
  destruct (holds_result_unique _ _ _ _ _ _ Hv1 Hr1) as [Hvs1 ->].
  destruct (holds_result_unique _ _ _ _ _ _ Hv2 Hr2) as [Hvs2 ->].
  rewrite <- Hvs1, <- Hvs2, Hscaled.
  unfold flow_of, area_of, weighted_sum. rewrite <- Hd.
  destruct Hk as [-> | ->].
  - rewrite fmap_mul_one, float_mul_one_l, (weighted_fold_same_weights _ _ _ _ Hw).
    split; [apply feq_refl | now left].
  - rewrite fmap_mul_minus_one, float_mul_minus_one_l.
    match goal with |- feq ?a (- ?b) = true /\ _ => assert (H : fmirrored a b) end.
    { apply fmirrored_mul_l, weighted_fold_mirrored; [exact Hw | apply fmirrored_zero]. }
    split; [now apply fmirrored_feq | now apply fmirrored_cases].
Qed.

(** The theorem above at k = -1: path lengths 40 and -40 give velocities 10
    and -10 and opposite flows. *)
Lemma unit_scaling_scales_flow_witness :
  feq (-0.078539816339744828) (-1 * 0.078539816339744828) = true.
Proof.
  exact (proj1 (unit_scaling_scales_flow sin_sample (-1)
           (square_config 40) (square_config (-40))
           square_measurements square_measurements
           1%positive 1%positive (caller_memory 8) (caller_memory 8)
           (final_memory (calculate_flow_rate sin_sample (Some (square_config 40))
                            (Some square_measurements) (Some 1%positive) (caller_memory 8))
              (caller_memory 8))
           (final_memory (calculate_flow_rate sin_sample (Some (square_config (-40)))
                            (Some square_measurements) (Some 1%positive) (caller_memory 8))
              (caller_memory 8))
           [10%float] [(-10)%float] 0.078539816339744828%float (-0.078539816339744828)%float
           (or_intror eq_refl)
           eq_refl eq_refl eq_refl eq_refl eq_refl eq_refl eq_refl eq_refl)).
Defined.

(** C7.  [flowmeter_result_free] leaves the memory untouched when given
    the null pointer.  Given a result whose velocity array is allocated, it
    removes the array and the aggregate from the live objects, touches no
    other object and returns their bytes to the allocator; given a result
    whose velocity pointer is null, it releases the aggregate alone. *)
Theorem flowmeter_result_free_releases :
  (forall m, flowmeter_result_free None m = Some (tt, m))
  /\ (forall m r a q cells,
        objs m !! r = Some (Obj_FlowResult {| path_velocities := Some (Some a);
                                              volumetric_flow := q |}) ->
        objs m !! a = Some (Obj_doubles cells) ->
        flowmeter_result_free (Some r) m =
          Some (tt, {| objs := delete r (delete a (objs m));
                       avail := avail m + sizeof_double * N.of_nat (List.length cells)
                                + sizeof_FlowResult |}))
  /\ (forall m r q,
        objs m !! r = Some (Obj_FlowResult {| path_velocities := Some None;
                                              volumetric_flow := q |}) ->
        flowmeter_result_free (Some r) m =
          Some (tt, {| objs := delete r (objs m);
                       avail := avail m + sizeof_FlowResult |})).
Proof.
  split; [reflexivity|split].
  - intros m r a q cells Hr Ha.
    assert (Hne : a <> r) by (intros ->; rewrite Hr in Ha; discriminate).
    unfold flowmeter_result_free, bind.
    rewrite (load_path_velocities_at r m _ (Some a) Hr eq_refl).
    unfold free at 1. rewrite Ha. unfold free. cbn [objs avail].
    now rewrite lookup_delete_ne, Hr by exact Hne.
  - intros m r q Hr.
    unfold flowmeter_result_free, bind.
    rewrite (load_path_velocities_at r m _ None Hr eq_refl).
    unfold ret, free. now rewrite Hr.
Qed.

(** The theorem above at a populated one-path result: both objects are released and the
    24 bytes are available again. *)
Lemma flowmeter_result_free_releases_witness :
  flowmeter_result_free (Some 1%positive) populated_memory = Some (tt, empty_memory 24).
Proof.
  exact (proj1 (proj2 flowmeter_result_free_releases)
           populated_memory 1%positive 2%positive (Some 0.5%float) [Some 10%float]
           eq_refl eq_refl).
Defined.

(** C8.  When [flowmeter_process] has allocated the aggregate and the
    integration on it reports failure, [flowmeter_process] returns the
    null pointer and the memory is the one it started from: the aggregate
    is released and nothing else was left allocated. *)
Theorem flowmeter_process_releases_on_failure (sin : float -> float)
    (config : option FlowMeterConfig)
    (measurements : option (list PathMeasurement))
    (m m1 m2 : memory) (r : addr) (rc : Z) :
  config <> None ->
  measurements <> None ->
  malloc sizeof_FlowResult
    (Obj_FlowResult {| path_velocities := None; volumetric_flow := None |}) m
    = Some (Some r, m1) ->
  calculate_flow_rate sin config measurements (Some r) m1 = Some (rc, m2) ->
  rc <> 0%Z ->
  flowmeter_process sin config measurements m = Some (None, m).
Proof.
  intros Hc Hms Hmalloc Hrun Hrc.
  destruct config as [c|]; [|now destruct Hc].
  destruct measurements as [ms|]; [|now destruct Hms].
  unfold flowmeter_process, bind. rewrite Hmalloc, Hrun.
  apply Z.eqb_neq in Hrc as Hrc'. rewrite Hrc'.
  apply malloc_Some in Hmalloc as (Hle & Hfresh & ->).
  eapply calculate_flow_rate_failure in Hrun as (fr' & Hobjs & Hav);
    [|cbn [objs]; apply lookup_insert_eq|exact Hrc].
  cbn [objs avail] in Hobjs, Hav.
  now rewrite (free_restores m r _ m2 fr' Hle Hfresh Hobjs Hav).
Qed.

(** The theorem above at a configuration with [num_paths = 0] and exactly the 16 bytes of
    the aggregate available. *)
Lemma flowmeter_process_releases_on_failure_witness :
  flowmeter_process sin_sample (Some no_paths_config) (Some []) (empty_memory 16)
    = Some (None, empty_memory 16).
Proof.
  apply (flowmeter_process_releases_on_failure sin_sample (Some no_paths_config) (Some [])
           (empty_memory 16)
           {| objs := {[ 1%positive := Obj_FlowResult {| path_velocities := None;
                                                         volumetric_flow := None |} ]};
              avail := 0 |}
           {| objs := {[ 1%positive := Obj_FlowResult {| path_velocities := None;
                                                         volumetric_flow := None |} ]};
              avail := 0 |}
           1%positive (-1)%Z).
  - discriminate.
  - discriminate.
  - vm_compute. reflexivity.
  - vm_compute. reflexivity.
  - discriminate.
Defined.

(** C9.  With an absent output reference [calculate_flow_rate] returns -1
    and leaves the memory as it found it, whatever the other arguments. *)
Theorem calculate_flow_rate_absent_result (sin : float -> float)
    (config : option FlowMeterConfig)
    (measurements : option (list PathMeasurement)) (m : memory) :
  calculate_flow_rate sin config measurements None m = Some ((-1)%Z, m).
Proof. destruct config, measurements; reflexivity. Qed.

(** C10.  Two successful runs of [calculate_flow_rate] whose
    configurations agree on the diameter, the path count and the first
    [num_paths] paths, and whose measurements agree on the first
    [num_paths] elements, leave equal velocity arrays and equal flows,
    whatever the rest of the sequences, the memories and the result
    addresses are. *)
Theorem calculate_flow_rate_depends_only_on_prefix (sin : float -> float)
    (c1 c2 : FlowMeterConfig) (ms1 ms2 : list PathMeasurement)
    (r1 r2 : addr) (m1 m2 m1' m2' : memory)
    (vs1 vs2 : list float) (q1 q2 : float) :
  pipe_diameter c1 = pipe_diameter c2 ->
  num_paths c1 = num_paths c2 ->
  take (N.to_nat (num_paths c1)) <$> paths c1 =
    take (N.to_nat (num_paths c1)) <$> paths c2 ->
  take (N.to_nat (num_paths c1)) ms1 = take (N.to_nat (num_paths c1)) ms2 ->
  calculate_flow_rate sin (Some c1) (Some ms1) (Some r1) m1 = Some (0%Z, m1') ->
  calculate_flow_rate sin (Some c2) (Some ms2) (Some r2) m2 = Some (0%Z, m2') ->
  holds_result m1' r1 vs1 q1 ->
  holds_result m2' r2 vs2 q2 ->
  vs1 = vs2 /\ q1 = q2.
Proof.
  intros Hd Hn Hps Hms H1 H2 Hv1 Hv2.
  apply calculate_flow_rate_success in H1 as (ps1 & Hp1 & _ & _ & _ & _ & _ & Hr1).
  apply calculate_flow_rate_success in H2 as (ps2 & Hp2 & _ & _ & _ & _ & _ & Hr2).
  rewrite Hp1, Hp2 in Hps. cbn in Hps. injection Hps as Hps.
  rewrite <- Hn, <- Hps, <- Hms in Hr2.
  replace (flow_of c2) with (flow_of c1) in Hr2
    by (unfold flow_of, area_of; now rewrite Hd).
  destruct (holds_result_unique _ _ _ _ _ _ Hv1 Hr1) as [-> ->].
  destruct (holds_result_unique _ _ _ _ _ _ Hv2 Hr2) as [-> ->].
  split; reflexivity.
Qed.

(** The theorem above at two runs that differ in the second path, the second
    measurement and the available bytes, but not in the first [num_paths = 1]
    elements. *)
Lemma calculate_flow_rate_depends_only_on_prefix_witness :
  [10%float] = [10%float] /\ 0.078539816339744828%float = 0.078539816339744828%float.
Proof.
  apply (calculate_flow_rate_depends_only_on_prefix sin_sample
           (square_config 40)
           {| pipe_diameter := 0.1; num_paths := 1;
              paths := Some [square_path 40; spare_path] |}
           square_measurements (square_measurements ++ [spare_measurement])
           1%positive 1%positive (caller_memory 8) (caller_memory 100)
           (final_memory (calculate_flow_rate sin_sample (Some (square_config 40))
                            (Some square_measurements) (Some 1%positive) (caller_memory 8))
              (caller_memory 8))
           (final_memory (calculate_flow_rate sin_sample
                            (Some {| pipe_diameter := 0.1; num_paths := 1;
                                     paths := Some [square_path 40; spare_path] |})
                            (Some (square_measurements ++ [spare_measurement]))
                            (Some 1%positive) (caller_memory 100))
              (caller_memory 100))).
  - reflexivity.
  - reflexivity.
  - reflexivity.
  - reflexivity.
  - vm_compute. reflexivity.
  - vm_compute. reflexivity.
  - vm_compute. reflexivity.
  - vm_compute. reflexivity.
Defined.

(** * Further properties of [flowmeter.c] *)

(** ** [calculate_path_velocity] at equal and at NaN inputs *)

Lemma zero_or_nan_spec x : zero_or_nan x = SFzero_or_nan (Prim2SF x).
Proof.
  unfold zero_or_nan, is_nan. rewrite !FloatAxioms.eqb_spec.
  change (Prim2SF 0) with (S754_zero false).
  destruct (Prim2SF x) as [s|s| |s m e] eqn:E; try reflexivity.
  - now destruct s.
  - rewrite SFeqb_refl by discriminate. now destruct s.
Qed.

Lemma SFsub_diag x : SFzero_or_nan (SF64sub x x) = true.
Proof.
  destruct x as [s|s| |s m e]; try (now destruct s); [reflexivity|].
  unfold SF64sub, SFsub. now rewrite Z.sub_diag.
Qed.

Lemma SFsub_diag_finite s m e :
  SF64sub (S754_finite s m e) (S754_finite s m e) = S754_zero false.
Proof. unfold SF64sub, SFsub. now rewrite Z.sub_diag. Qed.

Lemma SFdiv_zero_or_nan a y :
  SFzero_or_nan a = true -> SFzero_or_nan (SF64div a y) = true.
Proof. destruct a as [s|s| |s m e], y as [sy|sy| |sy my ey]; try discriminate; reflexivity. Qed.

Lemma SFmul_zero_or_nan c a :
  SFzero_or_nan a = true -> SFzero_or_nan (SF64mul c a) = true.
Proof. destruct a as [s|s| |s m e], c as [sc|sc| |sc mc ec]; try discriminate; reflexivity. Qed.

Lemma SFmul_nan_r c : SF64mul c S754_nan = S754_nan.
Proof. now destruct c. Qed.

Lemma SFdiv_nan_r a : SF64div a S754_nan = S754_nan.
Proof. now destruct a. Qed.

Lemma SFsub_nan_r a : SF64sub a S754_nan = S754_nan.
Proof. now destruct a. Qed.

Lemma SFmul_nan_l a : SF64mul S754_nan a = S754_nan.
Proof. reflexivity. Qed.

Lemma SF_zero_flow t c :
  SFleb t (S754_zero false) = false ->
  SFltb t (S754_infinity false) = true ->
  SFltb (S754_zero false) (SF64mul t t) = true ->
  SFltb (SFabs c) (S754_infinity false) = true ->
  SFeqb (SF64mul c (SF64div (SF64sub t t) (SF64mul t t))) (S754_zero false) = true.
Proof.
  destruct t as [s|s| |s m e].
  - discriminate.
  - now destruct s.
  - discriminate.
  - destruct s; [discriminate|]. intros _ _.
    rewrite SFsub_diag_finite.
    destruct (SF64mul _ _) as [sy|sy| |sy my ey]; try discriminate;
      (destruct sy; [discriminate|]); intros _;
      destruct c as [sc|sc| |sc mc ec]; try discriminate; intros _; now destruct sc.
Qed.

(** X1.  Equal transit times give no flow: the result of
    [calculate_path_velocity] is then a zero or NaN, and it is a zero
    whenever the common transit time is below infinity, its square is
    positive (no underflow to zero) and [length / (2 sin(angle))] is
    finite. *)
Theorem equal_transit_times_zero_velocity (sin : float -> float)
    (p : AcousticPath) (ms : PathMeasurement) :
  t_upstream ms = t_downstream ms ->
  let v := calculate_path_velocity sin (Some p) (Some ms) in
  zero_or_nan v = true /\
  ((t_upstream ms <? infinity)%float = true ->
   (0 <? t_upstream ms * t_upstream ms)%float = true ->
   (abs (length p / (2 * sin (angle p))) <? infinity)%float = true ->
   (v =? 0)%float = true).
Proof.
  intros Heq v. unfold v, calculate_path_velocity. rewrite <- Heq.
  set (t := t_upstream ms).
  destruct ((t <=? 0)%float || (t <=? 0)%float) eqn:Hg; [split; reflexivity|].
  destruct (sin (angle p) =? 0)%float; [split; reflexivity|].
  set (c := (length p / (2 * sin (angle p)))%float).
  split.
  - rewrite zero_or_nan_spec, FloatAxioms.mul_spec, FloatAxioms.div_spec,
      FloatAxioms.sub_spec.
    apply SFmul_zero_or_nan, SFdiv_zero_or_nan, SFsub_diag.
  - apply orb_false_elim in Hg as [Hg _]. revert Hg.
    rewrite FloatAxioms.leb_spec, !FloatAxioms.ltb_spec, !FloatAxioms.eqb_spec,
      FloatAxioms.abs_spec, !FloatAxioms.mul_spec, FloatAxioms.div_spec,
      FloatAxioms.sub_spec, FloatAxioms.mul_spec.
    apply SF_zero_flow.
Qed.

(** The theorem above at the perpendicular path of length 40 with both
    transit times 2 s. *)
Lemma equal_transit_times_zero_velocity_witness :
  (calculate_path_velocity sin_sample (Some (square_path 40))
     (Some {| t_upstream := 2; t_downstream := 2 |}) =? 0)%float = true.
Proof.
  exact (proj2 (equal_transit_times_zero_velocity sin_sample (square_path 40)
                  {| t_upstream := 2; t_downstream := 2 |} eq_refl)
           eq_refl eq_refl eq_refl).
Defined.

(** X2.  The guards do not reject NaN: when no guard fires and a transit
    time, the path length or the sine of the angle is NaN, the result of
    [calculate_path_velocity] is NaN, not the 0.0 fallback. *)
Theorem nan_input_gives_nan_velocity (sin : float -> float)
    (p : AcousticPath) (ms : PathMeasurement) :
  (t_upstream ms <=? 0)%float = false ->
  (t_downstream ms <=? 0)%float = false ->
  (sin (angle p) =? 0)%float = false ->
  is_nan (t_upstream ms) || is_nan (t_downstream ms)
    || is_nan (length p) || is_nan (sin (angle p)) = true ->
  is_nan (calculate_path_velocity sin (Some p) (Some ms)) = true.
Proof.
  intros Hu Hd Hs Hnan. unfold calculate_path_velocity. rewrite Hu, Hd, Hs. cbn [orb].
  apply is_nan_spec.
  rewrite !FloatAxioms.mul_spec, !FloatAxioms.div_spec, FloatAxioms.sub_spec,
    !FloatAxioms.mul_spec.
  repeat (apply orb_true_iff in Hnan as [Hnan | Hnan]); apply is_nan_spec in Hnan;
    rewrite Hnan.
  - cbn. apply SFmul_nan_r.
  - rewrite SFsub_nan_r. cbn. apply SFmul_nan_r.
  - reflexivity.
  - rewrite SFmul_nan_r, SFdiv_nan_r. reflexivity.
Qed.

(** The theorem above at a NaN upstream transit time. *)
Lemma nan_input_gives_nan_velocity_witness :
  is_nan (calculate_path_velocity sin_sample (Some (square_path 40))
            (Some {| t_upstream := nan; t_downstream := 1 |})) = true.
Proof.
  exact (nan_input_gives_nan_velocity sin_sample (square_path 40)
           {| t_upstream := nan; t_downstream := 1 |} eq_refl eq_refl eq_refl eq_refl).
Defined.

(** ** The result's storage over its lifetime *)

Section LifetimeFacts.
Variable sin : float -> float.

Lemma flowmeter_process_success config measurements m r m' :
  flowmeter_process sin config measurements m = Some (Some r, m') ->
  exists c ms,
    config = Some c /\ measurements = Some ms /\
    (sizeof_FlowResult <= avail m)%N /\ objs m !! r = None /\
    calculate_flow_rate sin (Some c) (Some ms) (Some r)
      {| objs := <[r := Obj_FlowResult {| path_velocities := None;
                                          volumetric_flow := None |}]> (objs m);
         avail := avail m - sizeof_FlowResult |} = Some (0%Z, m').
Proof.
  intros H. destruct config as [c|], measurements as [ms|]; try discriminate.
  exists c, ms. unfold flowmeter_process in H.
  apply bind_Some in H as ([r0|] & m1 & Hmalloc & H); [|discriminate].
  apply malloc_Some in Hmalloc as (Hle & Hfresh & ->).
  apply bind_Some in H as (rc & m2 & Hrun & H).
  destruct (Z.eqb_spec rc 0) as [->|Hrc].
  - injection H as <- <-. auto.
  - apply bind_Some in H as (u & m3 & _ & H). discriminate.
Qed.

Lemma flowmeter_result_free_success r m m' :
  flowmeter_result_free (Some r) m = Some (tt, m') ->
  objs m' !! r = None.
Proof.
  unfold flowmeter_result_free. intros H.
  apply bind_Some in H as (pv & m1 & _ & H).
  apply bind_Some in H as (u & m2 & _ & H).
  unfold free in H. destruct (objs m2 !! r); [|discriminate].
  injection H as <-. cbn [objs]. apply lookup_delete_eq.
Qed.

End LifetimeFacts.

Lemma released_objects (live : gmap addr object) r a x y z :
  live !! r = None ->
  <[r := z]> live !! a = None ->
  delete r (delete a (<[r := x]> (<[a := y]> (<[r := z]> live)))) = live.
Proof.
  intros Hr Ha. apply map_eq. intros i.
  destruct (decide (i = r)) as [->|Hir].
  - now rewrite lookup_delete_eq, Hr.
  - rewrite lookup_delete_ne by congruence.
    destruct (decide (i = a)) as [->|Hia].
    + rewrite lookup_delete_eq. rewrite lookup_insert_ne in Ha by congruence.
      now rewrite Ha.
    + rewrite lookup_delete_ne, !lookup_insert_ne by congruence. reflexivity.
Qed.

(** X3.  Releasing the result that [flowmeter_process] returned gives back
    exactly the memory [flowmeter_process] started from: the aggregate and
    the velocity array are both freed, all their bytes are available
    again, and no other object has changed. *)
Theorem process_then_free_restores_memory (sin : float -> float)
    (config : option FlowMeterConfig)
    (measurements : option (list PathMeasurement)) (m m' : memory) (r : addr) :
  flowmeter_process sin config measurements m = Some (Some r, m') ->
  flowmeter_result_free (Some r) m' = Some (tt, m).
Proof.
  intros H.
  apply flowmeter_process_success in H as (c & ms & -> & -> & Hle & Hfresh & H).
  apply calculate_flow_rate_success in H
    as (ps & Hps & Hz & Hlp & Hlm & Hav & -> & _).
  cbn [objs avail] in *.
  set (n := N.to_nat (num_paths c)) in *.
  set (vs := velocities_of sin (take n ps) (take n ms)).
  set (fr0 := {| path_velocities := None; volumetric_flow := None |}).
  set (a := fresh (dom (<[r := Obj_FlowResult fr0]> (objs m)))).
  assert (Ha : (<[r := Obj_FlowResult fr0]> (objs m)) !! a = None)
    by (apply not_elem_of_dom, is_fresh).
  assert (Hne : a <> r) by (intros E; rewrite E, lookup_insert_eq in Ha; discriminate).
  assert (Hne' : r <> a) by (intros E; now apply Hne).
  unfold flowmeter_result_free, bind.
  erewrite load_path_velocities_at;
    [|unfold result_memory; cbn [objs]; apply lookup_insert_eq|reflexivity].
  unfold free, result_memory. cbn [objs avail].
  rewrite lookup_insert_ne, lookup_insert_eq by exact Hne'.
  cbn [objs avail].
  rewrite lookup_delete_ne, lookup_insert_eq by exact Hne.
  f_equal. f_equal.
  rewrite (released_objects (objs m) r a _ _ _ Hfresh Ha).
  cbn [size_of]. rewrite length_fmap. unfold vs.
  rewrite velocities_of_length by assumption. unfold n. rewrite N2Nat.id.
  replace (avail m - sizeof_FlowResult - num_paths c * sizeof_double
           + sizeof_double * num_paths c + sizeof_FlowResult)%N with (avail m) by lia.
  apply memory_eta.
Qed.

(** The theorem above at the one-path configuration with 24 bytes
    available. *)
Lemma process_then_free_restores_memory_witness :
  flowmeter_result_free (Some 1%positive)
    (final_memory (flowmeter_process sin_sample (Some (square_config 40))
                     (Some square_measurements) (empty_memory 24)) (empty_memory 24))
  = Some (tt, empty_memory 24).
Proof.
  apply (process_then_free_restores_memory sin_sample (Some (square_config 40))
           (Some square_measurements)).
  vm_compute. reflexivity.
Defined.

(** X4.  A result can be released once only: after a successful
    [flowmeter_result_free], a second call on the same pointer is
    undefined behaviour (it reads freed storage). *)
Theorem second_free_is_undefined (r : addr) (m m' : memory) :
  flowmeter_result_free (Some r) m = Some (tt, m') ->
  flowmeter_result_free (Some r) m' = None.
Proof.
  intros H. apply flowmeter_result_free_success in H.
  unfold flowmeter_result_free, bind, load_path_velocities, bind, load_result.
  now rewrite H.
Qed.

(** The theorem above at a populated one-path result. *)
Lemma second_free_is_undefined_witness :
  flowmeter_result_free (Some 1%positive) (empty_memory 24) = None.
Proof.
  apply (second_free_is_undefined 1%positive populated_memory (empty_memory 24)).
  vm_compute. reflexivity.
Defined.

(** ** What [calculate_flow_rate] touches, and what it trusts *)



Lemma success_guard_false sin c ms r m m' :
  calculate_flow_rate sin (Some c) (Some ms) (Some r) m = Some (0%Z, m') ->
  (num_paths c =? 0)%N || is_null (paths c) = false.
Proof.
  intros H. destruct (_ || _) eqn:Hg; [|reflexivity].
  unfold calculate_flow_rate in H. rewrite Hg in H. discriminate.
Qed.

Lemma velocities_pointer_result_memory m r a vs q sz :
  velocities_pointer (result_memory m r a vs q sz) r = Some a.
Proof.
  unfold velocities_pointer, result_memory. cbn [objs].
  now rewrite lookup_insert_eq.
Qed.

(** X6.  [calculate_flow_rate] does not release a velocity array that the
    result already holds: after two successful calls on the same result
    object the array of the first call is still allocated and unchanged,
    while the result points to a different, second array. *)
Theorem second_call_abandons_first_array (sin : float -> float)
    (c1 c2 : FlowMeterConfig) (ms1 ms2 : list PathMeasurement)
    (r : addr) (m m1 m2 : memory) :
  calculate_flow_rate sin (Some c1) (Some ms1) (Some r) m = Some (0%Z, m1) ->
  calculate_flow_rate sin (Some c2) (Some ms2) (Some r) m1 = Some (0%Z, m2) ->
  exists a1 a2,
    velocities_pointer m1 r = Some a1 /\
    velocities_pointer m2 r = Some a2 /\
    a1 <> a2 /\
    is_Some (objs m1 !! a1) /\
    objs m2 !! a1 = objs m1 !! a1.
Proof.
  intros H1 H2.
  destruct (calculate_flow_rate_valid_result sin _ _ _ _ _ _ H1
              (success_guard_false _ _ _ _ _ _ H1)) as [fr0 Hfr0].
  pose proof (fresh_not_live m r _ Hfr0) as Hne1.
  apply calculate_flow_rate_success in H1 as (ps1 & _ & _ & _ & _ & _ & -> & _).
  apply calculate_flow_rate_success in H2 as (ps2 & _ & _ & _ & _ & _ & -> & _).
  set (a1 := fresh (dom (objs m))) in *.
  set (m1 := result_memory m r a1 _ _ _) in *.
  set (a2 := fresh (dom (objs m1))).
  assert (Ha1 : is_Some (objs m1 !! a1)).
  { unfold m1, result_memory. cbn [objs].
    rewrite lookup_insert_ne, lookup_insert_eq by congruence. eauto. }
  assert (Hne2 : a2 <> a1) by (destruct Ha1 as [o Ho]; eapply fresh_not_live, Ho).
  exists a1, a2. split; [apply velocities_pointer_result_memory|].
  split; [apply velocities_pointer_result_memory|].
  split; [congruence|]. split; [exact Ha1|].
  unfold result_memory at 1. cbn [objs].
  now rewrite !lookup_insert_ne by congruence.
Qed.

(** The theorem above at two runs of the one-path configuration with 16
    bytes available. *)
Lemma second_call_abandons_first_array_witness :
  exists a1 a2,
    velocities_pointer after_one_run 1%positive = Some a1 /\
    velocities_pointer after_two_runs 1%positive = Some a2 /\
    a1 <> a2 /\
    is_Some (objs after_one_run !! a1) /\
    objs after_two_runs !! a1 = objs after_one_run !! a1.
Proof.
  apply (second_call_abandons_first_array sin_sample (square_config 40) (square_config 40)
           square_measurements square_measurements 1%positive (caller_memory 16)).
  - vm_compute. reflexivity.
  - vm_compute. reflexivity.
Defined.

(** X7.  [calculate_flow_rate] does not check the lengths of its
    sequences: with a valid result, a non-zero path count, the paths
    present and the velocity array allocated, fewer than [num_paths] paths
    or measurements make it read out of bounds (undefined behaviour). *)
Theorem short_sequences_are_undefined (sin : float -> float)
    (c : FlowMeterConfig) (ps : list AcousticPath) (ms : list PathMeasurement)
    (r : addr) (fr : FlowResult) (m : memory) :
  objs m !! r = Some (Obj_FlowResult fr) ->
  num_paths c <> 0%N ->
  paths c = Some ps ->
  (num_paths c * sizeof_double <= avail m)%N ->
  List.length ps < N.to_nat (num_paths c) \/ List.length ms < N.to_nat (num_paths c) ->
  calculate_flow_rate sin (Some c) (Some ms) (Some r) m = None.
Proof.
  intros Hr Hz Hps Hav Hshort.
  rewrite (calculate_flow_rate_run sin c ms r m fr Hr), Hps.
  apply N.eqb_neq in Hz. rewrite Hz. apply N.leb_le in Hav. rewrite Hav.
  cbn [orb is_null]. cbn zeta. apply decide_False. lia.
Qed.

(** The theorem above at a configuration that announces one path and a
    measurement sequence that is empty. *)
Lemma short_sequences_are_undefined_witness :
  calculate_flow_rate sin_sample (Some (square_config 40)) (Some [])
    (Some 1%positive) (caller_memory 8) = None.
Proof.
  apply (short_sequences_are_undefined sin_sample (square_config 40) [square_path 40] []
           1%positive {| path_velocities := None; volumetric_flow := None |}
           (caller_memory 8)).
  - reflexivity.
  - discriminate.
  - reflexivity.
  - now vm_compute.
  - right. vm_compute. lia.
Defined.

(** ** What a successful [flowmeter_process] leaves behind *)

(** X8.  A successful [flowmeter_process] returns a pointer that was not
    live before.  The memory it leaves is the initial memory plus exactly
    two new objects, the aggregate and an array of the [num_paths] path
    velocities in path order, with the flow set to the area times their
    weighted sum, and with [sizeof(FlowResult) + num_paths * sizeof(double)]
    bytes fewer available. *)
Theorem flowmeter_process_allocates_result (sin : float -> float)
    (c : FlowMeterConfig) (ms : list PathMeasurement) (m m' : memory) (r : addr) :
  flowmeter_process sin (Some c) (Some ms) m = Some (Some r, m') ->
  exists ps a,
    let n := N.to_nat (num_paths c) in
    let vs := velocities_of sin (take n ps) (take n ms) in
    paths c = Some ps /\
    objs m !! r = None /\ objs m !! a = None /\ a <> r /\
    List.length vs = n /\
    m' = result_memory m r a vs (flow_of c (take n ps) vs) (bytes_needed c).
Proof.
  intros H.
  apply flowmeter_process_success in H as (c' & ms' & [= <-] & [= <-] & Hle & Hfresh & H).
  apply calculate_flow_rate_success in H
    as (ps & Hps & Hz & Hlp & Hlm & Hav & -> & _).
  cbn [objs avail] in *.
  set (fr0 := {| path_velocities := None; volumetric_flow := None |}).
  set (a := fresh (dom (<[r := Obj_FlowResult fr0]> (objs m)))).
  assert (Ha : (<[r := Obj_FlowResult fr0]> (objs m)) !! a = None)
    by (apply not_elem_of_dom, is_fresh).
  assert (Hne : a <> r) by (intros E; rewrite E, lookup_insert_eq in Ha; discriminate).
  exists ps, a. cbn zeta.
  split; [exact Hps|]. split; [exact Hfresh|].
  split; [now rewrite lookup_insert_ne in Ha by congruence|].
  split; [exact Hne|]. split; [now apply velocities_of_length|].
  unfold result_memory, bytes_needed. cbn [objs avail]. f_equal.
  - rewrite (insert_insert_ne _ a r) by exact Hne. now rewrite insert_insert_eq.
  - lia.
Qed.

(** The theorem above at the one-path configuration with 24 bytes
    available. *)
Lemma flowmeter_process_allocates_result_witness :
  exists ps a,
    let vs := velocities_of sin_sample (take 1 ps) (take 1 square_measurements) in
    paths (square_config 40) = Some ps /\
    objs (empty_memory 24) !! 1%positive = None /\
    objs (empty_memory 24) !! a = None /\ a <> 1%positive /\
    List.length vs = 1 /\
    final_memory (flowmeter_process sin_sample (Some (square_config 40))
                    (Some square_measurements) (empty_memory 24)) (empty_memory 24)
      = result_memory (empty_memory 24) 1%positive a vs
          (flow_of (square_config 40) (take 1 ps) vs) (bytes_needed (square_config 40)).
Proof.
  apply (flowmeter_process_allocates_result sin_sample (square_config 40)
           square_measurements (empty_memory 24)).
  vm_compute. reflexivity.
Defined.

Lemma velocities_of_same_geometry sin ps ps' :
  Forall2 same_geometry ps ps' ->
  forall ms, velocities_of sin ps ms = velocities_of sin ps' ms.
Proof.
  induction 1 as [|p p' ps ps' (Ha & Hl & _) _ IH]; intros [|mi ms]; try reflexivity.
  unfold velocities_of. cbn [zip_with]. f_equal; [|apply IH].
  unfold calculate_path_velocity. now rewrite Ha, Hl.
Qed.

Lemma weights_of_same_geometry ps ps' :
  Forall2 same_geometry ps ps' -> weight <$> ps = weight <$> ps'.
Proof.
  induction 1 as [|p p' ps ps' (_ & _ & Hw) _ IH]; [reflexivity|].
  cbn [fmap list_fmap]. f_equal; [exact Hw | exact IH].
Qed.

(** X9.  The [position] field of a path is never read: two successful
    runs on the same measurements whose configurations agree on the
    diameter, the path count and the angle, length and weight of each of
    the first [num_paths] paths leave equal velocities and equal flows,
    whatever the positions are. *)
Theorem position_is_never_read (sin : float -> float)
    (c1 c2 : FlowMeterConfig) (ps1 ps2 : list AcousticPath)
    (ms : list PathMeasurement) (r1 r2 : addr) (m1 m2 m1' m2' : memory)
    (vs1 vs2 : list float) (q1 q2 : float) :
  pipe_diameter c1 = pipe_diameter c2 ->
  num_paths c1 = num_paths c2 ->
  paths c1 = Some ps1 ->
  paths c2 = Some ps2 ->
  Forall2 same_geometry (take (N.to_nat (num_paths c1)) ps1)
                        (take (N.to_nat (num_paths c1)) ps2) ->
  calculate_flow_rate sin (Some c1) (Some ms) (Some r1) m1 = Some (0%Z, m1') ->
  calculate_flow_rate sin (Some c2) (Some ms) (Some r2) m2 = Some (0%Z, m2') ->
  holds_result m1' r1 vs1 q1 ->
  holds_result m2' r2 vs2 q2 ->
  vs1 = vs2 /\ q1 = q2.
Proof.
  intros Hd Hn Hp1 Hp2 Hgeo H1 H2 Hv1 Hv2.
  apply calculate_flow_rate_success in H1 as (ps1' & Hp1' & _ & _ & _ & _ & _ & Hr1).
  apply calculate_flow_rate_success in H2 as (ps2' & Hp2' & _ & _ & _ & _ & _ & Hr2).
  rewrite Hp1 in Hp1'. injection Hp1' as <-.
  rewrite Hp2 in Hp2'. injection Hp2' as <-.
  rewrite <- Hn in Hr2.
  rewrite <- (velocities_of_same_geometry sin _ _ Hgeo) in Hr2.
  set (n := N.to_nat (num_paths c1)) in *.
  set (vs := velocities_of sin (take n ps1) (take n ms)) in *.
  assert (Hq : flow_of c2 (take n ps2) vs = flow_of c1 (take n ps1) vs).
  { unfold flow_of, area_of, weighted_sum. rewrite Hd. f_equal.
    apply weighted_fold_same_weights, weights_of_same_geometry, Hgeo. }
  rewrite Hq in Hr2.
  destruct (holds_result_unique _ _ _ _ _ _ Hv1 Hr1) as [-> ->].
  destruct (holds_result_unique _ _ _ _ _ _ Hv2 Hr2) as [-> ->].
  split; reflexivity.
Qed.

(** The theorem above at two one-path configurations that differ in the
    position only. *)
Lemma position_is_never_read_witness :
  [10%float] = [10%float] /\ 0.078539816339744828%float = 0.078539816339744828%float.
Proof.
  apply (position_is_never_read sin_sample
           (square_config 40)
           {| pipe_diameter := 0.1; num_paths := 1;
              paths := Some [ {| position := 0.75; angle := M_PI / 2;
                                 length := 40; weight := 1 |} ] |}
           [square_path 40]
           [ {| position := 0.75; angle := M_PI / 2; length := 40; weight := 1 |} ]
           square_measurements 1%positive 1%positive (caller_memory 8) (caller_memory 8)
           (final_memory (calculate_flow_rate sin_sample (Some (square_config 40))
                            (Some square_measurements) (Some 1%positive) (caller_memory 8))
              (caller_memory 8))
           (final_memory (calculate_flow_rate sin_sample (Some (square_config 40))
                            (Some square_measurements) (Some 1%positive) (caller_memory 8))
              (caller_memory 8))).
  - reflexivity.
  - reflexivity.
  - reflexivity.
  - reflexivity.
  - constructor; [repeat split|constructor].
  - vm_compute. reflexivity.
  - vm_compute. reflexivity.
  - vm_compute. reflexivity.
  - vm_compute. reflexivity.
Defined.

(** * The demonstration program *)

(** ** Running the program's monad *)

Lemma program_state_eta (s : program_state) :
  {| meter := meter s; own := own s; console := console s |} = s.
Proof. now destruct s. Qed.

Lemma pbind_Some {A B} (c : P A) (k : A -> P B) s b s' :
  pbind c k s = Some (b, s') <->
  exists a s1, c s = Some (a, s1) /\ k a s1 = Some (b, s').
Proof.
  unfold pbind. split.
  - destruct (c s) as [[a s1]|]; [eauto | discriminate].
  - intros (a & s1 & -> & H). exact H.
Qed.

Lemma load_config_at cfg c s :
  own s !! cfg = Some (Obj_config c) -> load_config cfg s = Some (c, s).
Proof. intros H. unfold load_config. now rewrite H. Qed.

Lemma update_config_at cfg c c' s :
  own s !! cfg = Some (Obj_config c) ->
  store_config cfg c' s =
    Some (tt, {| meter := meter s; own := <[cfg := Obj_config c']> (own s);
                 console := console s |}).
Proof. intros H. unfold store_config. now rewrite H. Qed.

Lemma get_paths_at cfg c p s :
  own s !! cfg = Some (Obj_config c) -> cell_paths c = Some p ->
  get_paths cfg s = Some (p, s).
Proof.
  intros H Hp. unfold get_paths, pbind. rewrite (load_config_at _ _ _ H), Hp.
  reflexivity.
Qed.

(** The four field stores into [paths[i]], on a state whose array at [b]
    holds [cells]. *)
Section PathStores.
Variables (s : program_state) (cfg b : addr) (c : config_cell)
  (cells : list path_cell) (i : nat) (cell : path_cell).
Hypothesis Hcfg : own s !! cfg = Some (Obj_config c).
Hypothesis Hb : cell_paths c = Some (Some b).
Hypothesis Hne : b <> cfg.
Hypothesis Hcell : cells !! i = Some cell.

Lemma get_paths_on : get_paths cfg (with_paths_array s b cells) =
  Some (Some b, with_paths_array s b cells).
Proof.
  apply (get_paths_at cfg c); [|exact Hb].
  unfold with_paths_array. cbn [own]. now rewrite lookup_insert_ne.
Qed.

Lemma load_path_cell_on :
  load_path_cell (Some b) i (with_paths_array s b cells) =
    Some (cell, with_paths_array s b cells).
Proof.
  unfold load_path_cell, with_paths_array. cbn [own].
  now rewrite lookup_insert_eq, Hcell.
Qed.

Lemma store_path_cell_on cell' :
  store_path_cell (Some b) i cell' (with_paths_array s b cells) =
    Some (tt, with_paths_array s b (<[i := cell']> cells)).
Proof.
  unfold store_path_cell, with_paths_array. cbn [own meter console].
  rewrite lookup_insert_eq. apply lookup_lt_Some in Hcell.
  now rewrite decide_True, insert_insert_eq.
Qed.

Lemma set_position_on v :
  set_position cfg i v (with_paths_array s b cells) =
    Some (tt, with_paths_array s b
      (<[i := {| cell_position := Some v; cell_angle := cell_angle cell;
                 cell_length := cell_length cell; cell_weight := cell_weight cell |}]>
         cells)).
Proof.
  unfold set_position, pbind.
  now rewrite get_paths_on, load_path_cell_on, store_path_cell_on.
Qed.

Lemma set_angle_on v :
  set_angle cfg i v (with_paths_array s b cells) =
    Some (tt, with_paths_array s b
      (<[i := {| cell_position := cell_position cell; cell_angle := Some v;
                 cell_length := cell_length cell; cell_weight := cell_weight cell |}]>
         cells)).
Proof.
  unfold set_angle, pbind.
  now rewrite get_paths_on, load_path_cell_on, store_path_cell_on.
Qed.

Lemma set_length_on v :
  set_length cfg i v (with_paths_array s b cells) =
    Some (tt, with_paths_array s b
      (<[i := {| cell_position := cell_position cell; cell_angle := cell_angle cell;
                 cell_length := Some v; cell_weight := cell_weight cell |}]>
         cells)).
Proof.
  unfold set_length, pbind.
  now rewrite get_paths_on, load_path_cell_on, store_path_cell_on.
Qed.

Lemma set_weight_on v :
  set_weight cfg i v (with_paths_array s b cells) =
    Some (tt, with_paths_array s b
      (<[i := {| cell_position := cell_position cell; cell_angle := cell_angle cell;
                 cell_length := cell_length cell; cell_weight := Some v |}]>
         cells)).
Proof.
  unfold set_weight, pbind.
  now rewrite get_paths_on, load_path_cell_on, store_path_cell_on.
Qed.

End PathStores.

(** ** [create_2path_config], [create_4path_config] and [free_config] *)

Lemma program_state_restored (s : program_state) sz cfg o :
  (sz <= avail (meter s))%N ->
  own s !! cfg = None ->
  {| meter := {| objs := objs (meter s); avail := avail (meter s) - sz + sz |};
     own := delete cfg (<[cfg := o]> (own s));
     console := console s |} = s.
Proof.
  intros Hle Hfresh. rewrite N.sub_add by exact Hle.
  rewrite delete_insert_eq, delete_id by exact Hfresh.
  rewrite memory_eta. apply program_state_eta.
Qed.

(** The steps of a constructor up to the first field store of a path. *)
Ltac config_header cfg :=
  unfold pbind at 1, pmalloc;
  match goal with
  | |- context [(sizeof_FlowMeterConfig <=? ?a)%N] =>
      destruct (N.leb_spec sizeof_FlowMeterConfig a) as [Hle|Hlt]
  end;
  [ set (cfg := fresh (dom (own _)));
    unfold pbind at 1, set_pipe_diameter, pbind at 1;
    erewrite load_config_at by (cbn [own]; apply lookup_insert_eq);
    erewrite update_config_at by (cbn [own]; apply lookup_insert_eq);
    cbn [own meter console]; rewrite insert_insert_eq;
    unfold pbind at 1, set_num_paths, pbind at 1;
    erewrite load_config_at by (cbn [own]; apply lookup_insert_eq);
    erewrite update_config_at by (cbn [own]; apply lookup_insert_eq);
    cbn [own meter console cell_pipe_diameter cell_num_paths cell_paths];
    rewrite insert_insert_eq
  | ].

(** From the allocation of the paths array to the first field store:
    either the array is refused and the structure is released, or the
    state holds the array at a fresh [b]. *)
Ltac config_paths s cfg b Hb Hle Hle2 Hlt2 :=
  unfold pbind at 1, pmalloc; cbn [meter avail own objs console];
  match goal with
  | |- context [(?n * sizeof_AcousticPath <=? ?a)%N] =>
      destruct (N.leb_spec (n * sizeof_AcousticPath) a) as [Hle2|Hlt2]
  end;
  [ rewrite dom_insert_L; set (b := fresh ({[cfg]} ∪ dom (own s)));
    assert (Hb : b <> cfg)
      by (pose proof (is_fresh ({[cfg]} ∪ dom (own s))); set_solver);
    unfold pbind at 1, set_paths, pbind at 1;
    erewrite load_config_at
      by (cbn [own]; rewrite lookup_insert_ne by exact Hb; apply lookup_insert_eq);
    erewrite update_config_at
      by (cbn [own]; rewrite lookup_insert_ne by exact Hb; apply lookup_insert_eq);
    cbn [own meter console cell_pipe_diameter cell_num_paths cell_paths];
    rewrite (insert_insert_ne _ cfg b) by congruence;
    rewrite insert_insert_eq;
    match goal with
    | |- ?f {| meter := ?m; own := <[b := Obj_paths ?cells]> ?o; console := ?k |} = ?rhs =>
        change (f (with_paths_array {| meter := m; own := o; console := k |} b cells)
                = rhs)
    end;
    unfold pbind at 1;
    erewrite get_paths_on;
      [ | cbn [own]; apply lookup_insert_eq | reflexivity | exact Hb ];
    cbn [is_null]
  | unfold pbind at 1, set_paths, pbind at 1;
    erewrite load_config_at by (cbn [own]; apply lookup_insert_eq);
    erewrite update_config_at by (cbn [own]; apply lookup_insert_eq);
    cbn [own meter console cell_pipe_diameter cell_num_paths cell_paths];
    rewrite insert_insert_eq;
    unfold pbind at 1;
    erewrite get_paths_at by (first [cbn [own]; apply lookup_insert_eq | reflexivity]);
    cbn [is_null free_ptr]; unfold pbind at 1, pfree; cbn [own meter console objs avail];
    rewrite lookup_insert_eq; cbn [demo_size_of]; unfold pret;
    rewrite program_state_restored
      by (first [exact Hle | apply not_elem_of_dom, is_fresh]) ].

(** One field store into the paths array. *)
Ltac store_path_field Hb :=
  unfold pbind at 1;
  first [ erewrite set_position_on | erewrite set_angle_on
        | erewrite set_length_on | erewrite set_weight_on ];
  [ | cbn [own]; apply lookup_insert_eq | reflexivity | exact Hb | reflexivity ].

Section CreateFacts.
Variable sin : float -> float.

Lemma create_2path_config_run d s :
  create_2path_config sin d s =
    if (config_bytes 2 <=? avail (meter s))%N then
      let cfg := fresh (dom (own s)) in
      let b := fresh ({[cfg]} ∪ dom (own s)) in
      match paths (preset_2path sin d) with
      | Some ps => Some (Some cfg, with_config s cfg b (preset_2path sin d) ps (config_bytes 2))
      | None => None
      end
    else Some (None, s).
Proof.
  unfold create_2path_config. config_header cfg.
  - config_paths s cfg b Hb Hle Hle2 Hlt2.
    + do 8 store_path_field Hb.
      unfold pret. rewrite (proj2 (N.leb_le _ _)) by (unfold config_bytes; lia).
      cbn [preset_2path paths]. fold cfg b. f_equal. f_equal.
      unfold with_paths_array, with_config. cbn [meter own console].
      f_equal. f_equal. unfold config_bytes. lia.
    + rewrite (proj2 (N.leb_gt _ _)) by (unfold config_bytes; lia). reflexivity.
  - rewrite (proj2 (N.leb_gt _ _)) by (unfold config_bytes, sizeof_AcousticPath; lia).
    reflexivity.
Qed.

Lemma create_4path_config_run d s :
  create_4path_config sin d s =
    if (config_bytes 4 <=? avail (meter s))%N then
      let cfg := fresh (dom (own s)) in
      let b := fresh ({[cfg]} ∪ dom (own s)) in
      match paths (preset_4path sin d) with
      | Some ps => Some (Some cfg, with_config s cfg b (preset_4path sin d) ps (config_bytes 4))
      | None => None
      end
    else Some (None, s).
Proof.
  unfold create_4path_config. config_header cfg.
  - config_paths s cfg b Hb Hle Hle2 Hlt2.
    + do 16 store_path_field Hb.
      unfold pret. rewrite (proj2 (N.leb_le _ _)) by (unfold config_bytes; lia).
      cbn [preset_4path paths]. fold cfg b. f_equal. f_equal.
      unfold with_paths_array, with_config. cbn [meter own console].
      f_equal. f_equal. unfold config_bytes. lia.
    + rewrite (proj2 (N.leb_gt _ _)) by (unfold config_bytes; lia). reflexivity.
  - rewrite (proj2 (N.leb_gt _ _)) by (unfold config_bytes, sizeof_AcousticPath; lia).
    reflexivity.
Qed.

End CreateFacts.

Lemma mapM_path_value ps : mapM path_value (cell_of_path <$> ps) = Some ps.
Proof.
  induction ps as [|[po an le we] ps IH]; [reflexivity|].
  cbn. rewrite IH. reflexivity.
Qed.

Lemma mapM_measurement_value ms :
  mapM measurement_value (cell_of_measurement <$> ms) = Some ms.
Proof.
  induction ms as [|[u d] ms IH]; [reflexivity|].
  cbn. rewrite IH. reflexivity.
Qed.

(** The value of a fully built configuration. *)
Lemma view_config_at s cfg b d n ps :
  own s !! cfg = Some (Obj_config {| cell_pipe_diameter := Some d;
                                     cell_num_paths := Some n;
                                     cell_paths := Some (Some b) |}) ->
  own s !! b = Some (Obj_paths (cell_of_path <$> ps)) ->
  view_config (Some cfg) s =
    Some (Some {| pipe_diameter := d; num_paths := n; paths := Some ps |}, s).
Proof.
  intros Hcfg Hb. unfold view_config, pbind.
  rewrite (load_config_at _ _ _ Hcfg). cbn [determinate cell_pipe_diameter
    cell_num_paths cell_paths]. unfold pret, view_paths.
  now rewrite Hb, mapM_path_value.
Qed.

Lemma view_measurements_at s a ms :
  own s !! a = Some (Obj_measurements (cell_of_measurement <$> ms)) ->
  view_measurements (Some a) s = Some (Some ms, s).
Proof. intros Ha. unfold view_measurements. now rewrite Ha, mapM_measurement_value. Qed.

(** [free_config] on a state whose configuration at [cfg] owns the paths
    array at [b]: both are released. *)
Lemma free_config_at s cfg b c cells live :
  own s = <[b := Obj_paths cells]> (<[cfg := Obj_config c]> live) ->
  cell_paths c = Some (Some b) ->
  b <> cfg ->
  free_config (Some cfg) s =
    Some (tt, {| meter := {| objs := objs (meter s);
                             avail := avail (meter s)
                                      + sizeof_AcousticPath * N.of_nat (List.length cells)
                                      + sizeof_FlowMeterConfig |};
                 own := delete cfg (delete b live);
                 console := console s |}).
Proof.
  intros Hown Hp Hne. unfold free_config, pbind.
  erewrite get_paths_at;
    [|rewrite Hown, lookup_insert_ne by exact Hne; apply lookup_insert_eq|exact Hp].
  cbn [is_null free_ptr]. unfold pfree. rewrite Hown, lookup_insert_eq.
  cbn [own meter console objs avail demo_size_of].
  rewrite delete_insert_eq, lookup_delete_ne, lookup_insert_eq by exact Hne.
  cbn [demo_size_of]. do 3 f_equal.
  now rewrite delete_insert_ne, delete_insert_eq by congruence.
Qed.

Lemma with_config_view s cfg b c ps sz :
  paths c = Some ps -> b <> cfg ->
  view_config (Some cfg) (with_config s cfg b c ps sz) =
    Some (Some c, with_config s cfg b c ps sz).
Proof.
  intros Hps Hne. destruct c as [d n p]. cbn in Hps. subst p.
  apply (view_config_at _ cfg b d n ps); unfold with_config; cbn [own].
  - rewrite lookup_insert_ne by exact Hne. apply lookup_insert_eq.
  - apply lookup_insert_eq.
Qed.

Lemma with_config_keeps s cfg b c ps sz a o :
  own s !! cfg = None -> own s !! b = None ->
  own s !! a = Some o -> own (with_config s cfg b c ps sz) !! a = Some o.
Proof.
  intros Hcfg Hb Ha. unfold with_config. cbn [own].
  rewrite !lookup_insert_ne; [exact Ha| |]; intros ->; congruence.
Qed.

Lemma fresh_pair {A} (live : gmap addr A) :
  let cfg := fresh (dom live) in
  let b := fresh ({[cfg]} ∪ dom live) in
  live !! cfg = None /\ live !! b = None /\ b <> cfg.
Proof.
  intros cfg b.
  pose proof (is_fresh (dom live)) as H1.
  pose proof (is_fresh ({[cfg]} ∪ dom live)) as H2. fold cfg in H1. fold b in H2.
  repeat split.
  - now apply not_elem_of_dom.
  - apply not_elem_of_dom. set_solver.
  - set_solver.
Qed.

Lemma with_config_free s cfg b c ps n :
  own s !! cfg = None -> own s !! b = None -> b <> cfg ->
  List.length ps = N.to_nat n ->
  (config_bytes n <= avail (meter s))%N ->
  free_config (Some cfg) (with_config s cfg b c ps (config_bytes n)) = Some (tt, s).
Proof.
  intros Hcfg Hb Hne Hlen Hle.
  erewrite free_config_at; [|unfold with_config; cbn [own]; reflexivity|reflexivity|exact Hne].
  unfold with_config. cbn [meter own console objs avail].
  rewrite length_fmap, Hlen, N2Nat.id, (delete_id _ b Hb), (delete_id _ cfg Hcfg).
  replace (avail (meter s) - config_bytes n + sizeof_AcousticPath * n
           + sizeof_FlowMeterConfig)%N with (avail (meter s))
    by (unfold config_bytes in *; lia).
  rewrite memory_eta. now rewrite program_state_eta.
Qed.

(** X10.  [create_2path_config d], given the 88 bytes of the structure and
    of two paths, returns a fresh configuration whose value is: diameter
    [d], two paths at positions 0.25 and -0.25, both at angle [M_PI/4], of
    length [d / sin(M_PI/4)] and weight 0.5.  It consumes exactly those
    bytes, prints nothing and leaves every other object alone.  With fewer
    bytes it returns the null pointer and leaves the state as it found it:
    a structure allocated before the array was refused is released. *)
Theorem create_2path_config_builds_preset (sin : float -> float) (d : float)
    (s : program_state) :
  ((config_bytes 2 <= avail (meter s))%N ->
   exists cfg s',
     create_2path_config sin d s = Some (Some cfg, s') /\
     own s !! cfg = None /\
     view_config (Some cfg) s' = Some (Some (preset_2path sin d), s') /\
     meter s' = {| objs := objs (meter s); avail := avail (meter s) - config_bytes 2 |} /\
     console s' = console s /\
     (forall a o, own s !! a = Some o -> own s' !! a = Some o))
  /\ ((avail (meter s) < config_bytes 2)%N ->
      create_2path_config sin d s = Some (None, s)).
Proof.
  rewrite create_2path_config_run.
  destruct (fresh_pair (own s)) as (Hcfg & Hb & Hne).
  split; intros H.
  - apply N.leb_le in H. rewrite H. cbn zeta. cbn [preset_2path paths].
    eexists _, _. split; [reflexivity|]. split; [exact Hcfg|].
    split; [now apply with_config_view|]. split; [reflexivity|]. split; [reflexivity|].
    intros a o. now apply with_config_keeps.
  - apply N.leb_gt in H. now rewrite H.
Qed.

(** The theorem above at a pipe of 0.1 m and 88 bytes. *)
Lemma create_2path_config_builds_preset_witness :
  exists cfg s',
    create_2path_config sin_sample 0.1 (initial_state 88) = Some (Some cfg, s') /\
    own (initial_state 88) !! cfg = None /\
    view_config (Some cfg) s' = Some (Some (preset_2path sin_sample 0.1), s') /\
    meter s' = {| objs := objs (meter (initial_state 88));
                  avail := avail (meter (initial_state 88)) - config_bytes 2 |} /\
    console s' = console (initial_state 88) /\
    (forall a o, own (initial_state 88) !! a = Some o -> own s' !! a = Some o).
Proof.
  apply (proj1 (create_2path_config_builds_preset sin_sample 0.1 (initial_state 88))).
  now vm_compute.
Defined.

(** X11.  [create_4path_config d], given the 152 bytes of the structure
    and of four paths, returns a fresh configuration whose value is:
    diameter [d], two paths at angle [M_PI/3] (positions 0.35 and -0.35) and
    two at angle [M_PI/4] (positions 0.15 and -0.15), each of length
    [d / sin(angle)] and weight 0.25.  It consumes exactly those bytes,
    prints nothing and leaves every other object alone.  With fewer bytes
    it returns the null pointer and leaves the state as it found it. *)
Theorem create_4path_config_builds_preset (sin : float -> float) (d : float)
    (s : program_state) :
  ((config_bytes 4 <= avail (meter s))%N ->
   exists cfg s',
     create_4path_config sin d s = Some (Some cfg, s') /\
     own s !! cfg = None /\
     view_config (Some cfg) s' = Some (Some (preset_4path sin d), s') /\
     meter s' = {| objs := objs (meter s); avail := avail (meter s) - config_bytes 4 |} /\
     console s' = console s /\
     (forall a o, own s !! a = Some o -> own s' !! a = Some o))
  /\ ((avail (meter s) < config_bytes 4)%N ->
      create_4path_config sin d s = Some (None, s)).
Proof.
  rewrite create_4path_config_run.
  destruct (fresh_pair (own s)) as (Hcfg & Hb & Hne).
  split; intros H.
  - apply N.leb_le in H. rewrite H. cbn zeta. cbn [preset_4path paths].
    eexists _, _. split; [reflexivity|]. split; [exact Hcfg|].
    split; [now apply with_config_view|]. split; [reflexivity|]. split; [reflexivity|].
    intros a o. now apply with_config_keeps.
  - apply N.leb_gt in H. now rewrite H.
Qed.

(** The theorem above at a pipe of 0.1 m and 100 bytes, too few. *)
Lemma create_4path_config_builds_preset_witness :
  create_4path_config sin_sample 0.1 (initial_state 100) = Some (None, initial_state 100).
Proof.
  apply (proj2 (create_4path_config_builds_preset sin_sample 0.1 (initial_state 100))).
  now vm_compute.
Defined.

(** X12.  [free_config] undoes either constructor: releasing the
    configuration that [create_2path_config] or [create_4path_config]
    returned gives back the state the constructor started from.  On the
    null pointer [free_config] does nothing. *)
Theorem free_config_releases_created (sin : float -> float) (d : float)
    (s s' : program_state) (cfg : addr) :
  free_config None s = Some (tt, s) /\
  (create_2path_config sin d s = Some (Some cfg, s') \/
   create_4path_config sin d s = Some (Some cfg, s') ->
   free_config (Some cfg) s' = Some (tt, s)).
Proof.
  split; [reflexivity|].
  destruct (fresh_pair (own s)) as (Hcfg & Hb & Hne).
  rewrite create_2path_config_run, create_4path_config_run.
  intros [H|H].
  - destruct (N.leb_spec (config_bytes 2) (avail (meter s))) as [Hle|]; [|discriminate].
    cbn zeta in H. cbn [preset_2path paths] in H. injection H as <- <-.
    now apply with_config_free.
  - destruct (N.leb_spec (config_bytes 4) (avail (meter s))) as [Hle|]; [|discriminate].
    cbn zeta in H. cbn [preset_4path paths] in H. injection H as <- <-.
    now apply with_config_free.
Qed.

(** The theorem above at the four-path configuration of a 0.1 m pipe. *)
Lemma free_config_releases_created_witness :
  free_config (Some 1%positive)
    (with_config (initial_state 152) 1%positive 2%positive (preset_4path sin_sample 0.1)
       (default [] (paths (preset_4path sin_sample 0.1))) (config_bytes 4))
  = Some (tt, initial_state 152).
Proof.
  apply (proj2 (free_config_releases_created sin_sample 0.1 (initial_state 152) _ 1%positive)).
  right. vm_compute. reflexivity.
Defined.

(** ** [simulate_measurements] *)

Lemma with_measurements_array_twice s a c1 c2 :
  with_measurements_array (with_measurements_array s a c1) a c2 =
  with_measurements_array s a c2.
Proof.
  unfold with_measurements_array. cbn [meter own console].
  now rewrite insert_insert_eq.
Qed.

Lemma with_measurements_array_id s a cells :
  own s !! a = Some (Obj_measurements cells) ->
  with_measurements_array s a cells = s.
Proof.
  intros H. unfold with_measurements_array. rewrite insert_id by exact H.
  apply program_state_eta.
Qed.

Lemma load_measurement_cell_on s a cells i cell :
  cells !! i = Some cell ->
  load_measurement_cell (Some a) i (with_measurements_array s a cells) =
    Some (cell, with_measurements_array s a cells).
Proof.
  intros H. unfold load_measurement_cell, with_measurements_array. cbn [own].
  now rewrite lookup_insert_eq, H.
Qed.

Lemma store_measurement_cell_on s a cells i cell :
  i < List.length cells ->
  store_measurement_cell (Some a) i cell (with_measurements_array s a cells) =
    Some (tt, with_measurements_array s a (<[i := cell]> cells)).
Proof.
  intros H. unfold store_measurement_cell. unfold with_measurements_array at 1.
  cbn [own meter console]. rewrite lookup_insert_eq.
  destruct (decide (i < List.length cells)); [|contradiction].
  unfold with_measurements_array. cbn [meter own console].
  now rewrite insert_insert_eq.
Qed.

Lemma set_t_upstream_on s a cells i cell x :
  cells !! i = Some cell ->
  set_t_upstream (Some a) i x (with_measurements_array s a cells) =
    Some (tt, with_measurements_array s a
                (<[i := {| cell_t_upstream := Some x;
                           cell_t_downstream := cell_t_downstream cell |}]> cells)).
Proof.
  intros H. unfold set_t_upstream, pbind.
  rewrite (load_measurement_cell_on _ _ _ _ _ H).
  apply store_measurement_cell_on. now apply lookup_lt_Some in H.
Qed.

Lemma set_t_downstream_on s a cells i cell x :
  cells !! i = Some cell ->
  set_t_downstream (Some a) i x (with_measurements_array s a cells) =
    Some (tt, with_measurements_array s a
                (<[i := {| cell_t_upstream := cell_t_upstream cell;
                           cell_t_downstream := Some x |}]> cells)).
Proof.
  intros H. unfold set_t_downstream, pbind.
  rewrite (load_measurement_cell_on _ _ _ _ _ H).
  apply store_measurement_cell_on. now apply lookup_lt_Some in H.
Qed.

Section SimulateFacts.
Variable sin : float -> float.

Lemma simulate_loop_run remaining :
  forall i a c ps v cells s,
    paths c = Some ps ->
    i + remaining <= List.length ps ->
    i + remaining <= List.length cells ->
    simulate_loop sin remaining i (Some a) c v (with_measurements_array s a cells) =
      Some (tt, with_measurements_array s a
                  (take i cells
                   ++ (cell_of_measurement <$> (simulated sin v <$> take remaining (drop i ps)))
                   ++ drop (i + remaining) cells)).
Proof.
  induction remaining as [|k IH]; intros i a c ps v cells s Hps Hi Hc.
  - simpl. unfold pret. now rewrite Nat.add_0_r, take_drop.
  - destruct (lookup_lt_is_Some_2 ps i) as [p Hp]; [lia|].
    destruct (lookup_lt_is_Some_2 cells i) as [cell Hcell]; [lia|].
    cbn [simulate_loop]. rewrite Hps. unfold pbind at 1. cbn [determinate]. unfold pret at 1.
    rewrite Hp. unfold pbind at 1. cbn [determinate]. unfold pret at 1.
    unfold pbind at 1. rewrite (set_t_upstream_on _ _ _ _ _ _ Hcell).
    unfold pbind at 1. erewrite set_t_downstream_on
      by (apply list_lookup_insert_eq; now apply lookup_lt_Some in Hcell).
    cbn [cell_t_upstream cell_t_downstream]. rewrite list_insert_insert_eq.
    rewrite (IH (S i) a c ps v _ s Hps) by (rewrite ?length_insert; lia).
    rewrite (drop_S ps p i Hp). cbn [take fmap list_fmap].
    do 3 f_equal.
    match goal with |- context [<[i := ?x]> cells] => set (new := x) end.
    rewrite (take_S_r _ i new)
      by (apply list_lookup_insert_eq; now apply lookup_lt_Some in Hcell).
    rewrite take_insert_ge by lia.
    rewrite drop_insert_lt by lia.
    rewrite <- app_assoc. replace (i + S k) with (S i + k) by lia. reflexivity.
Qed.

Lemma simulate_loop_bounds remaining :
  forall i a c v s res,
    simulate_loop sin remaining i (Some a) c v s = Some res ->
    remaining = 0 \/
    exists ps cells,
      paths c = Some ps /\ own s !! a = Some (Obj_measurements cells) /\
      i + remaining <= List.length ps /\ i + remaining <= List.length cells.
Proof.
  induction remaining as [|k IH]; intros i a c v s res H; [now left|right].
  cbn [simulate_loop] in H.
  destruct (paths c) as [ps|] eqn:Hps; [|discriminate].
  unfold pbind at 1 in H. cbn [determinate] in H. unfold pret at 1 in H.
  destruct (ps !! i) as [p|] eqn:Hp; [|discriminate].
  unfold pbind at 1 in H. cbn [determinate] in H. unfold pret at 1 in H.
  destruct (own s !! a) as [[| |cells]|] eqn:Ha;
    try (unfold pbind at 1, set_t_upstream, pbind, load_measurement_cell in H;
         rewrite Ha in H; discriminate).
  rewrite <- (with_measurements_array_id s a cells Ha) in H.
  destruct (cells !! i) as [cell|] eqn:Hcell.
  2:{ unfold pbind at 1, set_t_upstream, pbind, load_measurement_cell in H.
      unfold with_measurements_array in H. cbn [own] in H.
      rewrite lookup_insert_eq, Hcell in H. discriminate. }
  unfold pbind at 1 in H. rewrite (set_t_upstream_on _ _ _ _ _ _ Hcell) in H.
  unfold pbind at 1 in H. erewrite set_t_downstream_on in H
    by (apply list_lookup_insert_eq; now apply lookup_lt_Some in Hcell).
  apply lookup_lt_Some in Hp, Hcell.
  exists ps, cells. split; [reflexivity|]. split; [reflexivity|].
  apply IH in H as [->|(ps' & cells' & Hps' & Hc' & H1 & H2)]; [lia|].
  rewrite Hps in Hps'. injection Hps' as <-.
  unfold with_measurements_array in Hc'. cbn [own] in Hc'.
  rewrite lookup_insert_eq in Hc'. injection Hc' as <-.
  rewrite !length_insert in H2. lia.
Qed.

End SimulateFacts.

Lemma simulate_measurements_run (sin : float -> float) a c ps v cells s :
  own s !! a = Some (Obj_measurements cells) ->
  paths c = Some ps ->
  N.to_nat (num_paths c) <= List.length ps ->
  N.to_nat (num_paths c) <= List.length cells ->
  simulate_measurements sin (Some a) (Some c) v s =
    Some (tt, with_measurements_array s a
                ((cell_of_measurement <$>
                    (simulated sin v <$> take (N.to_nat (num_paths c)) ps))
                 ++ drop (N.to_nat (num_paths c)) cells)).
Proof.
  intros Ha Hps Hlp Hlc. unfold simulate_measurements, pbind. cbn [determinate].
  unfold pret. rewrite <- (with_measurements_array_id s a cells Ha) at 1.
  rewrite (simulate_loop_run sin _ 0 a c ps v cells s Hps) by lia.
  now rewrite take_0, drop_0.
Qed.

(** ** What [simulate_measurements] writes *)

Lemma SFsub_as_add x y : SF64sub x y = SF64add x (SFopp y).
Proof.
  destruct x as [sx|sx| |sx mx ex], y as [sy|sy| |sy my ey]; try reflexivity;
    now destruct sx, sy.
Qed.

Lemma float_sub_opp (x y : float) : (x - (- y) = x + y)%float.
Proof.
  apply Prim2SF_inj.
  now rewrite FloatAxioms.sub_spec, FloatAxioms.add_spec, FloatAxioms.opp_spec,
    SFsub_as_add, SFopp_involutive.
Qed.

Lemma float_add_opp (x y : float) : (x + (- y) = x - y)%float.
Proof.
  apply Prim2SF_inj.
  now rewrite FloatAxioms.sub_spec, FloatAxioms.add_spec, FloatAxioms.opp_spec,
    SFsub_as_add.
Qed.

Lemma SFadd_zero_or_nan a b :
  SFzero_or_nan a = true -> SFzero_or_nan b = true ->
  SFzero_or_nan (SF64add a b) = true.
Proof.
  destruct a as [sa|sa| |sa ma ea], b as [sb|sb| |sb mb eb]; try discriminate;
    try reflexivity.
  now destruct sa, sb.
Qed.

(** At zero flow the sound travels at 1480 m/s both ways. *)
Lemma sound_speed_still (v : float) :
  (v =? 0)%float = true -> (1480 - v = 1480 + v)%float.
Proof.
  rewrite FloatAxioms.eqb_spec. change (Prim2SF 0) with (S754_zero false).
  intros H. apply Prim2SF_inj.
  rewrite FloatAxioms.sub_spec, FloatAxioms.add_spec. revert H.
  destruct (Prim2SF v) as [s|s| |s m e]; intros H;
    [reflexivity|now destruct s|discriminate|now destruct s].
Qed.

Lemma simulated_reversed sin v p :
  simulated sin (- v) p = swap_times (simulated sin v p).
Proof.
  unfold simulated, swap_times. cbn [t_upstream t_downstream].
  now rewrite float_sub_opp, float_add_opp.
Qed.

Lemma simulated_reversed_list sin v (ps : list AcousticPath) :
  simulated sin (- v) <$> ps = swap_times <$> (simulated sin v <$> ps).
Proof.
  rewrite <- list_fmap_compose. apply list_fmap_ext.
  intros i p _. apply simulated_reversed.
Qed.

Lemma simulated_still sin v p :
  (v =? 0)%float = true ->
  t_upstream (simulated sin v p) = t_downstream (simulated sin v p).
Proof.
  intros H. unfold simulated. cbn [t_upstream t_downstream].
  now rewrite (sound_speed_still v H).
Qed.

Section PipelineFacts.
Variable sin : float -> float.

Lemma velocity_swap_fmirrored p ms :
  fmirrored (calculate_path_velocity sin (Some p) (Some (swap_times ms)))
            (calculate_path_velocity sin (Some p) (Some ms)).
Proof.
  unfold calculate_path_velocity, swap_times. cbn [t_upstream t_downstream].
  rewrite (orb_comm (t_downstream ms <=? 0)%float).
  destruct ((t_upstream ms <=? 0)%float || (t_downstream ms <=? 0)%float);
    [apply fmirrored_zero|].
  destruct (sin (angle p) =? 0)%float; [apply fmirrored_zero|].
  rewrite (float_mul_comm (t_downstream ms) (t_upstream ms)).
  apply fmirrored_mul_l, fmirrored_div, fmirrored_sub_swap.
Qed.

Lemma velocity_equal_times p ms :
  t_upstream ms = t_downstream ms ->
  zero_or_nan (calculate_path_velocity sin (Some p) (Some ms)) = true.
Proof.
  intros Heq. unfold calculate_path_velocity. rewrite <- Heq.
  destruct ((t_upstream ms <=? 0)%float || (t_upstream ms <=? 0)%float);
    [reflexivity|].
  destruct (sin (angle p) =? 0)%float; [reflexivity|].
  set (k := (length p / (2 * sin (angle p)))%float).
  rewrite zero_or_nan_spec, FloatAxioms.mul_spec, FloatAxioms.div_spec,
    FloatAxioms.sub_spec.
  apply SFmul_zero_or_nan, SFdiv_zero_or_nan, SFsub_diag.
Qed.

Lemma velocities_of_swapped ps :
  forall ms,
    Forall2 fmirrored (velocities_of sin ps (swap_times <$> ms)) (velocities_of sin ps ms).
Proof.
  induction ps as [|p ps IH]; intros [|mi ms]; try constructor.
  - apply velocity_swap_fmirrored.
  - apply IH.
Qed.

Lemma velocities_of_equal_times ps :
  forall ms,
    Forall (fun mi => t_upstream mi = t_downstream mi) ms ->
    Forall (fun x => zero_or_nan x = true) (velocities_of sin ps ms).
Proof.
  induction ps as [|p ps IH]; intros [|mi ms] H; try constructor.
  - apply velocity_equal_times. now inversion H.
  - apply IH. now inversion H.
Qed.

Lemma weighted_fold_pointwise_mirrored ps :
  forall vs' vs acc' acc,
    Forall2 fmirrored vs' vs -> fmirrored acc' acc ->
    fmirrored (fold_left accumulate (zip ps vs') acc')
              (fold_left accumulate (zip ps vs) acc).
Proof.
  induction ps as [|p ps IH]; intros vs' vs acc' acc Hvs Hacc; [exact Hacc|].
  destruct Hvs as [|x y vs' vs Hxy Hvs]; [exact Hacc|].
  cbn [zip zip_with fold_left]. apply IH; [exact Hvs|].
  unfold accumulate. cbn [fst snd].
  apply fmirrored_add; [exact Hacc|]. now apply fmirrored_mul_l.
Qed.

Lemma weighted_fold_zero_or_nan ps :
  forall vs acc,
    Forall (fun x => zero_or_nan x = true) vs -> zero_or_nan acc = true ->
    zero_or_nan (fold_left accumulate (zip ps vs) acc) = true.
Proof.
  induction ps as [|p ps IH]; intros vs acc Hvs Hacc; [exact Hacc|].
  destruct Hvs as [|x vs Hx Hvs]; [exact Hacc|].
  cbn [zip zip_with fold_left]. apply IH; [exact Hvs|].
  unfold accumulate. cbn [fst snd].
  rewrite zero_or_nan_spec in *.
  rewrite FloatAxioms.add_spec, FloatAxioms.mul_spec.
  apply SFadd_zero_or_nan; [exact Hacc|]. now apply SFmul_zero_or_nan.
Qed.

(** What a successful [flowmeter_process] hands to its caller. *)
Lemma flowmeter_process_holds c ps ms m r m' vs q :
  paths c = Some ps ->
  flowmeter_process sin (Some c) (Some ms) m = Some (Some r, m') ->
  holds_result m' r vs q ->
  let n := N.to_nat (num_paths c) in
  vs = velocities_of sin (take n ps) (take n ms) /\
  q = flow_of c (take n ps) vs.
Proof.
  intros Hps H Hr n.
  apply flowmeter_process_success in H as (c' & ms' & [= <-] & [= <-] & _ & _ & H).
  apply calculate_flow_rate_success in H as (ps' & Hps' & _ & _ & _ & _ & _ & Hr').
  rewrite Hps in Hps'. injection Hps' as <-.
  destruct (holds_result_unique _ _ _ _ _ _ Hr Hr') as [-> ->]. now split.
Qed.

End PipelineFacts.

(** X13.  [simulate_measurements] writes, for each of the first
    [num_paths] paths in turn, the transit times
    [length * sin(angle) / (1480 - v)] upstream and
    [length * sin(angle) / (1480 + v)] downstream into the measurement of
    the same index.  Later measurements, every other object, the
    allocator and the console are left alone; when the array has exactly
    [num_paths] elements, all of it is determinate afterwards. *)
Theorem simulate_measurements_fills (sin : float -> float) (a : addr)
    (c : FlowMeterConfig) (ps : list AcousticPath) (v : float)
    (cells : list measurement_cell) (s : program_state) :
  own s !! a = Some (Obj_measurements cells) ->
  paths c = Some ps ->
  N.to_nat (num_paths c) <= List.length ps ->
  N.to_nat (num_paths c) <= List.length cells ->
  let n := N.to_nat (num_paths c) in
  let ms := simulated sin v <$> take n ps in
  exists s',
    simulate_measurements sin (Some a) (Some c) v s = Some (tt, s') /\
    own s' !! a = Some (Obj_measurements ((cell_of_measurement <$> ms) ++ drop n cells)) /\
    (forall a', a' <> a -> own s' !! a' = own s !! a') /\
    meter s' = meter s /\ console s' = console s /\
    (List.length cells = n -> view_measurements (Some a) s' = Some (Some ms, s')).
Proof.
  intros Ha Hps Hlp Hlc n ms.
  eexists. split; [now apply (simulate_measurements_run sin a c ps v cells)|].
  fold n ms. unfold with_measurements_array. cbn [own meter console].
  split; [apply lookup_insert_eq|].
  split; [intros a' Hne; now rewrite lookup_insert_ne|].
  split; [reflexivity|]. split; [reflexivity|].
  intros Hn. apply view_measurements_at. cbn [own].
  rewrite drop_ge, app_nil_r by lia. apply lookup_insert_eq.
Qed.

(** The theorem above at the two-path configuration of a 0.1 m pipe and a
    fresh array of two measurements. *)
Lemma simulate_measurements_fills_witness :
  exists s',
    simulate_measurements sin_sample (Some 7%positive) (Some (preset_2path sin_sample 0.1)) 2
      (with_measurements_array (initial_state 0) 7%positive
         (replicate 2 indeterminate_measurement)) = Some (tt, s') /\
    view_measurements (Some 7%positive) s' =
      Some (Some (simulated sin_sample 2 <$>
                    default [] (paths (preset_2path sin_sample 0.1))), s').
Proof.
  destruct (simulate_measurements_fills sin_sample 7%positive (preset_2path sin_sample 0.1)
              (default [] (paths (preset_2path sin_sample 0.1))) 2
              (replicate 2 indeterminate_measurement)
              (with_measurements_array (initial_state 0) 7%positive
                 (replicate 2 indeterminate_measurement)))
    as (s' & Hrun & _ & _ & _ & _ & Hview).
  - reflexivity.
  - reflexivity.
  - vm_compute. lia.
  - vm_compute. lia.
  - exists s'. split; [exact Hrun|]. apply Hview. reflexivity.
Defined.

(** X14.  [simulate_measurements] writes past the end of an array that
    has fewer than [num_paths] elements, which is undefined behaviour; so
    is a call without a configuration. *)
Theorem simulate_measurements_out_of_bounds (sin : float -> float) (a : addr)
    (c : FlowMeterConfig) (v : float) (cells : list measurement_cell)
    (s : program_state) :
  own s !! a = Some (Obj_measurements cells) ->
  List.length cells < N.to_nat (num_paths c) ->
  simulate_measurements sin (Some a) (Some c) v s = None /\
  simulate_measurements sin (Some a) None v s = None.
Proof.
  intros Ha Hlt. split; [|reflexivity].
  unfold simulate_measurements, pbind. cbn [determinate]. unfold pret.
  destruct (simulate_loop sin _ 0 (Some a) c v s) as [res|] eqn:H; [|reflexivity].
  apply simulate_loop_bounds in H as [H|(ps & cells' & _ & Ha' & _ & H)]; [lia|].
  rewrite Ha in Ha'. injection Ha' as <-. lia.
Qed.

(** The theorem above at the four-path configuration and an array of two
    measurements. *)
Lemma simulate_measurements_out_of_bounds_witness :
  simulate_measurements sin_sample (Some 7%positive) (Some (preset_4path sin_sample 0.1)) 2
    (with_measurements_array (initial_state 0) 7%positive
       (replicate 2 indeterminate_measurement)) = None.
Proof.
  apply (simulate_measurements_out_of_bounds sin_sample 7%positive
           (preset_4path sin_sample 0.1) 2 (replicate 2 indeterminate_measurement)).
  - reflexivity.
  - vm_compute. lia.
Defined.

(** X15.  Reversing the flow exchanges the simulated transit times:
    [simulate_measurements] with velocity [-v] writes, path by path, the
    downstream time of velocity [v] upstream and the upstream time
    downstream, bit for bit. *)
Theorem reversed_flow_swaps_times (sin : float -> float) (a : addr)
    (c : FlowMeterConfig) (ps : list AcousticPath) (v : float)
    (cells : list measurement_cell) (s : program_state) :
  own s !! a = Some (Obj_measurements cells) ->
  paths c = Some ps ->
  N.to_nat (num_paths c) <= List.length ps ->
  N.to_nat (num_paths c) <= List.length cells ->
  let n := N.to_nat (num_paths c) in
  simulate_measurements sin (Some a) (Some c) (- v) s =
    Some (tt, with_measurements_array s a
                ((cell_of_measurement <$>
                    (swap_times <$> (simulated sin v <$> take n ps)))
                 ++ drop n cells)).
Proof.
  intros Ha Hps Hlp Hlc n.
  rewrite (simulate_measurements_run sin a c ps (- v) cells s Ha Hps Hlp Hlc).
  fold n. now rewrite simulated_reversed_list.
Qed.

(** The theorem above at the perpendicular path of length 40 and a flow
    of 2 m/s: reversed, the times are 40/1482 s upstream and 40/1478 s
    downstream. *)
Lemma reversed_flow_swaps_times_witness :
  simulate_measurements sin_sample (Some 7%positive) (Some (square_config 40)) (- 2)
    (with_measurements_array (initial_state 0) 7%positive [indeterminate_measurement])
  = Some (tt, with_measurements_array (initial_state 0) 7%positive
                [cell_of_measurement {| t_upstream := 40 / 1482;
                                        t_downstream := 40 / 1478 |}]).
Proof.
  rewrite (reversed_flow_swaps_times sin_sample 7%positive (square_config 40)
             [square_path 40] 2 [indeterminate_measurement]).
  - vm_compute. reflexivity.
  - reflexivity.
  - reflexivity.
  - vm_compute. lia.
  - vm_compute. lia.
Defined.

(** X16.  The pipeline of [main] is antisymmetric in the flow direction:
    processing the measurements simulated for velocity [-v] gives path
    velocities and a volumetric flow opposite, as IEEE 754 numbers, to
    those obtained from the measurements simulated for [v]. *)
Theorem reversed_simulation_negates_flow (sin : float -> float)
    (c : FlowMeterConfig) (ps : list AcousticPath) (v : float)
    (m m1 m2 : memory) (r1 r2 : addr) (vs1 vs2 : list float) (q1 q2 : float) :
  paths c = Some ps ->
  flowmeter_process sin (Some c) (Some (simulated sin v <$> ps)) m = Some (Some r1, m1) ->
  flowmeter_process sin (Some c) (Some (simulated sin (- v) <$> ps)) m
    = Some (Some r2, m2) ->
  holds_result m1 r1 vs1 q1 ->
  holds_result m2 r2 vs2 q2 ->
  Forall2 (fun x y => feq x (- y) = true) vs2 vs1 /\ feq q2 (- q1) = true.
Proof.
  intros Hps H1 H2 Hr1 Hr2.
  destruct (flowmeter_process_holds sin c ps _ m r1 m1 vs1 q1 Hps H1 Hr1) as [E1 ->].
  destruct (flowmeter_process_holds sin c ps _ m r2 m2 vs2 q2 Hps H2 Hr2) as [E2 ->].
  assert (Hvs : Forall2 fmirrored vs2 vs1).
  { rewrite E1, E2, simulated_reversed_list, <- fmap_take.
    apply velocities_of_swapped. }
  split.
  - eapply Forall2_impl; [exact Hvs|]. intros x y. apply fmirrored_feq.
  - apply fmirrored_feq. unfold flow_of, weighted_sum.
    apply fmirrored_mul_l, weighted_fold_pointwise_mirrored;
      [exact Hvs|apply fmirrored_zero].
Qed.

(** The theorem above at the perpendicular path of length 40 and 2 m/s:
    the velocities are 1.9999999999999685 and its opposite. *)
Lemma reversed_simulation_negates_flow_witness :
  Forall2 (fun x y => feq x (- y) = true)
    [(-1.9999999999999685)%float] [1.9999999999999685%float] /\
  feq (-0.015707963267948721) (PrimFloat.opp 0.015707963267948721) = true.
Proof.
  apply (reversed_simulation_negates_flow sin_sample (square_config 40) [square_path 40] 2
           (empty_memory 24)
           (final_memory (flowmeter_process sin_sample (Some (square_config 40))
                            (Some (simulated sin_sample 2 <$> [square_path 40]))
                            (empty_memory 24)) (empty_memory 24))
           (final_memory (flowmeter_process sin_sample (Some (square_config 40))
                            (Some (simulated sin_sample (- 2) <$> [square_path 40]))
                            (empty_memory 24)) (empty_memory 24))
           1%positive 1%positive).
  - reflexivity.
  - vm_compute. reflexivity.
  - vm_compute. reflexivity.
  - vm_compute. reflexivity.
  - vm_compute. reflexivity.
Defined.

(** X17.  A fluid at rest is measured at rest: from the measurements
    simulated for a zero velocity, [flowmeter_process] computes path
    velocities and a volumetric flow that are each a zero or, where an
    intermediate result was infinite or undefined, a NaN; never a
    non-zero number. *)
Theorem still_fluid_gives_zero_flow (sin : float -> float)
    (c : FlowMeterConfig) (ps : list AcousticPath) (v : float)
    (m m' : memory) (r : addr) (vs : list float) (q : float) :
  (v =? 0)%float = true ->
  paths c = Some ps ->
  flowmeter_process sin (Some c) (Some (simulated sin v <$> ps)) m = Some (Some r, m') ->
  holds_result m' r vs q ->
  Forall (fun x => zero_or_nan x = true) vs /\ zero_or_nan q = true.
Proof.
  intros Hv Hps H Hr.
  destruct (flowmeter_process_holds sin c ps _ m r m' vs q Hps H Hr) as [E ->].
  assert (Hvs : Forall (fun x => zero_or_nan x = true) vs).
  { rewrite E. apply velocities_of_equal_times, Forall_take, Forall_fmap, Forall_forall.
    intros p _. now apply simulated_still. }
  split; [exact Hvs|].
  unfold flow_of, weighted_sum. rewrite zero_or_nan_spec, FloatAxioms.mul_spec.
  apply SFmul_zero_or_nan. rewrite <- zero_or_nan_spec.
  now apply weighted_fold_zero_or_nan.
Qed.

(** The theorem above at the perpendicular path of length 40 and the
    velocity [-0]. *)
Lemma still_fluid_gives_zero_flow_witness :
  Forall (fun x => zero_or_nan x = true) [0%float] /\ zero_or_nan 0 = true.
Proof.
  apply (still_fluid_gives_zero_flow sin_sample (square_config 40) [square_path 40] (- 0)
           (empty_memory 24)
           (final_memory (flowmeter_process sin_sample (Some (square_config 40))
                            (Some (simulated sin_sample (- 0) <$> [square_path 40]))
                            (empty_memory 24)) (empty_memory 24))
           1%positive).
  - reflexivity.
  - reflexivity.
  - vm_compute. reflexivity.
  - vm_compute. reflexivity.
Defined.

(** ** Printing *)

Lemma quiet_app out1 out2 : quiet out1 -> quiet out2 -> quiet (out1 ++ out2).
Proof. unfold quiet. intros H1 H2. now rewrite existsb_app, H1, H2. Qed.

Lemma prints_ret {A} (a : A) s : prints (pret a) a s.
Proof.
  exists []. split; [reflexivity|]. unfold pret, with_console.
  now rewrite app_nil_r, program_state_eta.
Qed.

Lemma prints_bind {A B} (c : P A) (k : A -> P B) a b s :
  prints c a s ->
  (forall out, prints (k a) b (with_console s out)) ->
  prints (pbind c k) b s.
Proof.
  intros (out1 & Hq1 & E1) Hk.
  destruct (Hk (console s ++ out1)) as (out2 & Hq2 & E2).
  exists (out1 ++ out2). split; [now apply quiet_app|].
  unfold pbind. rewrite E1, E2. unfold with_console. cbn [meter own console].
  now rewrite app_assoc.
Qed.

Lemma prints_printf format args s : prints (printf format args) tt s.
Proof. exists [Stdout format args]. split; reflexivity. Qed.

(** A step that reads and leaves the state alone. *)
Lemma prints_read {A B} (c : P A) (k : A -> P B) a b s :
  c s = Some (a, s) -> prints (k a) b s -> prints (pbind c k) b s.
Proof.
  intros E (out & Hq & Ek). exists out. split; [exact Hq|].
  unfold pbind. now rewrite E.
Qed.

Lemma lift_read {A} (c : M A) a s :
  c (meter s) = Some (a, meter s) -> lift c s = Some (a, s).
Proof. intros E. unfold lift. now rewrite E, program_state_eta. Qed.

Lemma holds_result_inv m r vs q :
  holds_result m r vs q ->
  exists fr a,
    objs m !! r = Some (Obj_FlowResult fr) /\
    path_velocities fr = Some (Some a) /\
    volumetric_flow fr = Some q /\
    objs m !! a = Some (Obj_doubles (Some <$> vs)).
Proof.
  unfold holds_result, read_result. intros H.
  destruct (objs m !! r) as [[fr|]|] eqn:Hr; try discriminate.
  destruct (path_velocities fr) as [[a|]|] eqn:Hpv; try discriminate.
  destruct (objs m !! a) as [[|cells]|] eqn:Ha; try discriminate.
  injection H as -> Hq. exists fr, a. auto.
Qed.

Lemma print_paths_loop_prints remaining :
  forall i c ps s,
    paths c = Some ps -> i + remaining <= List.length ps ->
    prints (print_paths_loop remaining i c) tt s.
Proof.
  induction remaining as [|k IH]; intros i c ps s Hps Hi; [apply prints_ret|].
  destruct (lookup_lt_is_Some_2 ps i) as [p Hp]; [lia|].
  cbn [print_paths_loop].
  eapply prints_bind; [apply prints_printf|intros out0].
  rewrite Hps. eapply prints_read; [reflexivity|].
  rewrite Hp. eapply prints_read; [reflexivity|].
  do 4 (eapply prints_bind; [apply prints_printf|intros ?]).
  apply (IH (S i) c ps); [exact Hps|lia].
Qed.

Lemma print_config_prints c ps s :
  paths c = Some ps -> N.to_nat (num_paths c) <= List.length ps ->
  prints (print_config (Some c)) tt s.
Proof.
  intros Hps Hn. unfold print_config.
  eapply prints_bind; [apply prints_printf|intros ?].
  eapply prints_read; [reflexivity|].
  do 4 (eapply prints_bind; [apply prints_printf|intros ?]).
  now apply (print_paths_loop_prints _ 0 c ps).
Qed.

Lemma print_measurements_loop_prints remaining :
  forall i a ms s,
    own s !! a = Some (Obj_measurements (cell_of_measurement <$> ms)) ->
    i + remaining <= List.length ms ->
    prints (print_measurements_loop remaining i (Some a)) tt s.
Proof.
  induction remaining as [|k IH]; intros i a ms s Ha Hi; [apply prints_ret|].
  destruct (lookup_lt_is_Some_2 ms i) as [mi Hmi]; [lia|].
  assert (Hload : forall s', own s' = own s ->
            load_measurement_cell (Some a) i s' = Some (cell_of_measurement mi, s')).
  { intros s' E. unfold load_measurement_cell.
    now rewrite E, Ha, list_lookup_fmap, Hmi. }
  cbn [print_measurements_loop].
  do 4 (eapply prints_read; [now apply Hload|];
        eapply prints_read; [reflexivity|]).
  eapply prints_bind; [apply prints_printf|intros out0].
  apply (IH (S i) a ms); [exact Ha|lia].
Qed.

Lemma print_velocities_loop_prints remaining :
  forall i r vs q s,
    holds_result (meter s) r vs q ->
    i + remaining <= List.length vs ->
    prints (print_velocities_loop remaining i (Some r)) tt s.
Proof.
  induction remaining as [|k IH]; intros i r vs q s Hr Hi; [apply prints_ret|].
  destruct (lookup_lt_is_Some_2 vs i) as [v Hv]; [lia|].
  destruct (holds_result_inv _ _ _ _ Hr) as (fr & a & Hfr & Hpv & _ & Ha).
  cbn [print_velocities_loop].
  eapply prints_read; [reflexivity|].
  eapply prints_read;
    [apply lift_read, (load_path_velocities_at r _ fr (Some a) Hfr Hpv)|].
  eapply prints_read.
  { apply lift_read. unfold load_double. now rewrite Ha, list_lookup_fmap, Hv. }
  eapply prints_bind; [apply prints_printf|intros out0].
  apply (IH (S i) r vs q); [exact Hr|lia].
Qed.

Lemma print_results_prints r c vs q s :
  holds_result (meter s) r vs q ->
  N.to_nat (num_paths c) <= List.length vs ->
  prints (print_results (Some r) (Some c)) tt s.
Proof.
  intros Hr Hn. unfold print_results.
  destruct (holds_result_inv _ _ _ _ Hr) as (fr & a & Hfr & _ & Hq & _).
  assert (Hflow : forall s', meter s' = meter s ->
            lift (load_volumetric_flow r) s' = Some (q, s')).
  { intros s' E. apply lift_read. unfold load_volumetric_flow, bind, load_result.
    now rewrite E, Hfr, Hq. }
  eapply prints_bind; [apply prints_printf|intros ?].
  eapply prints_read; [reflexivity|].
  eapply prints_bind; [now apply (print_velocities_loop_prints _ 0 r vs q)|intros ?].
  eapply prints_bind; [apply prints_printf|intros ?].
  eapply prints_read; [reflexivity|].
  eapply prints_read; [now apply Hflow|].
  eapply prints_bind; [apply prints_printf|intros ?].
  eapply prints_read; [now apply Hflow|].
  eapply prints_bind; [apply prints_printf|intros ?].
  eapply prints_read; [now apply Hflow|].
  apply prints_printf.
Qed.

Lemma print_paths_loop_bounds remaining :
  forall i c s res,
    print_paths_loop remaining i c s = Some res ->
    remaining = 0 \/ exists ps, paths c = Some ps /\ i + remaining <= List.length ps.
Proof.
  induction remaining as [|k IH]; intros i c s [u0 s0] H; [now left|right].
  cbn [print_paths_loop] in H.
  apply pbind_Some in H as (u & s1 & _ & H).
  destruct (paths c) as [ps|] eqn:Hps; [|discriminate].
  apply pbind_Some in H as (ps' & s2 & [= <- <-] & H).
  destruct (ps !! i) as [p|] eqn:Hp; [|discriminate].
  apply pbind_Some in H as (p' & s3 & _ & H).
  do 4 apply pbind_Some in H as (? & ? & _ & H).
  apply lookup_lt_Some in Hp. exists ps. split; [reflexivity|].
  apply IH in H as [->|(ps' & Hps' & H)]; [lia|].
  rewrite Hps in Hps'. injection Hps' as <-. lia.
Qed.

(** X19.  [print_config] and [print_results] only print.  Given a
    configuration with at least [num_paths] paths, [print_config] returns
    having changed nothing but the console, and writes nothing to
    [stderr]; so does [print_results], given in addition a populated
    result with at least [num_paths] velocities.  With fewer paths than
    [num_paths], [print_config] reads past the end of the array, which is
    undefined behaviour. *)
Theorem printing_changes_only_the_console (c : FlowMeterConfig)
    (ps : list AcousticPath) (s : program_state) :
  paths c = Some ps ->
  (N.to_nat (num_paths c) <= List.length ps ->
   (exists out,
      print_config (Some c) s = Some (tt, with_console s (console s ++ out)) /\
      existsb is_stderr out = false) /\
   (forall r vs q,
      holds_result (meter s) r vs q ->
      N.to_nat (num_paths c) <= List.length vs ->
      exists out,
        print_results (Some r) (Some c) s = Some (tt, with_console s (console s ++ out)) /\
        existsb is_stderr out = false)) /\
  (List.length ps < N.to_nat (num_paths c) -> print_config (Some c) s = None).
Proof.
  intros Hps. split.
  - intros Hn. split.
    + destruct (print_config_prints c ps s Hps Hn) as (out & Hq & E). now exists out.
    + intros r vs q Hr Hvs.
      destruct (print_results_prints r c vs q s Hr Hvs) as (out & Hq & E). now exists out.
  - intros Hlt. destruct (print_config (Some c) s) as [[u0 s0]|] eqn:H; [|reflexivity].
    unfold print_config in H.
    apply pbind_Some in H as (u & s1 & _ & H).
    apply pbind_Some in H as (c' & s2 & [= <- <-] & H).
    do 4 apply pbind_Some in H as (? & ? & _ & H).
    apply print_paths_loop_bounds in H as [H|(ps' & Hps' & H)]; [lia|].
    rewrite Hps in Hps'. injection Hps' as <-. lia.
Qed.

(** The theorem above at the two-path configuration of a 0.1 m pipe. *)
Lemma printing_changes_only_the_console_witness :
  exists out,
    print_config (Some (preset_2path sin_sample 0.1)) (initial_state 0) =
      Some (tt, with_console (initial_state 0) (console (initial_state 0) ++ out)) /\
    existsb is_stderr out = false.
Proof.
  destruct (proj1 (printing_changes_only_the_console (preset_2path sin_sample 0.1)
                     (default [] (paths (preset_2path sin_sample 0.1)))
                     (initial_state 0) eq_refl)) as [H _].
  - vm_compute. lia.
  - exact H.
Defined.

(** ** [flowmeter_process] and [flowmeter_result_free], forwards *)

Section ProcessRun.
Variable sin : float -> float.

Lemma flowmeter_process_run c ms ps m :
  paths c = Some ps -> num_paths c <> 0%N ->
  N.to_nat (num_paths c) <= List.length ps ->
  N.to_nat (num_paths c) <= List.length ms ->
  flowmeter_process sin (Some c) (Some ms) m =
    if (bytes_needed c <=? avail m)%N then
      let n := N.to_nat (num_paths c) in
      let r := fresh (dom (objs m)) in
      let a := fresh ({[r]} ∪ dom (objs m)) in
      let vs := velocities_of sin (take n ps) (take n ms) in
      Some (Some r, result_memory m r a vs (flow_of c (take n ps) vs) (bytes_needed c))
    else Some (None, m).
Proof.
  intros Hps Hz Hlp Hlm. unfold flowmeter_process, bind at 1, malloc, bytes_needed.
  destruct (N.leb_spec sizeof_FlowResult (avail m)) as [Hle|Hlt].
  2:{ destruct (N.leb_spec (sizeof_FlowResult + num_paths c * sizeof_double) (avail m));
        [lia|reflexivity]. }
  set (r := fresh (dom (objs m))).
  set (fr0 := {| path_velocities := None; volumetric_flow := None |}).
  assert (Hr : objs m !! r = None) by apply not_elem_of_dom, is_fresh.
  unfold bind at 1.
  erewrite (calculate_flow_rate_run sin c ms r _ fr0)
    by (cbn [objs]; apply lookup_insert_eq).
  apply N.eqb_neq in Hz. rewrite Hz, Hps. cbn [orb is_null objs avail].
  destruct (N.leb_spec (num_paths c * sizeof_double) (avail m - sizeof_FlowResult))
    as [Hle2|Hlt2].
  - destruct (N.leb_spec (sizeof_FlowResult + num_paths c * sizeof_double) (avail m));
      [|lia].
    cbn zeta. destruct (decide _) as [_|Hn]; [|now destruct Hn].
    cbn [Z.eqb]. unfold ret. rewrite dom_insert_L.
    set (a := fresh ({[r]} ∪ dom (objs m))).
    assert (Hne : a <> r)
      by (pose proof (is_fresh ({[r]} ∪ dom (objs m))); set_solver).
    do 2 f_equal. unfold result_memory. cbn [objs avail]. f_equal.
    + rewrite (insert_insert_ne _ a r) by exact Hne. now rewrite insert_insert_eq.
    + lia.
  - destruct (N.leb_spec (sizeof_FlowResult + num_paths c * sizeof_double) (avail m));
      [lia|].
    cbn [Z.eqb]. unfold bind, free, null_velocities, ret. cbn [objs avail].
    rewrite lookup_insert_eq, !delete_insert_eq, delete_id by exact Hr.
    cbn [size_of]. rewrite N.sub_add by exact Hle. now rewrite memory_eta.
Qed.

End ProcessRun.

Lemma flowmeter_result_free_result_memory m r a vs q sz :
  objs m !! r = None -> objs m !! a = None -> a <> r ->
  sz = (sizeof_FlowResult + sizeof_double * N.of_nat (List.length vs))%N ->
  (sz <= avail m)%N ->
  flowmeter_result_free (Some r) (result_memory m r a vs q sz) = Some (tt, m).
Proof.
  intros Hr Ha Hne -> Hle. unfold flowmeter_result_free, bind.
  erewrite load_path_velocities_at;
    [|unfold result_memory; cbn [objs]; apply lookup_insert_eq|reflexivity].
  unfold free, result_memory. cbn [objs avail].
  rewrite lookup_insert_ne, lookup_insert_eq by congruence.
  cbn [objs avail].
  rewrite lookup_delete_ne, lookup_insert_eq by congruence.
  f_equal. f_equal.
  rewrite (delete_insert_ne _ a r), delete_insert_eq, delete_insert_eq by congruence.
  rewrite (delete_id _ a Ha), (delete_id _ r Hr).
  cbn [size_of]. rewrite length_fmap.
  replace (avail m - (sizeof_FlowResult + sizeof_double * N.of_nat (List.length vs))
           + sizeof_double * N.of_nat (List.length vs) + sizeof_FlowResult)%N
    with (avail m) by lia.
  apply memory_eta.
Qed.

(** ** One half of [main] *)

(** Releasing the measurements and the configuration of one half. *)
Lemma release_run {A} (k : P A) s cfg b a cc pcells cells n out :
  own s !! cfg = None -> own s !! b = None -> own s !! a = None ->
  b <> cfg -> a <> cfg -> a <> b ->
  cell_paths cc = Some (Some b) ->
  List.length pcells = N.to_nat n -> List.length cells = N.to_nat n ->
  (config_bytes n + n * sizeof_PathMeasurement <= avail (meter s))%N ->
  (let+ _ := free_ptr (Some a) in
   let+ _ := free_config (Some cfg) in
   k)
    {| meter := {| objs := objs (meter s);
                   avail := avail (meter s) - config_bytes n - n * sizeof_PathMeasurement |};
       own := <[a := Obj_measurements cells]>
                (<[b := Obj_paths pcells]> (<[cfg := Obj_config cc]> (own s)));
       console := out |}
  = k (with_console s out).
Proof.
  intros Hcfg Hb Ha Hbc Hac Hab Hcc Hlp Hlc Hle.
  unfold pbind at 1. cbn [free_ptr]. unfold pfree. cbn [own meter console objs avail].
  rewrite lookup_insert_eq, delete_insert_eq.
  rewrite delete_id by (rewrite !lookup_insert_ne by congruence; exact Ha).
  unfold pbind at 1.
  erewrite free_config_at; [|cbn [own]; reflexivity|exact Hcc|exact Hbc].
  cbn [own meter console objs avail demo_size_of].
  rewrite (delete_id _ b Hb), (delete_id _ cfg Hcfg), Hlp, Hlc, !N2Nat.id.
  replace (avail (meter s) - config_bytes n - n * sizeof_PathMeasurement
           + sizeof_PathMeasurement * n + sizeof_AcousticPath * n
           + sizeof_FlowMeterConfig)%N with (avail (meter s))
    by (unfold config_bytes in *; lia).
  now rewrite memory_eta.
Qed.

Lemma fresh_triple (live : gmap addr demo_object) x y :
  let cfg := fresh (dom live) in
  let b := fresh ({[cfg]} ∪ dom live) in
  let a := fresh (dom (<[b := x]> (<[cfg := y]> live))) in
  live !! a = None /\ a <> cfg /\ a <> b.
Proof.
  intros cfg b a.
  pose proof (is_fresh (dom (<[b := x]> (<[cfg := y]> live)))) as H. fold a in H.
  rewrite !dom_insert_L in H.
  repeat split.
  - apply not_elem_of_dom. set_solver.
  - set_solver.
  - set_solver.
Qed.

Lemma config_eta c ps :
  paths c = Some ps ->
  {| pipe_diameter := pipe_diameter c; num_paths := num_paths c; paths := Some ps |} = c.
Proof. intros <-. now destruct c. Qed.

(** Looking up one of the three objects of a half of [main]. *)
Ltac own_lookup :=
  cbn [own meter console with_console with_measurements_array];
  repeat (rewrite lookup_insert_ne by congruence);
  apply lookup_insert_eq.

Section Demonstrate.
Variables (sin : float -> float) (create : float -> P (option addr))
  (create_error : string) (d v : float) (rest : P Z)
  (c : FlowMeterConfig) (ps : list AcousticPath).
Hypothesis Hcreate : forall s,
  create d s =
    if (config_bytes (num_paths c) <=? avail (meter s))%N then
      let cfg := fresh (dom (own s)) in
      let b := fresh ({[cfg]} ∪ dom (own s)) in
      Some (Some cfg, with_config s cfg b c ps (config_bytes (num_paths c)))
    else Some (None, s).
Hypothesis Hz : num_paths c <> 0%N.
Hypothesis Hps : paths c = Some ps.
Hypothesis Hlen : List.length ps = N.to_nat (num_paths c).

Lemma demonstrate_run (s : program_state) :
  exists out,
    (if (demonstration_bytes (num_paths c) <=? avail (meter s))%N then quiet out
     else existsb is_stderr out = true) /\
    demonstrate sin create (num_paths c) create_error d v rest s =
      (if (demonstration_bytes (num_paths c) <=? avail (meter s))%N then rest
       else pret 1%Z) (with_console s (console s ++ out)).
Proof.
  unfold demonstrate, demonstration_bytes. unfold pbind at 1. rewrite Hcreate.
  destruct (N.leb_spec (config_bytes (num_paths c)) (avail (meter s))) as [Hle1|Hlt1].
  2:{ exists [Stderr create_error]. rewrite (proj2 (N.leb_gt _ _)) by lia.
      split; reflexivity. }
  cbn zeta.
  destruct (fresh_pair (own s)) as (Hcfg & Hb & Hbc).
  set (cfg := fresh (dom (own s))) in *.
  set (b := fresh ({[cfg]} ∪ dom (own s))) in *.
  cbn [is_null].
  unfold pbind at 1. rewrite (with_config_view _ _ _ _ _ _ Hps Hbc).
  destruct (print_config_prints c ps (with_config s cfg b c ps (config_bytes (num_paths c))) Hps)
    as (o1 & Hq1 & E1); [lia|].
  unfold pbind at 1. rewrite E1.
  unfold with_config at 1 2, with_console at 1. cbn [meter own console objs avail].
  unfold pbind at 1, pmalloc. cbn [meter own console objs avail].
  destruct (N.leb_spec (num_paths c * sizeof_PathMeasurement) (avail (meter s) - config_bytes (num_paths c)))
    as [Hle2|Hlt2].
  2:{ exists (o1 ++ [Stderr "Error: Failed to allocate measurements\n"]).
      rewrite (proj2 (N.leb_gt _ _)) by lia.
      split; [rewrite existsb_app; apply orb_true_r|].
      cbn [is_null]. unfold pbind at 1, fprintf_stderr. cbn [meter own console].
      unfold pbind at 1.
      erewrite free_config_at; [|cbn [own]; reflexivity|reflexivity|exact Hbc].
      cbn [meter own console objs avail]. unfold pret, with_console.
      rewrite (delete_id _ b Hb), (delete_id _ cfg Hcfg), length_fmap, Hlen, N2Nat.id.
      replace (avail (meter s) - config_bytes (num_paths c) + sizeof_AcousticPath * (num_paths c)
               + sizeof_FlowMeterConfig)%N with (avail (meter s))
        by (unfold config_bytes in *; lia).
      now rewrite memory_eta, app_assoc. }
  match goal with
  | |- context [fresh (dom (<[b := ?x]> (<[cfg := ?y]> (own s))))] =>
      destruct (fresh_triple (own s) x y) as (Ha & Hac & Hab);
      fold cfg in Ha, Hac, Hab; fold b in Ha, Hac, Hab;
      set (a := fresh (dom (<[b := x]> (<[cfg := y]> (own s))))) in *
  end.
  cbn [is_null].
  set (ms := simulated sin v <$> ps).
  assert (Hms : List.length ms = N.to_nat (num_paths c)) by (unfold ms; now rewrite length_fmap).
  unfold pbind at 1.
  erewrite (view_config_at _ cfg b (pipe_diameter c) (num_paths c) ps) by own_lookup.
  rewrite (config_eta c ps Hps).
  unfold pbind at 1.
  erewrite (simulate_measurements_run sin a c ps v)
    by first [own_lookup | exact Hps | rewrite ?length_replicate; lia].
  rewrite (take_ge ps), (drop_ge (replicate _ _)), app_nil_r
    by (rewrite ?length_replicate; lia).
  fold ms. unfold with_measurements_array. cbn [meter own console].
  rewrite insert_insert_eq.
  unfold pbind at 1, printf at 1. cbn [meter own console].
  match goal with
  | |- context [pbind (print_measurements_loop _ _ _) _ ?S] =>
      destruct (print_measurements_loop_prints (N.to_nat (num_paths c)) 0 a ms S) as (o2 & Hq2 & E2);
      [own_lookup|lia|]
  end.
  unfold pbind at 1. rewrite E2. unfold with_console at 1. cbn [meter own console].
  unfold pbind at 1.
  erewrite (view_config_at _ cfg b (pipe_diameter c) (num_paths c) ps) by own_lookup.
  rewrite (config_eta c ps Hps).
  unfold pbind at 1.
  erewrite (view_measurements_at _ a ms) by own_lookup.
  unfold pbind at 1, lift at 1. cbn [meter own console].
  rewrite (flowmeter_process_run sin c ms ps) by first [assumption|lia].
  unfold bytes_needed. cbn [objs avail].
  set (banner := Stdout "\nSimulated Measurements (True flow velocity: %.2f m/s):\n"
                   [Arg_double v]).
  destruct (N.leb_spec (sizeof_FlowResult + num_paths c * sizeof_double)
              (avail (meter s) - config_bytes (num_paths c) - num_paths c * sizeof_PathMeasurement))
    as [Hle3|Hlt3].
  2:{ exists (o1 ++ [banner] ++ o2
              ++ [Stderr "Error: Failed to process flow measurements\n"]).
      rewrite (proj2 (N.leb_gt _ _)) by lia.
      split; [rewrite !existsb_app; cbn [existsb is_stderr]; now rewrite !orb_true_r|].
      cbn [is_null]. unfold pbind at 1, fprintf_stderr. cbn [meter own console].
      rewrite (release_run (pret 1%Z) s cfg b a _ _ _ (num_paths c))
        by first [assumption | reflexivity | now rewrite length_fmap | lia].
      now rewrite <- !app_assoc. }
  cbn zeta.
  destruct (fresh_pair (objs (meter s))) as (Hr & Hpv & Hpr).
  set (r := fresh (dom (objs (meter s)))) in *.
  set (pv := fresh ({[r]} ∪ dom (objs (meter s)))) in *.
  set (vs := velocities_of sin (take (N.to_nat (num_paths c)) ps) (take (N.to_nat (num_paths c)) ms)).
  assert (Hvs : List.length vs = N.to_nat (num_paths c))
    by (apply velocities_of_length; lia).
  cbn [is_null].
  unfold pbind at 1.
  erewrite (view_config_at _ cfg b (pipe_diameter c) (num_paths c) ps) by own_lookup.
  rewrite (config_eta c ps Hps).
  match goal with
  | |- context [pbind (print_results _ _) _ ?S] =>
      destruct (print_results_prints r c vs (flow_of c (take (N.to_nat (num_paths c)) ps) vs) S)
        as (o3 & Hq3 & E3);
      [now apply read_result_result_memory|lia|]
  end.
  unfold pbind at 1. rewrite E3. unfold with_console at 1. cbn [meter own console].
  unfold pbind at 1, lift at 1. cbn [meter own console].
  rewrite flowmeter_result_free_result_memory
    by first [assumption | cbn [objs avail]; rewrite ?Hvs, ?N2Nat.id; lia].
  exists (o1 ++ [banner] ++ o2 ++ o3).
  rewrite (proj2 (N.leb_le _ _)) by lia.
  split; [repeat apply quiet_app; first [assumption|reflexivity]|].
  rewrite (release_run rest s cfg b a _ _ _ (num_paths c))
    by first [assumption | reflexivity | now rewrite length_fmap | lia].
  now rewrite <- !app_assoc.
Qed.

End Demonstrate.

(** ** [main] *)

Lemma main_unfold (sin : float -> float) :
  main sin =
    let+ _ := printf "=== Ultrasonic Multipath Flow Meter ===\n\n" [] in
    let+ _ := printf "### 2-PATH CONFIGURATION ###\n\n" [] in
    demonstrate sin (create_2path_config sin) 2
      "Error: Failed to create 2-path configuration\n" 0.1 2
      (let+ _ := printf "\n\n### 4-PATH CONFIGURATION ###\n\n" [] in
       demonstrate sin (create_4path_config sin) 4
         "Error: Failed to create 4-path configuration\n" 0.1 2
         (let+ _ := printf "\n=== End of Demonstration ===\n" [] in
          pret 0%Z)).
Proof. reflexivity. Qed.

Lemma create_2path_config_spec (sin : float -> float) (d : float) s :
  create_2path_config sin d s =
    if (config_bytes (num_paths (preset_2path sin d)) <=? avail (meter s))%N then
      let cfg := fresh (dom (own s)) in
      let b := fresh ({[cfg]} ∪ dom (own s)) in
      Some (Some cfg,
            with_config s cfg b (preset_2path sin d)
              [ {| position := 0.25; angle := M_PI / 4;
                   length := d / sin (M_PI / 4)%float; weight := 0.5 |};
                {| position := -0.25; angle := M_PI / 4;
                   length := d / sin (M_PI / 4)%float; weight := 0.5 |} ]
              (config_bytes (num_paths (preset_2path sin d))))
    else Some (None, s).
Proof. now rewrite create_2path_config_run. Qed.

Lemma create_4path_config_spec (sin : float -> float) (d : float) s :
  create_4path_config sin d s =
    if (config_bytes (num_paths (preset_4path sin d)) <=? avail (meter s))%N then
      let cfg := fresh (dom (own s)) in
      let b := fresh ({[cfg]} ∪ dom (own s)) in
      Some (Some cfg,
            with_config s cfg b (preset_4path sin d)
              [ {| position := 0.35; angle := M_PI / 3;
                   length := d / sin (M_PI / 3)%float; weight := 0.25 |};
                {| position := -0.35; angle := M_PI / 3;
                   length := d / sin (M_PI / 3)%float; weight := 0.25 |};
                {| position := 0.15; angle := M_PI / 4;
                   length := d / sin (M_PI / 4)%float; weight := 0.25 |};
                {| position := -0.15; angle := M_PI / 4;
                   length := d / sin (M_PI / 4)%float; weight := 0.25 |} ]
              (config_bytes (num_paths (preset_4path sin d))))
    else Some (None, s).
Proof. now rewrite create_4path_config_run. Qed.

(** X18.  [main] is free of undefined behaviour and of leaks, for every
    budget of the allocator ([malloc] succeeds exactly when the bytes it
    is asked for are available) and whatever [sin] returns: from any
    state it terminates, having changed nothing but the console; every
    object it allocated is released again and every byte is available
    again, also when an allocation is refused half-way.  It returns 0
    when 264 bytes, the peak of the four-path half, are available and 1
    otherwise, and it writes to [stderr] exactly when it returns 1. *)
Theorem main_releases_everything (sin : float -> float) (s : program_state) :
  exists out,
    main sin s =
      Some (if (264 <=? avail (meter s))%N then 0%Z else 1%Z,
            with_console s (console s ++ out)) /\
    existsb is_stderr out = negb (264 <=? avail (meter s))%N.
Proof.
  rewrite main_unfold. unfold pbind at 1 2, printf at 1 2. cbn [meter own console].
  match goal with
  | |- context [demonstrate sin (create_2path_config sin) 2 ?msg ?d ?v ?rest ?S] =>
      destruct (demonstrate_run sin (create_2path_config sin) msg d v rest
                  (preset_2path sin d) _ (create_2path_config_spec sin d)
                  ltac:(discriminate) eq_refl eq_refl S) as (o2 & H2 & E2)
  end.
  cbn [num_paths preset_2path meter own console with_console] in H2, E2.
  change (demonstration_bytes 2) with 152%N in H2, E2.
  rewrite E2. clear E2.
  destruct (N.leb_spec 152 (avail (meter s))) as [Hle2|Hlt2].
  2:{ eexists (_ :: _ :: o2). rewrite (proj2 (N.leb_gt _ _)) by lia.
      split; [unfold pret, with_console; now rewrite <- !app_assoc|].
      cbn [existsb is_stderr orb negb]. exact H2. }
  unfold pbind at 1, printf at 1. cbn [meter own console with_console].
  match goal with
  | |- context [demonstrate sin (create_4path_config sin) 4 ?msg ?d ?v ?rest ?S] =>
      destruct (demonstrate_run sin (create_4path_config sin) msg d v rest
                  (preset_4path sin d) _ (create_4path_config_spec sin d)
                  ltac:(discriminate) eq_refl eq_refl S) as (o4 & H4 & E4)
  end.
  cbn [num_paths preset_4path meter own console with_console] in H4, E4.
  change (demonstration_bytes 4) with 264%N in H4, E4.
  rewrite E4. clear E4.
  exists ([Stdout "=== Ultrasonic Multipath Flow Meter ===\n\n" [];
           Stdout "### 2-PATH CONFIGURATION ###\n\n" []]
          ++ o2 ++ [Stdout "\n\n### 4-PATH CONFIGURATION ###\n\n" []] ++ o4
          ++ (if (264 <=? avail (meter s))%N
              then [Stdout "\n=== End of Demonstration ===\n" []] else [])).
  destruct (264 <=? avail (meter s))%N.
  - split.
    + unfold pbind, printf, pret, with_console. cbn [meter own console].
      now rewrite <- !app_assoc.
    + apply (quiet_app [_; _]); [reflexivity|].
      repeat apply quiet_app; first [assumption|reflexivity].
  - split.
    + unfold pret, with_console. rewrite app_nil_r. now rewrite <- !app_assoc.
    + rewrite !existsb_app, H4. cbn. now rewrite !orb_true_r.
Qed.

